(** * User-management plugin: record store, commands and reminder scan

    A shallow embedding of [main.py] (classes [UserManager] and
    [UserManagementPlugin]) together with the parts of the Python
    standard library it calls: [datetime] (proleptic Gregorian calendar,
    [strptime]/[strftime] with the format [%Y-%m-%d], [timedelta]
    arithmetic), [str] methods and the two regular expressions of
    [extract_at_user].

    Conventions.
    - A Python [str] is the [string] of its UTF-8 bytes.  Character classes
      ([\d], the white space of [str.split], the case pairs of
      [str.lower], the digits of [int] and [strptime]) are those of the
      ASCII repertoire.  Python's classes are wider (full-width digits,
      the ideographic space); the two agree on the texts that [plain]
      accepts, and a statement that depends on how a text is split or
      read is made for such a text, or for a text that the definitions
      here read.
    - A [datetime] is kept as its proleptic Gregorian ordinal
      ([date.toordinal()]) and the microsecond within the day; CPython does
      all [timedelta] arithmetic through that ordinal, and the order of
      ordinals is the order of (year, month, day) ([ymd2ord_lt]).  [%Y] is
      written on four digits, as every platform does from the year 1000
      on ([FIRST_PADDED]); for an earlier year the C library decides.
    - The two documents follow their schema: [users.json] is an object of
      objects with string values, [config.json] has the five known keys.
      A file that is missing or is not JSON is [None]; a file that cannot
      be opened or decoded, or holds other JSON, makes the code raise and
      has no counterpart here.  Writing a file succeeds.
    - Files, the fields of the plugin object, the wall clock and what is
      handed to the host are fields of one state record threaded through a
      state-and-exception monad.  Every [datetime.now()] takes a new
      reading of the clock.  Log lines are left out.
    - The definitions come first, in the order of [main.py]; the facts and
      the theorems on them follow. *)

From Stdlib Require Import ZArith Lia Bool Ascii String List.
From Stdlib Require Import DecimalString DecimalZ.
From stdpp Require Import base option list gmap strings.

Local Open Scope Z_scope.

(* ===================================================================== *)
(** ** Text *)
(* ===================================================================== *)

Module Text.

Definition is_digit (c : ascii) : bool :=
  let n := Z.of_nat (nat_of_ascii c) in (48 <=? n) && (n <=? 57).

Definition digit_val (c : ascii) : Z := Z.of_nat (nat_of_ascii c) - 48.

Definition digit_chr (d : Z) : ascii := ascii_of_nat (Z.to_nat (48 + d)).

(** White space of [str.split()] and [str.strip()]: TAB, LF, VT, FF, CR,
    the separators 0x1c-0x1f and the space. *)
Definition is_space (c : ascii) : bool :=
  let n := Z.of_nat (nat_of_ascii c) in
  ((9 <=? n) && (n <=? 13)) || ((28 <=? n) && (n <=? 32)).

Definition lower_chr (c : ascii) : ascii :=
  let n := nat_of_ascii c in
  if (65 <=? n)%nat && (n <=? 90)%nat then ascii_of_nat (n + 32) else c.

(** [str.lower()] *)
Fixpoint lower (s : string) : string :=
  match s with
  | EmptyString => EmptyString
  | String c s' => String (lower_chr c) (lower s')
  end.

Fixpoint lstrip (s : string) : string :=
  match s with
  | String c s' => if is_space c then lstrip s' else s
  | EmptyString => EmptyString
  end.

Fixpoint rstrip (s : string) : string :=
  match s with
  | EmptyString => EmptyString
  | String c s' =>
      match rstrip s' with
      | EmptyString => if is_space c then EmptyString else String c EmptyString
      | r => String c r
      end
  end.

(** [str.strip()] *)
Definition strip (s : string) : string := rstrip (lstrip s).

(** [split_go cur s]: [cur] is the word being read, most recent
    character first. *)
Fixpoint split_go (cur : list ascii) (s : string) : list string :=
  let flush := match cur with
               | [] => []
               | _ => [string_of_list_ascii (rev cur)]
               end in
  match s with
  | EmptyString => flush
  | String c s' =>
      if is_space c then flush ++ split_go [] s'
      else split_go (c :: cur) s'
  end.

(** [str.split()] without arguments: maximal runs of non-space
    characters. *)
Definition split (s : string) : list string := split_go [] s.

(** [str(n)] and the [{n}] of an f-string for an [int]. *)
Definition str_of_int (n : Z) : string := NilZero.string_of_int (Z.to_int n).

(** Longest prefix of decimal digits, and what follows it. *)
Fixpoint span_digits (s : string) : string * string :=
  match s with
  | String c s' =>
      if is_digit c then let '(ds, r) := span_digits s' in (String c ds, r)
      else (EmptyString, s)
  | EmptyString => (EmptyString, EmptyString)
  end.

Fixpoint all_digits (s : string) : bool :=
  match s with
  | EmptyString => true
  | String c s' => is_digit c && all_digits s'
  end.

(** [strip_prefix p s = Some r] when [s = p ++ r]. *)
Fixpoint strip_prefix (p s : string) : option string :=
  match p, s with
  | EmptyString, _ => Some s
  | String a p', String b s' =>
      if Ascii.eqb a b then strip_prefix p' s' else None
  | String _ _, EmptyString => None
  end.

(** Digits of an [int] literal after the sign: decimal digits, single
    underscores allowed between two digits.  [acc] is the value read so
    far, [prev] tells whether the previous character was a digit. *)
Fixpoint int_digits (acc : Z) (prev : bool) (s : string) : option Z :=
  match s with
  | EmptyString => if prev then Some acc else None
  | String c s' =>
      if is_digit c then int_digits (10 * acc + digit_val c) true s'
      else if Ascii.eqb c "_" then
             if prev then
               match s' with
               | String d _ => if is_digit d then int_digits acc false s' else None
               | EmptyString => None
               end
             else None
           else None
  end.

(** [int(s)] for a [str]; [None] stands for [ValueError]. *)
Definition int (s : string) : option Z :=
  match strip s with
  | String "+" r => int_digits 0 false r
  | String "-" r => Z.opp <$> int_digits 0 false r
  | r => int_digits 0 false r
  end.

End Text.

(* ===================================================================== *)
(** ** Calendar arithmetic of [datetime] *)
(* ===================================================================== *)

Module Calendar.

Definition MAXYEAR : Z := 9999.
(** [date.max.toordinal()] *)
Definition MAXORDINAL : Z := 3652059.

Definition is_leap (year : Z) : bool :=
  (year mod 4 =? 0) && (negb (year mod 100 =? 0) || (year mod 400 =? 0)).

Definition days_before_year (year : Z) : Z :=
  let y := year - 1 in y * 365 + y / 4 - y / 100 + y / 400.

Definition DAYS_IN_MONTH (month : Z) : Z :=
  match month with
  | 1 => 31 | 2 => 28 | 3 => 31 | 4 => 30 | 5 => 31 | 6 => 30
  | 7 => 31 | 8 => 31 | 9 => 30 | 10 => 31 | 11 => 30 | 12 => 31
  | _ => -1
  end.

Definition DAYS_BEFORE_MONTH (month : Z) : Z :=
  match month with
  | 1 => 0 | 2 => 31 | 3 => 59 | 4 => 90 | 5 => 120 | 6 => 151
  | 7 => 181 | 8 => 212 | 9 => 243 | 10 => 273 | 11 => 304 | 12 => 334
  | _ => -1
  end.

Definition days_in_month (year month : Z) : Z :=
  if (month =? 2) && is_leap year then 29 else DAYS_IN_MONTH month.

Definition days_before_month (year month : Z) : Z :=
  DAYS_BEFORE_MONTH month + (if (2 <? month) && is_leap year then 1 else 0).

Definition ymd2ord (year month day : Z) : Z :=
  days_before_year year + days_before_month year month + day.

Definition DI400Y : Z := 146097.
Definition DI100Y : Z := 36524.
Definition DI4Y : Z := 1461.

Definition ord2ymd (ordinal : Z) : Z * Z * Z :=
  let n := ordinal - 1 in
  let n400 := n / DI400Y in
  let n := n mod DI400Y in
  let year := n400 * 400 + 1 in
  let n100 := n / DI100Y in
  let n := n mod DI100Y in
  let n4 := n / DI4Y in
  let n := n mod DI4Y in
  let n1 := n / 365 in
  let n := n mod 365 in
  let year := year + n100 * 100 + n4 * 4 + n1 in
  if (n1 =? 4) || (n100 =? 4) then (year - 1, 12, 31)
  else
    let leapyear := (n1 =? 3) && (negb (n4 =? 24) || (n100 =? 3)) in
    let month := Z.shiftr (n + 50) 5 in
    let preceding :=
      DAYS_BEFORE_MONTH month + (if (2 <? month) && leapyear then 1 else 0) in
    if n <? preceding then
      let month := month - 1 in
      let preceding :=
        preceding
        - (DAYS_IN_MONTH month + (if (month =? 2) && leapyear then 1 else 0)) in
      (year, month, n - preceding + 1)
    else (year, month, n - preceding + 1).

(** The checks of the [date] constructor ([ValueError] otherwise). *)
Definition valid_ymd (year month day : Z) : bool :=
  (1 <=? year) && (year <=? MAXYEAR)
  && (1 <=? month) && (month <=? 12)
  && (1 <=? day) && (day <=? days_in_month year month).

End Calendar.

(* ===================================================================== *)
(** ** Exceptions *)
(* ===================================================================== *)

(** The exception classes that can reach a handler of [main.py]. *)
Inductive exn : Type :=
| ValueError
| KeyError (key : string)
| OverflowError (msg : string)
| JSONDecodeError (msg : string).

(** [str(e)]; a [KeyError] prints the [repr] of its key. *)
Definition str_exn (e : exn) : string :=
  match e with
  | ValueError => ""
  | KeyError k => "'" +:+ k +:+ "'"
  | OverflowError m => m
  | JSONDecodeError m => m
  end.

(* ===================================================================== *)
(** ** [datetime] and [timedelta] *)
(* ===================================================================== *)

Module Datetime.
Import Calendar.

(** A naive [datetime]: [ordinal] is [toordinal()], [usec] the
    microsecond of the day. *)
Record datetime : Type := mkdt { ordinal : Z; usec : Z }.

Definition USEC_PER_DAY : Z := 86400000000.

Definition wf (t : datetime) : Prop :=
  1 <= ordinal t <= MAXORDINAL /\ 0 <= usec t < USEC_PER_DAY.

(** Order of two datetimes (year, month, day, then time of day). *)
Definition lt (a b : datetime) : bool :=
  (ordinal a <? ordinal b)
  || ((ordinal a =? ordinal b) && (usec a <? usec b)).

(** Python's [max(a, b)]: the second argument only when it is greater. *)
Definition max (a b : datetime) : datetime := if lt a b then b else a.

Definition pad2 (n : Z) : string :=
  String (Text.digit_chr (n / 10)) (String (Text.digit_chr (n mod 10)) "").

Definition pad4 (n : Z) : string :=
  String (Text.digit_chr (n / 1000))
    (String (Text.digit_chr (n / 100 mod 10)) (pad2 (n mod 100))).

(** [t.strftime("%Y-%m-%d")] *)
Definition strftime (t : datetime) : string :=
  let '(y, m, d) := ord2ymd (ordinal t) in
  pad4 y +:+ "-" +:+ pad2 m +:+ "-" +:+ pad2 d.

(** The month field [1[0-2]|0[1-9]|[1-9]] followed by the literal [-]. *)
Definition parse_month (s : string) : option (Z * string) :=
  match s with
  | String c1 (String c2 (String "-" r)) =>
      if Ascii.eqb c1 "1" && Text.is_digit c2 && (Text.digit_val c2 <=? 2)
      then Some (10 + Text.digit_val c2, r)
      else if Ascii.eqb c1 "0" && Text.is_digit c2 && (1 <=? Text.digit_val c2)
      then Some (Text.digit_val c2, r)
      else if Text.is_digit c1 && (1 <=? Text.digit_val c1) && Ascii.eqb c2 "-"
      then Some (Text.digit_val c1, String "-" r)
      else None
  | String c1 (String "-" r) =>
      if Text.is_digit c1 && (1 <=? Text.digit_val c1)
      then Some (Text.digit_val c1, r) else None
  | _ => None
  end.

(** The day field [3[01]|[12]\d|0[1-9]|[1-9]| [1-9]], first alternative
    that matches; returns the unconverted rest. *)
Definition parse_day (s : string) : option (Z * string) :=
  let one (c : ascii) (r : string) :=
    if Text.is_digit c && (1 <=? Text.digit_val c)
    then Some (Text.digit_val c, r) else None in
  match s with
  | String c1 (String c2 r) =>
      if Ascii.eqb c1 "3" && Text.is_digit c2 && (Text.digit_val c2 <=? 1)
      then Some (30 + Text.digit_val c2, r)
      else if (Ascii.eqb c1 "1" || Ascii.eqb c1 "2") && Text.is_digit c2
      then Some (10 * Text.digit_val c1 + Text.digit_val c2, r)
      else if Ascii.eqb c1 "0" && Text.is_digit c2 && (1 <=? Text.digit_val c2)
      then Some (Text.digit_val c2, r)
      else if Text.is_digit c1 && (1 <=? Text.digit_val c1)
      then Some (Text.digit_val c1, String c2 r)
      else if Ascii.eqb c1 " " then one c2 r
      else None
  | String c1 EmptyString => one c1 EmptyString
  | EmptyString => None
  end.

(** [datetime.strptime(s, "%Y-%m-%d")]; [None] stands for [ValueError]
    (no match, unconverted data, or a date the constructor rejects). *)
Definition strptime (s : string) : option datetime :=
  match s with
  | String y1 (String y2 (String y3 (String y4 (String "-" r)))) =>
      if Text.is_digit y1 && Text.is_digit y2
         && Text.is_digit y3 && Text.is_digit y4
      then
        let year := 1000 * Text.digit_val y1 + 100 * Text.digit_val y2
                    + 10 * Text.digit_val y3 + Text.digit_val y4 in
        match parse_month r with
        | Some (month, r) =>
            match parse_day r with
            | Some (day, EmptyString) =>
                if valid_ymd year month day
                then Some (mkdt (ymd2ord year month day) 0)
                else None
            | _ => None
            end
        | None => None
        end
      else None
  | _ => None
  end.

(** [timedelta(days=n)]: the constructor bounds the day count; the day
    count goes through a C [int] first. *)
Definition timedelta_days (n : Z) : exn + Z :=
  if Z.abs n <=? 999999999 then inr n
  else if (-2147483648 <=? n) && (n <=? 2147483647) then
    inl (OverflowError ("days=" +:+ Text.str_of_int n
                        +:+ "; must have magnitude <= 999999999"))
  else inl (OverflowError "Python int too large to convert to C int").

(** [t + timedelta(days=n)] for an already built [timedelta]. *)
Definition add_days (t : datetime) (n : Z) : exn + datetime :=
  let o := ordinal t + n in
  if (1 <=? o) && (o <=? MAXORDINAL) then inr (mkdt o (usec t))
  else inl (OverflowError "date value out of range").

(** [(a - b).days]: the difference is normalised so that the remaining
    seconds and microseconds are non-negative. *)
Definition sub_days (a b : datetime) : Z :=
  ((ordinal a - ordinal b) * USEC_PER_DAY + (usec a - usec b)) / USEC_PER_DAY.

End Datetime.

(* ===================================================================== *)
(** ** Documents, state and the monad of effects *)
(* ===================================================================== *)

(** One user record of [users.json]: a JSON object with string values
    ([platform_username], [start_date], [expire_date]); a key may be
    missing.  The document itself is a Python [dict], which iterates in
    insertion order: an association list with one entry per key. *)
Abbreviation user_info := (gmap string string).
Definition users : Type := list (string * user_info).

(** [config.json]; [None] is a key that is absent. *)
Record config : Type := mkconfig {
  cfg_admins : option (list string);
  cfg_reminder_enabled : option bool;
  cfg_reminder_days_before : option (list Z);
  cfg_expired_check_days : option Z;
  cfg_group_id : option string
}.

(** What the plugin asks of its host, in order. *)
Inductive event : Type :=
| GroupMessage (message : string)
| PrivateMessage (user_id message : string)
| Sleep (seconds : Z).

Record state : Type := mkstate {
  (** [users.json]; [None] when the file is missing or is not JSON *)
  users_file : option users;
  (** [config.json], likewise *)
  config_file : option config;
  (** the readings of [datetime.now()], and how many were taken *)
  clock : nat -> Datetime.datetime;
  ticks : nat;
  (** fields of the plugin object *)
  self_config : config;
  self_admins : list string;
  self_group_id : string;
  reminder_task_running : bool;
  (** messages handed to the host and sleeps, most recent last *)
  trace : list event
}.

Definition set_users_file (u : option users) (s : state) : state :=
  mkstate u (config_file s) (clock s) (ticks s) (self_config s)
    (self_admins s) (self_group_id s) (reminder_task_running s) (trace s).

Definition set_config_file (c : option config) (s : state) : state :=
  mkstate (users_file s) c (clock s) (ticks s) (self_config s)
    (self_admins s) (self_group_id s) (reminder_task_running s) (trace s).

Definition set_ticks (n : nat) (s : state) : state :=
  mkstate (users_file s) (config_file s) (clock s) n (self_config s)
    (self_admins s) (self_group_id s) (reminder_task_running s) (trace s).

Definition set_self_config (c : config) (s : state) : state :=
  mkstate (users_file s) (config_file s) (clock s) (ticks s) c
    (match cfg_admins c with Some a => a | None => [] end)
    (match cfg_group_id c with Some g => g | None => "" end)
    (reminder_task_running s) (trace s).

Definition set_running (b : bool) (s : state) : state :=
  mkstate (users_file s) (config_file s) (clock s) (ticks s) (self_config s)
    (self_admins s) (self_group_id s) b (trace s).

Definition emit (e : event) (s : state) : state :=
  mkstate (users_file s) (config_file s) (clock s) (ticks s) (self_config s)
    (self_admins s) (self_group_id s) (reminder_task_running s)
    (trace s ++ [e]).

(** A computation either raises or returns, and leaves a state. *)
Definition M (A : Type) : Type := state -> (exn + A) * state.

Global Instance M_ret : MRet M := fun A x s => (inr x, s).

Global Instance M_bind : MBind M := fun A B f m s =>
  match m s with
  | (inr x, s') => f x s'
  | (inl e, s') => (inl e, s')
  end.

Global Instance M_fmap : FMap M := fun A B f m s =>
  match m s with
  | (inr x, s') => (inr (f x), s')
  | (inl e, s') => (inl e, s')
  end.

Definition raise {A : Type} (e : exn) : M A := fun s => (inl e, s).

Definition lift {A : Type} (r : exn + A) : M A := fun s => (r, s).

Definition get_state : M state := fun s => (inr s, s).

Definition modify (f : state -> state) : M unit := fun s => (inr tt, f s).

(** [try: body except <classes selected by handles>: handler] *)
Definition try_except {A : Type}
    (body : M A) (handles : exn -> bool) (handler : exn -> M A) : M A :=
  fun s =>
    match body s with
    | (inl e, s') => if handles e then handler e s' else (inl e, s')
    | r => r
    end.

Definition is_ValueError (e : exn) : bool :=
  match e with ValueError => true | _ => false end.

Definition is_JSONDecodeError (e : exn) : bool :=
  match e with JSONDecodeError _ => true | _ => false end.

(** [except Exception] *)
Definition is_Exception (e : exn) : bool := true.

(** The next reading of the clock, and the state once it is taken. *)
Definition reading (s : state) : Datetime.datetime := clock s (ticks s).
Definition tick (s : state) : state := set_ticks (S (ticks s)) s.

(** [datetime.now()] *)
Definition now : M Datetime.datetime := fun s => (inr (reading s), tick s).

(** [d[k]] on a user record *)
Definition getitem (d : user_info) (k : string) : M string :=
  match d !! k with
  | Some v => mret v
  | None => raise (KeyError k)
  end.

(** ** Python [dict] with insertion order *)

Fixpoint dict_get {V : Type} (k : string) (d : list (string * V)) : option V :=
  match d with
  | [] => None
  | (k', v) :: d' => if String.eqb k' k then Some v else dict_get k d'
  end.

(** [d[k] = v]: in place for a key that is there, at the end otherwise. *)
Fixpoint dict_set {V : Type} (k : string) (v : V) (d : list (string * V))
    : list (string * V) :=
  match d with
  | [] => [(k, v)]
  | (k', v') :: d' =>
      if String.eqb k' k then (k, v) :: d' else (k', v') :: dict_set k v d'
  end.

(** [for x in xs: body x] *)
Fixpoint for_each {A : Type} (xs : list A) (body : A -> M unit) : M unit :=
  match xs with
  | [] => mret tt
  | x :: xs' => body x ;; for_each xs' body
  end.

(* ===================================================================== *)
(** ** class [UserManager] *)
(* ===================================================================== *)

(** What [json.load] finds in [users.json]; the empty document when the
    file is missing or is not JSON ([FileNotFoundError] and
    [JSONDecodeError], the two errors [load_users] catches). *)
Definition users_of (s : state) : users :=
  match users_file s with Some u => u | None => [] end.

Definition load_users : M users :=
  s ← get_state;
  mret (users_of s).

Definition save_users (users_data : users) : M unit :=
  modify (set_users_file (Some users_data)).

(** What [json.load] finds in [config.json]; [{"admins": [],
    "reminder_enabled": True}] when the file is missing or is not
    JSON. *)
Definition config_of (s : state) : config :=
  match config_file s with
  | Some c => c
  | None => mkconfig (Some []) (Some true) None None None
  end.

Definition load_config : M config :=
  s ← get_state;
  mret (config_of s).

Definition save_config (config_data : config) : M unit :=
  modify (set_config_file (Some config_data)).

(** [(datetime.now() + timedelta(days=n)).strftime("%Y-%m-%d")] *)
Definition today_plus (n : Z) : M string :=
  t ← now;
  d ← lift (Datetime.timedelta_days n);
  e ← lift (Datetime.add_days t d);
  mret (Datetime.strftime e).

Definition strptime (text : string) : M Datetime.datetime :=
  match Datetime.strptime text with
  | Some t => mret t
  | None => raise ValueError
  end.

(** The record built for a user that has none (the [if] branch of
    [add_or_update_user]). *)
Definition new_user_record (username : option string) (extend_days : Z)
    : M user_info :=
  start ← now;
  expire ← (if 0 <? extend_days then today_plus extend_days
            else t ← now; mret (Datetime.strftime t));
  mret (<["platform_username" :=
            match username with Some u => u | None => "" end]>
        (<["start_date" := Datetime.strftime start]>
         (<["expire_date" := expire]> (∅ : user_info)))).

(** The [try] block that extends the [expire_date] of a record. *)
Definition extend_expire_date (info : user_info) (extend_days : Z)
    : M user_info :=
  try_except
    (stored ← getitem info "expire_date";
     current_expire ← strptime stored;
     t ← now;
     let start_from := Datetime.max current_expire t in
     d ← lift (Datetime.timedelta_days extend_days);
     new_expire ← lift (Datetime.add_days start_from d);
     mret (<["expire_date" := Datetime.strftime new_expire]> info))
    is_ValueError
    (fun _ =>
       expire ← today_plus extend_days;
       mret (<["expire_date" := expire]> info)).

Definition add_or_update_user
    (user_id : string) (username : option string) (extend_days : Z)
    : M user_info :=
  users ← load_users;
  users ←
    match dict_get user_id users with
    | None =>
        info ← new_user_record username extend_days;
        mret (dict_set user_id info users)
    | Some info =>
        let info :=
          match username with
          | Some u => <["platform_username" := u]> info
          | None => info
          end in
        info ← (if 0 <? extend_days then extend_expire_date info extend_days
                else mret info);
        mret (dict_set user_id info users)
    end;
  save_users users ;;
  match dict_get user_id users with
  | Some info => mret info
  | None => raise (KeyError user_id)
  end.

Definition get_user_info (user_id : string) : M (option user_info) :=
  users ← load_users;
  mret (dict_get user_id users).

Definition expires_on (target_date : string) (entry : string * user_info) : Prop :=
  entry.2 !! "expire_date" = Some target_date.

Global Instance expires_on_dec target_date entry :
  Decision (expires_on target_date entry).
Proof. unfold expires_on. apply _. Defined.

Definition get_users_by_expire_date (target_date : string)
    : M (list (string * user_info)) :=
  users ← load_users;
  mret (filter (expires_on target_date) users).

Definition get_expiring_users (days_before : Z) : M (list (string * user_info)) :=
  target_date ← today_plus days_before;
  get_users_by_expire_date target_date.

Definition get_expired_users (days_after : Z) : M (list (string * user_info)) :=
  t ← now;
  d ← lift (Datetime.timedelta_days days_after);
  e ← lift (Datetime.add_days t (- d));
  get_users_by_expire_date (Datetime.strftime e).

(* ===================================================================== *)
(** ** class [UserManagementPlugin] *)
(* ===================================================================== *)

Definition LF : string := String (ascii_of_nat 10) "".

Definition is_admin (user_id : string) : M bool :=
  s ← get_state;
  mret (bool_decide (user_id ∈ self_admins s)).

(** [\[CQ:at,qq=(\d+)\]] at the head of the text; the value is group 1. *)
Definition match_cq_at (text : string) : option string :=
  match Text.strip_prefix "[CQ:at,qq=" text with
  | Some r =>
      match Text.span_digits r with
      | (String d ds, String "]" _) => Some (String d ds)
      | _ => None
      end
  | None => None
  end.

(** [@(\d+)] at the head of the text; the value is group 1. *)
Definition match_at (text : string) : option string :=
  match text with
  | String "@" r =>
      match Text.span_digits r with
      | (String d ds, _) => Some (String d ds)
      | _ => None
      end
  | _ => None
  end.

(** [re.search]: the match at the leftmost position that has one. *)
Fixpoint re_search (pattern : string -> option string) (text : string)
    : option string :=
  match pattern text with
  | Some g => Some g
  | None =>
      match text with
      | EmptyString => None
      | String _ text' => re_search pattern text'
      end
  end.

Definition extract_at_user (message_text : string) : option string :=
  match re_search match_cq_at message_text with
  | Some g => Some g
  | None =>
      match re_search match_at message_text with
      | Some g => Some g
      | None => None
      end
  end.

Definition PERMISSION_DENIED : string := "❌ 权限不足，仅管理员可使用此指令".
Definition NO_RECORD : string := "❌ 未找到您的服务记录，请联系管理员".
Definition EXPIRES_TODAY : string := "今天到期".

Definition handle_yhm_command
    (message_parts : list string) (message_text sender_id : string) : M string :=
  admin ← is_admin sender_id;
  if negb admin then mret PERMISSION_DENIED
  else
    match message_parts with
    | _ :: username :: _ =>
        match extract_at_user message_text with
        | None => mret "❌ 请@目标用户"
        | Some target_user_id =>
            try_except
              (add_or_update_user target_user_id (Some username) 0 ;;
               mret ("✅ 已为用户 @" +:+ target_user_id
                     +:+ " 设置外部平台用户名：" +:+ username))
              is_Exception
              (fun e => mret ("❌ 设置失败: " +:+ str_exn e))
        end
    | _ => mret "❌ 指令格式错误，请使用：/yhm [外部平台用户名] @目标用户"
    end.

Definition handle_extend_time_command
    (message_parts : list string) (message_text sender_id : string) : M string :=
  admin ← is_admin sender_id;
  if negb admin then mret PERMISSION_DENIED
  else
    match message_parts with
    | _ :: arg :: _ =>
        match Text.int arg with
        | None => mret "❌ 时间长度必须是数字"
        | Some days =>
            if days <=? 0 then mret "❌ 天数必须大于0"
            else
              match extract_at_user message_text with
              | None => mret "❌ 请@目标用户"
              | Some target_user_id =>
                  try_except
                    (user_info ← add_or_update_user target_user_id None days;
                     expire_date ← getitem user_info "expire_date";
                     mret ("✅ 已为用户 @" +:+ target_user_id
                           +:+ " 延长服务时间 " +:+ Text.str_of_int days
                           +:+ " 天" +:+ LF +:+ "新的到期时间：" +:+ expire_date))
                    is_Exception
                    (fun e => mret ("❌ 续时失败: " +:+ str_exn e))
              end
        end
    | _ => mret "❌ 指令格式错误，请使用：/续时 [天数] @目标用户"
    end.

Definition get_default (user_info : user_info) (key default : string) : string :=
  match user_info !! key with Some v => v | None => default end.

(** The [try] block of [handle_check_expire_command]. *)
Definition status_text_of (expire_date : string) : M string :=
  try_except
    (expire_datetime ← strptime expire_date;
     today ← now;
     let days_left := Datetime.sub_days expire_datetime today in
     mret (if 0 <? days_left then
             "距离到期还有：" +:+ Text.str_of_int days_left +:+ " 天"
           else if days_left =? 0 then EXPIRES_TODAY
           else "已过期 " +:+ Text.str_of_int (Z.abs days_left) +:+ " 天"))
    is_ValueError
    (fun _ => mret "日期格式错误").

Definition handle_check_expire_command (sender_id : string) : M string :=
  user_info ← get_user_info sender_id;
  match user_info with
  | None => mret NO_RECORD
  | Some user_info =>
      if bool_decide (user_info = ∅) then mret NO_RECORD
      else
        let start_date := get_default user_info "start_date" "未知" in
        let expire_date := get_default user_info "expire_date" "未知" in
        let username := get_default user_info "platform_username" "未设置" in
        status_text ← status_text_of expire_date;
        mret ("📊 您的服务状态：" +:+ LF
              +:+ "👤 外部平台用户名：" +:+ username +:+ LF
              +:+ "📅 开户时间：" +:+ start_date +:+ LF
              +:+ "⏰ 到期时间：" +:+ expire_date +:+ LF
              +:+ "⏳ " +:+ status_text)
  end.

(** One round of the loop of [get_user_list]. *)
Definition user_list_entry (entry : string * user_info) : M string :=
  let '(user_id, user_info) := entry in
  let username := get_default user_info "platform_username" "未设置" in
  let expire_date := get_default user_info "expire_date" "未知" in
  status ←
    try_except
      (expire_datetime ← strptime expire_date;
       t ← now;
       let days_left := Datetime.sub_days expire_datetime t in
       mret (if 0 <? days_left then
               "剩余" +:+ Text.str_of_int days_left +:+ "天"
             else if days_left =? 0 then EXPIRES_TODAY
             else "已过期" +:+ Text.str_of_int (Z.abs days_left) +:+ "天"))
      is_ValueError
      (fun _ => mret "日期错误");
  mret (LF +:+ "👤 " +:+ user_id +:+ " (" +:+ username +:+ ")" +:+ LF
        +:+ "   到期: " +:+ expire_date +:+ " (" +:+ status +:+ ")" +:+ LF).

Fixpoint user_list_loop (response : string) (entries : list (string * user_info))
    : M string :=
  match entries with
  | [] => mret response
  | entry :: entries' =>
      line ← user_list_entry entry;
      user_list_loop (response +:+ line) entries'
  end.

Definition get_user_list : M string :=
  users ← load_users;
  match users with
  | [] => mret "📋 当前没有用户记录"
  | _ => user_list_loop ("📋 用户列表：" +:+ LF) users
  end.

Definition get_help_text (sender_id : string) : M string :=
  let help_text :=
    "📖 用户管理插件帮助" +:+ LF +:+ LF
    +:+ "🔸 用户指令：" +:+ LF
    +:+ "/查看到期时间 - 查看自己的服务状态" +:+ LF
    +:+ "/帮助 - 显示此帮助信息" in
  admin ← is_admin sender_id;
  mret (if admin : bool then
          help_text +:+ LF +:+ LF
          +:+ "🔸 管理员指令：" +:+ LF
          +:+ "/yhm [用户名] @用户 - 设置用户的外部平台用户名" +:+ LF
          +:+ "/续时 [天数] @用户 - 为用户延长服务时间" +:+ LF
          +:+ "/用户列表 - 查看所有用户列表"
        else help_text).

Definition process_message (message_text sender_id : string) : M (option string) :=
  let message := Text.strip message_text in
  let message_parts := Text.split message in
  match message_parts with
  | [] => mret None
  | first :: _ =>
      let command := Text.lower first in
      if String.eqb command "/yhm" then
        Some <$> handle_yhm_command message_parts message_text sender_id
      else if String.eqb command "/续时" then
        Some <$> handle_extend_time_command message_parts message_text sender_id
      else if String.eqb command "/查看到期时间" then
        Some <$> handle_check_expire_command sender_id
      else
        (* [command == "/用户列表" and self.is_admin(sender_id)] *)
        listing ← (if String.eqb command "/用户列表" then is_admin sender_id
                   else mret false);
        if listing : bool then Some <$> get_user_list
        else if String.eqb command "/帮助" then Some <$> get_help_text sender_id
        else mret None
  end.

(** ** Reminders *)

(** The message goes to the host's [send_message], or to the log when the
    host has none; a failure of the host is caught and logged. *)
Definition send_group_message (message : string) : M unit :=
  modify (emit (GroupMessage message)).

Definition send_private_message (user_id message : string) : M unit :=
  modify (emit (PrivateMessage user_id message)).

(** [await asyncio.sleep(seconds)] *)
Definition sleep (seconds : Z) : M unit := modify (emit (Sleep seconds)).

Definition with_username (message username : string) : string :=
  match username with
  | EmptyString => message
  | _ => message +:+ LF +:+ "用户名：" +:+ username
  end.

(** The three texts of [check_and_send_reminders]. *)
Definition message_3days (user_id : string) (user_info : user_info)
    (expire_date : string) : string :=
  with_username
    ("⚠️ @" +:+ user_id +:+ " 您的服务将在3天后（" +:+ expire_date
     +:+ "）到期，请及时续期！")
    (get_default user_info "platform_username" "").

Definition message_today (user_id : string) (user_info : user_info)
    (expire_date : string) : string :=
  with_username
    ("🚨 @" +:+ user_id +:+ " 您的服务今天到期（" +:+ expire_date
     +:+ "），这是最后提醒！")
    (get_default user_info "platform_username" "").

Definition message_expired (user_id : string) (user_info : user_info)
    (expire_date : string) : string :=
  "🔴 管理员提醒：用户 @" +:+ user_id +:+ " (用户名: "
  +:+ get_default user_info "platform_username" "未设置"
  +:+ ") 的服务已于 " +:+ expire_date +:+ " 到期，请及时进行关停操作。".

(** The bodies of its three loops. *)
Definition remind_3days (entry : string * user_info) : M unit :=
  let '(user_id, user_info) := entry in
  expire_date ← getitem user_info "expire_date";
  send_group_message (message_3days user_id user_info expire_date).

Definition remind_today (entry : string * user_info) : M unit :=
  let '(user_id, user_info) := entry in
  expire_date ← getitem user_info "expire_date";
  send_group_message (message_today user_id user_info expire_date).

Definition notify_expired (entry : string * user_info) : M unit :=
  let '(user_id, user_info) := entry in
  expire_date ← getitem user_info "expire_date";
  let message := message_expired user_id user_info expire_date in
  s ← get_state;
  for_each (self_admins s) (fun admin_id => send_private_message admin_id message).

Definition reminder_enabled (config : config) : bool :=
  match cfg_reminder_enabled config with Some b => b | None => true end.

Definition check_and_send_reminders : M unit :=
  config ← load_config;
  if negb (reminder_enabled config) then mret tt
  else
    expiring_users_3days ← get_expiring_users 3;
    for_each expiring_users_3days remind_3days ;;
    expiring_users_today ← get_expiring_users 0;
    for_each expiring_users_today remind_today ;;
    expired_users ← get_expired_users 1;
    for_each expired_users notify_expired.

(** One round of the [while] loop of [start_reminder_task]. *)
Definition reminder_iteration : M unit :=
  try_except check_and_send_reminders is_Exception (fun _ => mret tt) ;;
  sleep (24 * 60 * 60).

(** The loop is suspended in [sleep]; [others] lists, sleep after sleep,
    what the rest of the program does to the state meanwhile (within a
    round the loop is taken to run alone).  The loop is followed for as
    many rounds as [others] is long. *)
Fixpoint reminder_loop (others : list (state -> state)) : M unit :=
  match others with
  | [] => mret tt
  | other :: others' =>
      s ← get_state;
      if reminder_task_running s then
        reminder_iteration ;; modify other ;; reminder_loop others'
      else mret tt
  end.

Definition start_reminder_task (others : list (state -> state)) : M unit :=
  s ← get_state;
  if reminder_task_running s then mret tt
  else modify (set_running true) ;; reminder_loop others.

Definition stop_reminder_task : M unit := modify (set_running false).

(** ** Settings *)

Record settings : Type := mksettings {
  users_json : option string;
  settings_config : option config
}.

Record result : Type := mkresult { success : bool; message : string }.

(** [try: body except <c1>: h1 except <c2>: h2] *)
Definition try_except2 {A : Type} (body : M A)
    (c1 : exn -> bool) (h1 : exn -> M A)
    (c2 : exn -> bool) (h2 : exn -> M A) : M A :=
  fun s =>
    match body s with
    | (inl e, s') =>
        if c1 e then h1 e s' else if c2 e then h2 e s' else (inl e, s')
    | r => r
    end.

Section Settings.

(** [json.loads] on the text of a users document: the document, or the
    message of the [JSONDecodeError] it raises. *)
Variable json_loads : string -> string + users.

Definition loads (blob : string) : M users :=
  match json_loads blob with
  | inr users_data => mret users_data
  | inl msg => raise (JSONDecodeError msg)
  end.

Definition save_settings (settings_data : settings) : M result :=
  try_except2
    (match users_json settings_data with
     | Some blob => users_data ← loads blob; save_users users_data
     | None => mret tt
     end ;;
     match settings_config settings_data with
     | Some config => save_config config ;; modify (set_self_config config)
     | None => mret tt
     end ;;
     mret (mkresult true "设置保存成功"))
    is_JSONDecodeError
    (fun e => mret (mkresult false ("JSON格式错误: " +:+ str_exn e)))
    is_Exception
    (fun e => mret (mkresult false ("保存失败: " +:+ str_exn e))).

End Settings.

(* ===================================================================== *)
(** ** Reading the state *)
(* ===================================================================== *)

(** The stored expiry of a user, when there is one that reads as a date. *)
Definition expire_of (user_id : string) (s : state) : option Datetime.datetime :=
  match dict_get user_id (users_of s) with
  | Some info =>
      match info !! "expire_date" with
      | Some stored => Datetime.strptime stored
      | None => None
      end
  | None => None
  end.

(** The first word of a message in lower case, as [process_message]
    computes it. *)
Definition command_of (message_text : string) : option string :=
  match Text.split (Text.strip message_text) with
  | [] => None
  | first :: _ => Some (Text.lower first)
  end.

(* ===================================================================== *)
(** ** Notions used in the statements *)
(* ===================================================================== *)

(** What an extension is said to do: the call returns the stored record,
    whose expiry is [extend_days] days after the later of the expiry
    [current_expire] it had and the day of the call. *)
Definition extends_from_later
    (s : state) (user_id : string) (username : option string)
    (extend_days : Z) (current_expire : Datetime.datetime) : Prop :=
  exists info s',
    add_or_update_user user_id username extend_days s = (inr info, s')
    /\ dict_get user_id (users_of s') = Some info
    /\ expire_of user_id s'
       = Some (Datetime.mkdt
                 (Z.max (Datetime.ordinal current_expire)
                    (Datetime.ordinal (reading s))
                  + extend_days) 0).

(** One call of [add_or_update_user]. *)
Record call : Type := mkcall {
  call_user_id : string;
  call_username : option string;
  call_extend_days : Z
}.

(** The state a call leaves, whether it returns or raises. *)
Definition after_call (s : state) (c : call) : state :=
  (add_or_update_user (call_user_id c) (call_username c) (call_extend_days c) s).2.

Definition after_calls (calls : list call) (s : state) : state :=
  fold_left after_call calls s.

(** A text that does not begin with a decimal digit. *)
Definition no_digit_head (s : string) : Prop :=
  match s with
  | String c _ => Text.is_digit c = false
  | EmptyString => True
  end.

(** A non-empty run of decimal digits. *)
Definition digits (id : string) : Prop :=
  id <> EmptyString /\ Text.all_digits id = true.

(** The at-code [\[CQ:at,qq=id\]] stands in [text] after the first [pos]
    characters. *)
Definition cq_at_occurs (text : string) (pos : nat) (id : string) : Prop :=
  exists pre post,
    text = pre +:+ "[CQ:at,qq=" +:+ id +:+ "]" +:+ post
    /\ String.length pre = pos /\ digits id.

(** [@id] stands in [text] after the first [pos] characters, [id] being
    all the digits that follow the [@]. *)
Definition bare_at_occurs (text : string) (pos : nat) (id : string) : Prop :=
  exists pre post,
    text = pre +:+ "@" +:+ id +:+ post
    /\ String.length pre = pos /\ digits id /\ no_digit_head post.

(** [found] lists, in the order of the store, exactly the entries of the
    store whose [expire_date] is the text [target_date]. *)
Definition scan_is_exact
    (found : list (string * user_info)) (target_date : string) (s : state)
    : Prop :=
  found `sublist_of` users_of s
  /\ forall entry,
       entry ∈ found <->
       entry ∈ users_of s /\ entry.2 !! "expire_date" = Some target_date.

(** The scan returns such a list. *)
Definition scan_returns
    (scan : M (list (string * user_info))) (target_date : string) (s : state)
    : Prop :=
  exists found s', scan s = (inr found, s') /\ scan_is_exact found target_date s.

(** The state after the events [es] went out. *)
Definition emit_all (es : list event) (s : state) : state :=
  mkstate (users_file s) (config_file s) (clock s) (ticks s) (self_config s)
    (self_admins s) (self_group_id s) (reminder_task_running s)
    (trace s ++ es).

Definition events_3days (target_date : string) (s : state) : list event :=
  map (fun entry => GroupMessage (message_3days entry.1 entry.2 target_date))
    (filter (expires_on target_date) (users_of s)).

Definition events_today (target_date : string) (s : state) : list event :=
  map (fun entry => GroupMessage (message_today entry.1 entry.2 target_date))
    (filter (expires_on target_date) (users_of s)).

Definition events_expired (target_date : string) (s : state) : list event :=
  concat
    (map (fun entry =>
            map (fun admin_id =>
                   PrivateMessage admin_id
                     (message_expired entry.1 entry.2 target_date))
              (self_admins s))
       (filter (expires_on target_date) (users_of s))).

(** ** Checks by computation *)

Module Checks.
Import Calendar.

(** [all_from P count start]: [P] holds at [start], ..., [start+count-1]. *)
Fixpoint all_from (P : Z -> bool) (count : nat) (start : Z) : bool :=
  match count with
  | O => true
  | S count' => P start && all_from P count' (start + 1)
  end.

(** The end of [ord2ymd]: month and day of the [n]-th day (from 0) of a
    year. *)
Definition month_day (n : Z) (leapyear : bool) : Z * Z :=
  let month := Z.shiftr (n + 50) 5 in
  let preceding :=
    DAYS_BEFORE_MONTH month + (if (2 <? month) && leapyear then 1 else 0) in
  if n <? preceding then
    let month := month - 1 in
    let preceding :=
      preceding
      - (DAYS_IN_MONTH month + (if (month =? 2) && leapyear then 1 else 0)) in
    (month, n - preceding + 1)
  else (month, n - preceding + 1).

Definition month_day_ok (leapyear : bool) (n : Z) : bool :=
  let '(m, d) := month_day n leapyear in
  (1 <=? m) && (m <=? 12) && (1 <=? d)
  && (d <=? (if (m =? 2) && leapyear then 29 else DAYS_IN_MONTH m))
  && (DAYS_BEFORE_MONTH m + (if (2 <? m) && leapyear then 1 else 0) + d
      =? n + 1).

End Checks.

(* ===================================================================== *)
(** ** A sample installation *)
(* ===================================================================== *)

Module Sample.

(** 2024-01-10 ([date(2024, 1, 10).toordinal() = 738895]), at noon. *)
Definition noon : Datetime.datetime := Datetime.mkdt 738895 43200000000.

Definition record (username start_date expire_date : string) : user_info :=
  <["platform_username" := username]>
    (<["start_date" := start_date]> (<["expire_date" := expire_date]> ∅)).

(** Five users: they expire today, ten days ago, tomorrow, in three
    days and yesterday. *)
Definition store : users :=
  [ ("10001", record "alice" "2023-12-01" "2024-01-10");
    ("10002", record "bob" "2023-11-01" "2023-12-31");
    ("10003", record "carol" "2023-12-11" "2024-01-11");
    ("10004", record "" "2023-12-14" "2024-01-13");
    ("10005", record "erin" "2023-12-10" "2024-01-09") ].

Definition settings : config :=
  mkconfig (Some ["90001"]) (Some true) (Some [3; 0]) (Some 1) (Some "").

(** The plugin as it is after start-up, with ["90001"] as only admin. *)
Definition s0 : state :=
  mkstate (Some store) (Some settings) (fun _ => noon) 0
    settings ["90001"] "" false [].

End Sample.

(* ===================================================================== *)
(** ** A reader of users documents *)
(* ===================================================================== *)

(** A reader for users documents, to run [save_settings] on examples: one
    JSON object of objects of strings, with white space between the tokens
    and no escape sequence in the strings.  The messages of its failures
    are its own. *)
Module Reader.

Definition QUOTE : ascii := ascii_of_nat 34.
Definition BACKSLASH : ascii := ascii_of_nat 92.

(** The JSON text of a string without special characters. *)
Definition quoted (s : string) : string :=
  String QUOTE s +:+ String QUOTE "".

Definition is_ws (c : ascii) : bool :=
  Ascii.eqb c " " || Ascii.eqb c (ascii_of_nat 9)
  || Ascii.eqb c (ascii_of_nat 10) || Ascii.eqb c (ascii_of_nat 13).

Fixpoint skip_ws (s : string) : string :=
  match s with
  | String c s' => if is_ws c then skip_ws s' else s
  | EmptyString => EmptyString
  end.

(** The characters up to the closing quote, and what follows it. *)
Fixpoint read_chars (s : string) : option (string * string) :=
  match s with
  | EmptyString => None
  | String c s' =>
      if Ascii.eqb c QUOTE then Some (EmptyString, s')
      else if Ascii.eqb c BACKSLASH then None
      else match read_chars s' with
           | Some (cs, r) => Some (String c cs, r)
           | None => None
           end
  end.

Definition read_string (s : string) : option (string * string) :=
  match s with
  | String c s' => if Ascii.eqb c QUOTE then read_chars s' else None
  | EmptyString => None
  end.

(** The members of an object and its closing brace; [s] starts at a
    member. *)
Fixpoint read_members {V : Type} (read_value : string -> option (V * string))
    (fuel : nat) (s : string) : option (list (string * V) * string) :=
  match fuel with
  | O => None
  | S fuel' =>
      match read_string s with
      | Some (key, r) =>
          match skip_ws r with
          | String ":" r =>
              match read_value (skip_ws r) with
              | Some (v, r) =>
                  match skip_ws r with
                  | String "," r =>
                      match read_members read_value fuel' (skip_ws r) with
                      | Some (members, r) => Some ((key, v) :: members, r)
                      | None => None
                      end
                  | String "}" r => Some ([(key, v)], r)
                  | _ => None
                  end
              | None => None
              end
          | _ => None
          end
      | None => None
      end
  end.

Definition read_object {V : Type} (read_value : string -> option (V * string))
    (s : string) : option (list (string * V) * string) :=
  match s with
  | String "{" r =>
      match skip_ws r with
      | String "}" r' => Some ([], r')
      | r' => read_members read_value (String.length r') r'
      end
  | _ => None
  end.

(** A repeated key keeps its first place and its last value. *)
Definition read_record (s : string) : option (user_info * string) :=
  match read_object read_string s with
  | Some (members, r) =>
      Some (fold_left (fun m kv => <[kv.1 := kv.2]> m) members ∅, r)
  | None => None
  end.

Definition json_loads (blob : string) : string + users :=
  match read_object read_record (skip_ws blob) with
  | Some (members, r) =>
      match skip_ws r with
      | EmptyString =>
          inr (fold_left (fun d kv => dict_set kv.1 kv.2 d) members [])
      | _ => inl "Extra data"
      end
  | None => inl "Expecting a users document"
  end.

End Reader.


(* ===================================================================== *)
(** ** Plain texts *)
(* ===================================================================== *)

(** Python's white space ([str.split], [str.strip]), decimal digits
    ([\d], [int], [strptime]) and cased letters ([str.lower]) go beyond
    ASCII; the classes of [Text] do not.  The two agree on a text made
    of ASCII characters and CJK ideographs (U+4E00 to U+9FFF), none of
    which is a space, a decimal digit or a cased letter.  The commands
    and the defaults of the plugin are such texts. *)

(** The three bytes are the UTF-8 form of a character from U+4E00 to
    U+9FFF: E4 B8 80 to E9 BF BF. *)
Definition is_cjk (b1 b2 b3 : ascii) : bool :=
  let n1 := nat_of_ascii b1 in
  let n2 := nat_of_ascii b2 in
  let n3 := nat_of_ascii b3 in
  ((228 <=? n1) && (n1 <=? 233)
   && (128 <=? n2) && (n2 <=? 191)
   && (128 <=? n3) && (n3 <=? 191)
   && ((229 <=? n1) || (184 <=? n2)))%nat.

Fixpoint plain (text : string) : bool :=
  match text with
  | EmptyString => true
  | String b1 rest =>
      if (nat_of_ascii b1 <? 128)%nat then plain rest
      else
        match rest with
        | String b2 (String b3 rest') => is_cjk b1 b2 b3 && plain rest'
        | _ => false
        end
  end.

(** The first day whose year [strftime] writes on four digits on every
    platform: 1000-01-01. *)
Definition FIRST_PADDED : Z := Calendar.ymd2ord 1000 1 1.

(* ===================================================================== *)
(** ** The settings page *)
(* ===================================================================== *)

(** The [stats] object of [get_settings_ui]. *)
Record stats : Type := mkstats {
  total_users : Z;
  active_users : Z;
  expired_users : Z
}.

(** What [get_settings_ui] returns. *)
Record settings_ui : Type := mksettings_ui {
  ui_users_json : string;
  ui_config : config;
  ui_stats : stats
}.

(** [datetime.strptime(u.get("expire_date", "1970-01-01"), "%Y-%m-%d")
    > datetime.now()] and the same with [<=]: the date is read first, then
    the clock. *)
Definition expires_after_now (u : user_info) : M bool :=
  expire ← strptime (get_default u "expire_date" "1970-01-01");
  t ← now;
  mret (Datetime.lt t expire).

Definition expires_by_now (u : user_info) : M bool :=
  expire ← strptime (get_default u "expire_date" "1970-01-01");
  t ← now;
  mret (negb (Datetime.lt t expire)).

(** [[u for u in records if test(u)]] *)
Fixpoint select_if (test : user_info -> M bool) (records : list user_info)
    : M (list user_info) :=
  match records with
  | [] => mret []
  | u :: records' =>
      keep ← test u;
      rest ← select_if test records';
      mret (if keep : bool then u :: rest else rest)
  end.

Section SettingsUI.

(** [json.dumps(users_data, ensure_ascii=False, indent=2)] *)
Variable json_dumps : users -> string.

Definition get_settings_ui : M settings_ui :=
  users_data ← load_users;
  config_data ← load_config;
  let text := json_dumps users_data in
  let total := Z.of_nat (length users_data) in
  active ← select_if expires_after_now (map snd users_data);
  expired ← select_if expires_by_now (map snd users_data);
  mret (mksettings_ui text config_data
          (mkstats total (Z.of_nat (length active))
             (Z.of_nat (length expired)))).

End SettingsUI.

(** A writer of users documents, to run [get_settings_ui] on examples: the
    layout of [indent=2], for keys and values that need no escape; the
    members of a record come in the order of its keys. *)
Module Writer.

Definition member (pad key value : string) : string :=
  pad +:+ Reader.quoted key +:+ ": " +:+ value.

(** The members, one per line, separated by commas. *)
Fixpoint members (lines : list string) : string :=
  match lines with
  | [] => ""
  | [line] => line +:+ LF
  | line :: lines' => line +:+ "," +:+ LF +:+ members lines'
  end.

Definition object (pad : string) (lines : list string) : string :=
  match lines with
  | [] => "{}"
  | _ => "{" +:+ LF +:+ members lines +:+ pad +:+ "}"
  end.

Definition record (info : user_info) : string :=
  object "  "
    (map (fun kv => member "    " kv.1 (Reader.quoted kv.2)) (map_to_list info)).

Definition json_dumps (users_data : users) : string :=
  object "" (map (fun kv => member "  " kv.1 (record kv.2)) users_data).

End Writer.

(* ===================================================================== *)
(** ** The files at start-up *)
(* ===================================================================== *)

(** The configuration [ensure_files] writes. *)
Definition default_config : config :=
  mkconfig (Some []) (Some true) (Some [3; 0]) (Some 1) (Some "").

(** [ensure_files], run by the constructor of [UserManager];
    [users_there] and [config_there] are what [os.path.exists] answers
    for the two files. *)
Definition ensure_files (users_there config_there : bool) : M unit :=
  (if negb users_there then modify (set_users_file (Some []))
   else mret tt) ;;
  (if negb config_there then modify (set_config_file (Some default_config))
   else mret tt).

(* ===================================================================== *)
(** ** Notions used in the further statements *)
(* ===================================================================== *)

(** [m] raises nothing, whatever the state. *)
Definition returns {A : Type} (m : M A) : Prop :=
  forall s, exists x s', m s = (inr x, s').

(** [m] takes a state to one that [R] relates to it, whether it returns
    or raises. *)
Definition keeps {A : Type} (R : state -> state -> Prop) (m : M A) : Prop :=
  forall s, R s (m s).2.

(** The two files hold what they held. *)
Definition same_files (s s' : state) : Prop :=
  users_file s' = users_file s /\ config_file s' = config_file s.

(** The state after [k] more readings of the clock. *)
Definition ticked (k : nat) (s : state) : state := set_ticks (ticks s + k) s.

(** Nothing happened but readings of the clock. *)
Definition only_ticks (s s' : state) : Prop := exists k, s' = ticked k s.

Definition is_message (e : event) : bool :=
  match e with
  | Sleep _ => false
  | _ => true
  end.

(** Nothing happened but readings of the clock and messages handed to
    the host. *)
Definition only_sends (s s' : state) : Prop :=
  exists k es, s' = emit_all es (ticked k s) /\ forallb is_message es = true.

(** Every reading of the clock falls on the day [today], whatever the
    time of that day. *)
Definition clock_on (today : Z) (s : state) : Prop :=
  forall k, Datetime.ordinal (clock s k) = today
            /\ 0 <= Datetime.usec (clock s k) < Datetime.USEC_PER_DAY.

(** The same, midnight sharp left out. *)
Definition clock_within (today : Z) (s : state) : Prop :=
  forall k, Datetime.ordinal (clock s k) = today
            /\ 0 < Datetime.usec (clock s k) < Datetime.USEC_PER_DAY.

(** The number of days the commands show for a record that expires on the
    day [expire] when the clock reads [t]. *)
Definition days_shown (expire : Z) (t : Datetime.datetime) : Z :=
  if Datetime.usec t =? 0 then expire - Datetime.ordinal t
  else expire - Datetime.ordinal t - 1.

(** The texts of [handle_check_expire_command] and [get_user_list] for a
    number of days. *)
Definition status_text (days_left : Z) : string :=
  if 0 <? days_left then
    "距离到期还有：" +:+ Text.str_of_int days_left +:+ " 天"
  else if days_left =? 0 then EXPIRES_TODAY
  else "已过期 " +:+ Text.str_of_int (Z.abs days_left) +:+ " 天".

Definition list_status (days_left : Z) : string :=
  if 0 <? days_left then "剩余" +:+ Text.str_of_int days_left +:+ "天"
  else if days_left =? 0 then EXPIRES_TODAY
  else "已过期" +:+ Text.str_of_int (Z.abs days_left) +:+ "天".

(** The answer of [handle_check_expire_command] for a record and a status
    line. *)
Definition service_status (info : user_info) (status : string) : string :=
  "📊 您的服务状态：" +:+ LF
  +:+ "👤 外部平台用户名：" +:+ get_default info "platform_username" "未设置" +:+ LF
  +:+ "📅 开户时间：" +:+ get_default info "start_date" "未知" +:+ LF
  +:+ "⏰ 到期时间：" +:+ get_default info "expire_date" "未知" +:+ LF
  +:+ "⏳ " +:+ status.

(** The entry of [get_user_list] for a record, read on the day [today]
    after midnight. *)
Definition list_entry (today : Z) (entry : string * user_info) : string :=
  let expire_date := get_default entry.2 "expire_date" "未知" in
  LF +:+ "👤 " +:+ entry.1 +:+ " ("
  +:+ get_default entry.2 "platform_username" "未设置" +:+ ")" +:+ LF
  +:+ "   到期: " +:+ expire_date +:+ " ("
  +:+ match Datetime.strptime expire_date with
      | Some expire => list_status (Datetime.ordinal expire - today - 1)
      | None => "日期错误"
      end
  +:+ ")" +:+ LF.

(** The records that expire after the day [today], and the others; a
    record without [expire_date] counts as one of 1970-01-01. *)
Definition expires_after (today : Z) (u : user_info) : bool :=
  match Datetime.strptime (get_default u "expire_date" "1970-01-01") with
  | Some expire => today <? Datetime.ordinal expire
  | None => false
  end.

Definition readable_date (u : user_info) : Prop :=
  is_Some (Datetime.strptime (get_default u "expire_date" "1970-01-01")).

(** Nothing changed but [users.json] and the number of readings of the
    clock. *)
Definition only_store (s s' : state) : Prop :=
  exists u k, s' = set_users_file u (ticked k s).

(** [int(text)] is [n], for a text within the interpreter's limit on the
    digits of a number (4300). *)
Definition int_reads (text : string) (n : Z) : Prop :=
  Text.int text = Some n /\ (String.length text <= 4300)%nat.

(** The texts one after the other. *)
Fixpoint join (texts : list string) : string :=
  match texts with
  | [] => ""
  | text :: texts' => text +:+ join texts'
  end.

(** The words of a message, as [process_message] hands them on. *)
Definition words_of (message_text : string) : list string :=
  Text.split (Text.strip message_text).

(** [m] does the same whatever [config.json] holds, and leaves that file
    alone. *)
Definition ignores_config {A : Type} (m : M A) : Prop :=
  forall c s, m (set_config_file c s) = ((m s).1, set_config_file c (m s).2).

Definition COMMANDS : list string :=
  ["/yhm"; "/续时"; "/查看到期时间"; "/用户列表"; "/帮助"].

(* ===================================================================== *)
(** ** Facts about the calendar *)
(* ===================================================================== *)

(** [cases_from k lo n]: one goal for each of [k = lo], ..., [k = lo+n-1];
    the context must bound [k] to that range. *)
Ltac cases_from k lo n :=
  match n with
  | O => exfalso; lia
  | S ?n' =>
      destruct (Z.eq_dec k lo) as [->|?];
      [ | let lo' := eval compute in (lo + 1) in cases_from k lo' n' ]
  end.

Module CalendarFacts.
Import Calendar Checks.

Lemma all_from_spec (P : Z -> bool) (count : nat) (start : Z) :
  all_from P count start = true ->
  forall i, start <= i < start + Z.of_nat count -> P i = true.
Proof.
  revert start. induction count as [|c IH]; intros start H i Hi.
  - lia.
  - cbn [all_from] in H. apply andb_prop in H as [Hs Hr].
    destruct (Z.eq_dec i start) as [->|Hne]; [exact Hs|].
    apply (IH (start + 1) Hr). lia.
Qed.

Lemma ord2ymd_unfold (ordinal : Z) :
  ord2ymd ordinal =
  let r1 := (ordinal - 1) mod DI400Y in
  let r2 := r1 mod DI100Y in
  let r3 := r2 mod DI4Y in
  let year :=
    (ordinal - 1) / DI400Y * 400 + 1
    + r1 / DI100Y * 100 + r2 / DI4Y * 4 + r3 / 365 in
  if (r3 / 365 =? 4) || (r1 / DI100Y =? 4) then (year - 1, 12, 31)
  else
    let '(m, d) :=
      month_day (r3 mod 365)
        ((r3 / 365 =? 3) && (negb (r2 / DI4Y =? 24) || (r1 / DI100Y =? 3))) in
    (year, m, d).
Proof.
  unfold ord2ymd, month_day. cbv zeta.
  repeat match goal with
         | |- context [if ?b then _ else _] => destruct b
         end; reflexivity.
Qed.

Lemma month_day_checked (leapyear : bool) :
  all_from (month_day_ok leapyear) 365 0 = true.
Proof. destruct leapyear; vm_compute; reflexivity. Qed.

Lemma month_day_sound (n : Z) (leapyear : bool) :
  0 <= n < 365 ->
  exists m d,
    month_day n leapyear = (m, d)
    /\ 1 <= m <= 12
    /\ 1 <= d <= (if (m =? 2) && leapyear then 29 else DAYS_IN_MONTH m)
    /\ DAYS_BEFORE_MONTH m + (if (2 <? m) && leapyear then 1 else 0) + d
       = n + 1.
Proof.
  intros Hn.
  pose proof (all_from_spec _ _ _ (month_day_checked leapyear) n
                ltac:(simpl; lia)) as H.
  unfold month_day_ok in H. destruct (month_day n leapyear) as [m d].
  exists m, d. repeat (apply andb_prop in H as [H ?]).
  split; [reflexivity|]. lia.
Qed.

Lemma days_before_year_split (q n100 n4 n1 : Z) :
  0 <= n100 <= 3 -> 0 <= n4 <= 24 -> 0 <= n1 <= 3 ->
  days_before_year (q * 400 + 1 + n100 * 100 + n4 * 4 + n1)
  = DI400Y * q + DI100Y * n100 + DI4Y * n4 + 365 * n1.
Proof.
  intros H100 H4 H1. unfold days_before_year, DI400Y, DI100Y, DI4Y. cbv zeta.
  Z.div_mod_to_equations. lia.
Qed.

Lemma is_leap_split (q n100 n4 n1 : Z) :
  0 <= n100 <= 3 -> 0 <= n4 <= 24 -> 0 <= n1 <= 3 ->
  is_leap (q * 400 + 1 + n100 * 100 + n4 * 4 + n1)
  = (n1 =? 3) && (negb (n4 =? 24) || (n100 =? 3)).
Proof.
  intros H100 H4 H1. unfold is_leap.
  repeat match goal with
         | |- context [?a =? ?b] => destruct (Z.eqb_spec a b)
         end; cbn; try reflexivity; exfalso; Z.div_mod_to_equations; lia.
Qed.

(** [date.fromordinal] builds a date the constructor accepts, and
    [toordinal] gives the ordinal back. *)
Lemma ord2ymd_sound (n : Z) :
  1 <= n <= MAXORDINAL ->
  exists y m d,
    ord2ymd n = (y, m, d)
    /\ 1 <= y <= MAXYEAR /\ 1 <= m <= 12 /\ 1 <= d <= days_in_month y m
    /\ ymd2ord y m d = n.
Proof.
  unfold MAXORDINAL, MAXYEAR. intros Hn. rewrite ord2ymd_unfold. cbv zeta.
  pose proof (Z.div_mod (n - 1) DI400Y ltac:(unfold DI400Y; lia)) as E1.
  pose proof (Z.mod_pos_bound (n - 1) DI400Y ltac:(unfold DI400Y; lia)) as B1.
  set (q := (n - 1) / DI400Y) in *. set (r1 := (n - 1) mod DI400Y) in *.
  pose proof (Z.div_mod r1 DI100Y ltac:(unfold DI100Y; lia)) as E2.
  pose proof (Z.mod_pos_bound r1 DI100Y ltac:(unfold DI100Y; lia)) as B2.
  set (n100 := r1 / DI100Y) in *. set (r2 := r1 mod DI100Y) in *.
  pose proof (Z.div_mod r2 DI4Y ltac:(unfold DI4Y; lia)) as E3.
  pose proof (Z.mod_pos_bound r2 DI4Y ltac:(unfold DI4Y; lia)) as B3.
  set (n4 := r2 / DI4Y) in *. set (r3 := r2 mod DI4Y) in *.
  pose proof (Z.div_mod r3 365 ltac:(lia)) as E4.
  pose proof (Z.mod_pos_bound r3 365 ltac:(lia)) as B4.
  set (n1 := r3 / 365) in *. set (r4 := r3 mod 365) in *.
  clearbody q r1 n100 r2 n4 r3 n1 r4.
  unfold DI400Y, DI100Y, DI4Y in E1, B1, E2, B2, E3, B3.
  assert (0 <= q) by lia.
  assert (0 <= n100 <= 4) by lia.
  assert (0 <= n4 <= 24) by lia.
  assert (0 <= n1 <= 4) by lia.
  destruct (Z.eqb_spec n1 4) as [En1|Nn1];
    [|destruct (Z.eqb_spec n100 4) as [En100|Nn100]].
  - (* last day of a leap year that ends a four-year block *)
    cbn [orb]. exists (q * 400 + 1 + n100 * 100 + n4 * 4 + n1 - 1), 12, 31.
    assert (n100 <= 3) by lia. assert (n4 <= 23) by lia.
    replace (q * 400 + 1 + n100 * 100 + n4 * 4 + n1 - 1)
      with (q * 400 + 1 + n100 * 100 + n4 * 4 + 3) by lia.
    unfold ymd2ord, days_in_month, days_before_month.
    rewrite days_before_year_split, is_leap_split by lia.
    replace (n4 =? 24) with false by (symmetry; apply Z.eqb_neq; lia).
    unfold DI400Y, DI100Y, DI4Y. cbn.
    split; [reflexivity|]. lia.
  - (* last day of a 400-year cycle *)
    cbn [orb]. exists (q * 400 + 1 + n100 * 100 + n4 * 4 + n1 - 1), 12, 31.
    assert (n4 = 0) by lia. assert (n1 = 0) by lia. subst n100 n4 n1.
    replace (q * 400 + 1 + 4 * 100 + 0 * 4 + 0 - 1)
      with (q * 400 + 1 + 3 * 100 + 24 * 4 + 3) by lia.
    unfold ymd2ord, days_in_month, days_before_month.
    rewrite days_before_year_split, is_leap_split by lia.
    unfold DI400Y, DI100Y, DI4Y. cbn.
    split; [reflexivity|]. lia.
  - cbn [orb].
    assert (Hn100 : 0 <= n100 <= 3) by lia. assert (Hn1 : 0 <= n1 <= 3) by lia.
    destruct (month_day_sound r4
                ((n1 =? 3) && (negb (n4 =? 24) || (n100 =? 3))) B4)
      as (m & d & Emd & Hm & Hd & Hsum).
    rewrite Emd. exists (q * 400 + 1 + n100 * 100 + n4 * 4 + n1), m, d.
    unfold ymd2ord, days_in_month, days_before_month.
    rewrite days_before_year_split, is_leap_split by lia.
    unfold DI400Y, DI100Y, DI4Y.
    split; [reflexivity|]. lia.
Qed.

Lemma month_offset_range (y m d : Z) :
  1 <= m <= 12 -> 1 <= d <= days_in_month y m ->
  1 <= days_before_month y m + d <= 365 + (if is_leap y then 1 else 0).
Proof.
  unfold days_before_month, days_in_month. intros Hm.
  destruct (is_leap y), (Z.eqb_spec m 2), (Z.ltb_spec 2 m);
    cbn [andb]; cases_from m 1 12%nat;
    cbv [DAYS_BEFORE_MONTH DAYS_IN_MONTH]; lia.
Qed.

Lemma days_before_year_range (y : Z) :
  1 <= y <= MAXYEAR ->
  0 <= days_before_year y
  /\ days_before_year y + 365 + (if is_leap y then 1 else 0) <= MAXORDINAL.
Proof.
  unfold MAXYEAR, MAXORDINAL, days_before_year, is_leap. intros Hy.
  destruct (Z.eqb_spec (y mod 4) 0), (Z.eqb_spec (y mod 100) 0),
    (Z.eqb_spec (y mod 400) 0); cbn [andb orb negb];
    Z.div_mod_to_equations; lia.
Qed.

(** A date the constructor accepts has its ordinal in the range. *)
Lemma ymd2ord_range (y m d : Z) :
  valid_ymd y m d = true -> 1 <= ymd2ord y m d <= MAXORDINAL.
Proof.
  unfold valid_ymd. intros H.
  repeat (apply andb_prop in H as [H ?]).
  pose proof (days_before_year_range y ltac:(lia)).
  pose proof (month_offset_range y m d ltac:(lia) ltac:(lia)).
  unfold ymd2ord. lia.
Qed.

Lemma days_before_year_next (y : Z) :
  days_before_year (y + 1)
  = days_before_year y + 365 + (if is_leap y then 1 else 0).
Proof.
  unfold days_before_year, is_leap. cbv zeta.
  replace (y + 1 - 1) with y by lia.
  destruct (Z.eqb_spec (y mod 4) 0), (Z.eqb_spec (y mod 100) 0),
    (Z.eqb_spec (y mod 400) 0); cbn [andb orb negb];
    Z.div_mod_to_equations; lia.
Qed.

Lemma days_before_year_mono (y y' : Z) :
  y <= y' -> days_before_year y <= days_before_year y'.
Proof.
  unfold days_before_year. cbv zeta. intros H.
  Z.div_mod_to_equations. lia.
Qed.

Lemma days_before_month_next (y m : Z) :
  1 <= m <= 11 ->
  days_before_month y (m + 1) = days_before_month y m + days_in_month y m.
Proof.
  unfold days_before_month, days_in_month. intros Hm.
  destruct (is_leap y); cases_from m 1 11%nat; reflexivity.
Qed.

Lemma days_before_month_mono (y m m' : Z) :
  1 <= m -> m <= m' -> m' <= 12 ->
  days_before_month y m <= days_before_month y m'.
Proof.
  unfold days_before_month. intros H1 H2 H3.
  destruct (is_leap y); cases_from m 1 12%nat; cases_from m' 1 12%nat;
    cbn; lia.
Qed.

(** The ordinal grows with the date: comparing two dates by year, month
    and day, as [datetime] does, is comparing their ordinals. *)
Lemma ymd2ord_lt (y m d y' m' d' : Z) :
  valid_ymd y m d = true -> valid_ymd y' m' d' = true ->
  (y < y' \/ (y = y' /\ (m < m' \/ (m = m' /\ d < d')))) ->
  ymd2ord y m d < ymd2ord y' m' d'.
Proof.
  unfold valid_ymd. intros H H'.
  repeat (apply andb_prop in H as [H ?]).
  repeat (apply andb_prop in H' as [H' ?]).
  pose proof (month_offset_range y m d ltac:(lia) ltac:(lia)).
  pose proof (month_offset_range y' m' d' ltac:(lia) ltac:(lia)).
  unfold ymd2ord. intros [Hy|[-> [Hm|[-> Hd]]]].
  - pose proof (days_before_year_next y).
    pose proof (days_before_year_mono (y + 1) y' ltac:(lia)). lia.
  - pose proof (days_before_month_next y' m ltac:(lia)).
    pose proof (days_before_month_mono y' (m + 1) m'
                  ltac:(lia) ltac:(lia) ltac:(lia)).
    lia.
  - lia.
Qed.

End CalendarFacts.

(* ===================================================================== *)
(** ** Facts about [strftime] and [strptime] *)
(* ===================================================================== *)

Module DatetimeFacts.
Import Calendar Datetime.

Lemma is_digit_chr (k : Z) : 0 <= k <= 9 -> Text.is_digit (Text.digit_chr k) = true.
Proof. intros Hk. cases_from k 0 10%nat; reflexivity. Qed.

Lemma digit_val_chr (k : Z) : 0 <= k <= 9 -> Text.digit_val (Text.digit_chr k) = k.
Proof. intros Hk. cases_from k 0 10%nat; reflexivity. Qed.

Lemma parse_month_pad2 (m : Z) (r : string) :
  1 <= m <= 12 -> parse_month (pad2 m +:+ "-" +:+ r) = Some (m, r).
Proof. intros Hm. cases_from m 1 12%nat; reflexivity. Qed.

Lemma parse_day_pad2 (d : Z) :
  1 <= d <= 31 -> parse_day (pad2 d) = Some (d, EmptyString).
Proof. intros Hd. cases_from d 1 31%nat; reflexivity. Qed.

Lemma days_in_month_le (y m : Z) : days_in_month y m <= 31.
Proof.
  unfold days_in_month, DAYS_IN_MONTH.
  destruct ((m =? 2) && is_leap y); [lia|].
  destruct m as [|p|p]; try lia.
  do 4 (destruct p as [p|p|]; try lia).
Qed.

(** The text of a date of the supported range reads back as that date,
    at midnight. *)
Lemma strptime_strftime (t : datetime) :
  1 <= ordinal t <= MAXORDINAL ->
  strptime (strftime t) = Some (mkdt (ordinal t) 0).
Proof.
  intros Ht. unfold strftime.
  destruct (CalendarFacts.ord2ymd_sound _ Ht)
    as (y & m & d & -> & Hy & Hm & Hd & Hord).
  unfold MAXYEAR in Hy. pose proof (days_in_month_le y m) as Hdim.
  change (pad4 y +:+ "-" +:+ pad2 m +:+ "-" +:+ pad2 d)
    with (String (Text.digit_chr (y / 1000))
            (String (Text.digit_chr (y / 100 mod 10))
               (String (Text.digit_chr (y mod 100 / 10))
                  (String (Text.digit_chr ((y mod 100) mod 10))
                     (String "-" (pad2 m +:+ "-" +:+ pad2 d)))))).
  unfold strptime. cbv beta iota.
  assert (Hy1 : 0 <= y / 1000 <= 9) by (Z.div_mod_to_equations; lia).
  assert (Hy2 : 0 <= y / 100 mod 10 <= 9) by (Z.div_mod_to_equations; lia).
  assert (Hy3 : 0 <= y mod 100 / 10 <= 9) by (Z.div_mod_to_equations; lia).
  assert (Hy4 : 0 <= (y mod 100) mod 10 <= 9) by (Z.div_mod_to_equations; lia).
  rewrite !is_digit_chr, !digit_val_chr by assumption. cbn [andb].
  replace (1000 * (y / 1000) + 100 * (y / 100 mod 10)
           + 10 * (y mod 100 / 10) + (y mod 100) mod 10)
    with y by (Z.div_mod_to_equations; lia).
  rewrite parse_month_pad2 by assumption.
  rewrite parse_day_pad2 by lia.
  unfold valid_ymd, MAXYEAR.
  replace ((1 <=? y) && (y <=? 9999) && (1 <=? m) && (m <=? 12)
           && (1 <=? d) && (d <=? days_in_month y m)) with true.
  - now rewrite Hord.
  - symmetry. repeat (apply andb_true_intro; split); apply Z.leb_le; lia.
Qed.

(** What [strptime] returns is a date of the supported range, at
    midnight. *)
Lemma strptime_range (text : string) (t : datetime) :
  strptime text = Some t -> 1 <= ordinal t <= MAXORDINAL /\ usec t = 0.
Proof.
  unfold strptime. intros H.
  repeat match type of H with
         | match ?x with _ => _ end = _ => destruct x eqn:?; try discriminate H
         | (if ?x then _ else _) = _ => destruct x eqn:?; try discriminate H
         end.
  injection H as <-. cbn [ordinal usec]. split; [|reflexivity].
  now apply CalendarFacts.ymd2ord_range.
Qed.

Lemma max_ordinal (a b : datetime) :
  ordinal (max a b) = Z.max (ordinal a) (ordinal b).
Proof.
  unfold max, lt.
  destruct (Z.ltb_spec (ordinal a) (ordinal b)); cbn [orb]; [lia|].
  destruct (Z.eqb_spec (ordinal a) (ordinal b)); cbn [andb].
  - destruct (usec a <? usec b); lia.
  - lia.
Qed.

End DatetimeFacts.

(* ===================================================================== *)
(** ** Running the operations of the store *)
(* ===================================================================== *)

(** Unfolds the monad so that a computation applied to a state becomes a
    nest of matches. *)
Ltac munfold :=
  unfold load_users, save_users, load_config, save_config,
    try_except, getitem, strptime, lift, now, raise, get_state, modify,
    mbind, M_bind, mret, M_ret, fmap, M_fmap;
  cbv beta iota.

Section DictFacts.
Context {V : Type}.
Implicit Types (k : string) (v : V) (d : list (string * V)).

Lemma dict_get_set_eq k v d : dict_get k (dict_set k v d) = Some v.
Proof.
  induction d as [|[k' v'] d IH]; cbn.
  - now rewrite String.eqb_refl.
  - destruct (String.eqb_spec k' k) as [->|Hne]; cbn.
    + now rewrite String.eqb_refl.
    + destruct (String.eqb_spec k' k); [contradiction|exact IH].
Qed.

Lemma dict_get_set_ne k k' v d :
  k <> k' -> dict_get k' (dict_set k v d) = dict_get k' d.
Proof.
  intros Hne. induction d as [|[k0 v0] d IH]; cbn.
  - destruct (String.eqb_spec k k'); [contradiction|reflexivity].
  - destruct (String.eqb_spec k0 k) as [->|Hk]; cbn.
    + destruct (String.eqb_spec k k'); [contradiction|reflexivity].
    + now rewrite IH.
Qed.

(** Assigning to a key that is there keeps the order of the keys. *)
Lemma dict_set_keys k v v0 d :
  dict_get k d = Some v0 -> map fst (dict_set k v d) = map fst d.
Proof.
  induction d as [|[k' v'] d IH]; cbn; [discriminate|].
  destruct (String.eqb_spec k' k) as [->|Hne]; cbn; [reflexivity|].
  intros H. now rewrite IH.
Qed.

Lemma dict_get_elem k v d : dict_get k d = Some v -> (k, v) ∈ d.
Proof.
  induction d as [|[k' v'] d IH]; cbn; [discriminate|].
  destruct (String.eqb_spec k' k) as [->|Hne].
  - intros [= ->]. apply list_elem_of_here.
  - intros H. apply list_elem_of_further. auto.
Qed.
End DictFacts.

Lemma expire_of_ext (user_id : string) (s s' : state) :
  users_file s' = users_file s -> expire_of user_id s' = expire_of user_id s.
Proof. unfold expire_of, users_of. now intros ->. Qed.

Lemma timedelta_days_inl (n : Z) (e : exn) :
  Datetime.timedelta_days n = inl e -> is_ValueError e = false.
Proof.
  unfold Datetime.timedelta_days.
  destruct (Z.abs n <=? 999999999); [discriminate|].
  destruct ((-2147483648 <=? n) && (n <=? 2147483647));
    intros [= <-]; reflexivity.
Qed.

Lemma timedelta_days_inr (n d : Z) :
  Datetime.timedelta_days n = inr d -> d = n.
Proof.
  unfold Datetime.timedelta_days.
  destruct (Z.abs n <=? 999999999); [now intros [= <-]|].
  destruct ((-2147483648 <=? n) && (n <=? 2147483647)); discriminate.
Qed.

Lemma timedelta_days_ok (n : Z) :
  Z.abs n <= 999999999 -> Datetime.timedelta_days n = inr n.
Proof.
  intros H. unfold Datetime.timedelta_days.
  now destruct (Z.leb_spec (Z.abs n) 999999999); [|lia].
Qed.

Lemma add_days_inl (t : Datetime.datetime) (n : Z) (e : exn) :
  Datetime.add_days t n = inl e -> is_ValueError e = false.
Proof.
  unfold Datetime.add_days.
  destruct ((1 <=? Datetime.ordinal t + n)
            && (Datetime.ordinal t + n <=? Calendar.MAXORDINAL));
    [discriminate|]. intros [= <-]; reflexivity.
Qed.

Lemma add_days_inr (t t' : Datetime.datetime) (n : Z) :
  Datetime.add_days t n = inr t' ->
  Datetime.ordinal t' = Datetime.ordinal t + n
  /\ 1 <= Datetime.ordinal t' <= Calendar.MAXORDINAL.
Proof.
  unfold Datetime.add_days.
  destruct ((1 <=? Datetime.ordinal t + n)
            && (Datetime.ordinal t + n <=? Calendar.MAXORDINAL)) eqn:E;
    [|discriminate].
  intros [= <-]. cbn. apply andb_prop in E as [? ?]. lia.
Qed.

Lemma add_days_ok (t : Datetime.datetime) (n : Z) :
  1 <= Datetime.ordinal t + n <= Calendar.MAXORDINAL ->
  Datetime.add_days t n
  = inr (Datetime.mkdt (Datetime.ordinal t + n) (Datetime.usec t)).
Proof.
  intros H. unfold Datetime.add_days.
  destruct (Z.leb_spec 1 (Datetime.ordinal t + n)); [|lia].
  now destruct (Z.leb_spec (Datetime.ordinal t + n) Calendar.MAXORDINAL); [|lia].
Qed.

Lemma today_plus_run (n : Z) (s : state) :
  today_plus n s =
  match Datetime.timedelta_days n with
  | inl e => (inl e, tick s)
  | inr d =>
      match Datetime.add_days (reading s) d with
      | inl e => (inl e, tick s)
      | inr t => (inr (Datetime.strftime t), tick s)
      end
  end.
Proof.
  unfold today_plus. munfold.
  destruct (Datetime.timedelta_days n); [reflexivity|].
  destruct (Datetime.add_days (reading s) z); reflexivity.
Qed.

Lemma extend_expire_date_run (info : user_info) (n : Z) (s : state) :
  extend_expire_date info n s =
  match info !! "expire_date" with
  | None => (inl (KeyError "expire_date"), s)
  | Some stored =>
      match Datetime.strptime stored with
      | Some current_expire =>
          match Datetime.timedelta_days n with
          | inl e => (inl e, tick s)
          | inr d =>
              match Datetime.add_days
                      (Datetime.max current_expire (reading s)) d with
              | inl e => (inl e, tick s)
              | inr t =>
                  (inr (<["expire_date" := Datetime.strftime t]> info), tick s)
              end
          end
      | None =>
          match today_plus n s with
          | (inr text, s') => (inr (<["expire_date" := text]> info), s')
          | (inl e, s') => (inl e, s')
          end
      end
  end.
Proof.
  unfold extend_expire_date. munfold.
  destruct (info !! "expire_date") as [stored|]; [|reflexivity].
  destruct (Datetime.strptime stored) as [E|].
  - destruct (Datetime.timedelta_days n) as [e|d] eqn:Ed.
    + now rewrite (timedelta_days_inl _ _ Ed).
    + destruct (Datetime.add_days (Datetime.max E (reading s)) d)
        as [e|t] eqn:Ea; [|reflexivity].
      now rewrite (add_days_inl _ _ _ Ea).
  - cbn [is_ValueError].
    destruct (today_plus n s) as [[e|text] s']; reflexivity.
Qed.

(** The state only loses clock readings while a record is being built. *)
Lemma today_plus_users_file (n : Z) (s : state) :
  users_file (today_plus n s).2 = users_file s.
Proof.
  rewrite today_plus_run.
  destruct (Datetime.timedelta_days n); [reflexivity|].
  destruct (Datetime.add_days (reading s) z); reflexivity.
Qed.

Lemma extend_expire_date_users_file (info : user_info) (n : Z) (s : state) :
  users_file (extend_expire_date info n s).2 = users_file s.
Proof.
  rewrite extend_expire_date_run.
  destruct (info !! "expire_date") as [stored|]; [|reflexivity].
  destruct (Datetime.strptime stored) as [E|].
  - destruct (Datetime.timedelta_days n); [reflexivity|].
    destruct (Datetime.add_days _ _); reflexivity.
  - pose proof (today_plus_users_file n s) as H.
    destruct (today_plus n s) as [[e|text] s']; exact H.
Qed.

Lemma new_user_record_users_file (username : option string) (n : Z) (s : state) :
  users_file (new_user_record username n s).2 = users_file s.
Proof.
  unfold new_user_record. munfold.
  destruct (0 <? n).
  - pose proof (today_plus_users_file n (tick s)) as H.
    destruct (today_plus n (tick s)) as [[e|text] s']; exact H.
  - reflexivity.
Qed.

(** What [extend_expire_date] returns differs from the record it was
    given in [expire_date] only. *)
Lemma extend_expire_date_frame (info info' : user_info) (n : Z) (s s' : state) :
  extend_expire_date info n s = (inr info', s') ->
  exists text, info' = <["expire_date" := text]> info.
Proof.
  rewrite extend_expire_date_run.
  destruct (info !! "expire_date") as [stored|]; [|discriminate].
  destruct (Datetime.strptime stored) as [E|].
  - destruct (Datetime.timedelta_days n); [discriminate|].
    destruct (Datetime.add_days _ _); [discriminate|].
    intros [= <- <-]. eauto.
  - destruct (today_plus n s) as [[e|text] s0]; [discriminate|].
    intros [= <- <-]. eauto.
Qed.

(** [add_or_update_user] on a user that has a record. *)
Lemma add_or_update_user_existing
    (user_id : string) (username : option string) (n : Z)
    (s : state) (info : user_info) :
  dict_get user_id (users_of s) = Some info ->
  add_or_update_user user_id username n s =
  let info1 :=
    match username with
    | Some u => <["platform_username" := u]> info
    | None => info
    end in
  match (if 0 <? n then extend_expire_date info1 n s else (inr info1, s)) with
  | (inr info2, s') =>
      (inr info2,
       set_users_file (Some (dict_set user_id info2 (users_of s))) s')
  | (inl e, s') => (inl e, s')
  end.
Proof.
  intros Hget. unfold add_or_update_user. munfold. rewrite Hget. cbv zeta.
  destruct (0 <? n).
  - destruct (extend_expire_date _ n s) as [[e|info2] s']; [reflexivity|].
    now rewrite dict_get_set_eq.
  - now rewrite dict_get_set_eq.
Qed.

(** [add_or_update_user] on a user that has none. *)
Lemma add_or_update_user_new
    (user_id : string) (username : option string) (n : Z) (s : state) :
  dict_get user_id (users_of s) = None ->
  add_or_update_user user_id username n s =
  match new_user_record username n s with
  | (inr info, s') =>
      (inr info, set_users_file (Some (dict_set user_id info (users_of s))) s')
  | (inl e, s') => (inl e, s')
  end.
Proof.
  intros Hget. unfold add_or_update_user. munfold. rewrite Hget.
  destruct (new_user_record username n s) as [[e|info] s']; [reflexivity|].
  now rewrite dict_get_set_eq.
Qed.

(* ===================================================================== *)
(** ** Extending a record *)
(* ===================================================================== *)

Section Upsert.
Import Datetime.

Lemma expire_of_set (user_id : string) (info : user_info) (u : users) (s : state) :
  expire_of user_id (set_users_file (Some (dict_set user_id info u)) s)
  = match info !! "expire_date" with
    | Some stored => strptime stored
    | None => None
    end.
Proof. unfold expire_of, users_of. cbn. now rewrite dict_get_set_eq. Qed.

Lemma expire_of_set_ne (user_id other : string) (info : user_info) (s s' : state) :
  other <> user_id ->
  expire_of user_id
    (set_users_file (Some (dict_set other info (users_of s))) s')
  = expire_of user_id s.
Proof.
  intros Hne. unfold expire_of at 1. unfold users_of at 1. cbn.
  now rewrite dict_get_set_ne.
Qed.

Lemma lookup_with_username (info : user_info) (username : option string) :
  match username with
  | Some u => <["platform_username" := u]> info
  | None => info
  end !! "expire_date" = info !! "expire_date".
Proof. destruct username; [|reflexivity]. now rewrite lookup_insert_ne. Qed.

(** C1 (amended): for a user that has a record whose [expire_date] reads
    as a date, [add_or_update_user] with [extend_days > 0] returns the
    stored record, and its new [expire_date] is
    [max(current_expire_date, today) + extend_days] days, provided that
    day is not after 9999-12-31. *)
Theorem extension_stacks_on_later_date
    (s : state) (user_id : string) (username : option string)
    (extend_days : Z) (current_expire : datetime) :
  expire_of user_id s = Some current_expire ->
  0 < extend_days ->
  Z.max (ordinal current_expire) (ordinal (reading s)) + extend_days
    <= Calendar.MAXORDINAL ->
  extends_from_later s user_id username extend_days current_expire.
Proof.
  intros Hexp Hpos Hmax. unfold expire_of in Hexp.
  destruct (dict_get user_id (users_of s)) as [info|] eqn:Hget; [|discriminate].
  destruct (info !! "expire_date") as [stored|] eqn:Hstored; [|discriminate].
  destruct (DatetimeFacts.strptime_range _ _ Hexp) as [Hrange _].
  unfold extends_from_later.
  rewrite (add_or_update_user_existing _ _ _ _ _ Hget). cbv zeta.
  destruct (Z.ltb_spec 0 extend_days); [|lia].
  rewrite extend_expire_date_run, lookup_with_username, Hstored, Hexp.
  rewrite timedelta_days_ok by (unfold Calendar.MAXORDINAL in *; lia).
  rewrite add_days_ok by (rewrite DatetimeFacts.max_ordinal; lia).
  rewrite DatetimeFacts.max_ordinal.
  eexists _, _. split; [reflexivity|]. split.
  - unfold users_of at 1. cbn. apply dict_get_set_eq.
  - rewrite expire_of_set, lookup_insert_eq.
    apply DatetimeFacts.strptime_strftime. cbn. lia.
Qed.

(** The second user of the sample expired ten days before the call; three
    more days take him to 2024-01-13. *)
Lemma extension_stacks_on_later_date_witness :
  extends_from_later Sample.s0 "10002" None 3 (mkdt (738895 - 10) 0)
  /\ Z.max (738895 - 10) (ordinal (reading Sample.s0)) + 3 = 738895 + 3.
Proof.
  split; [|reflexivity].
  apply (extension_stacks_on_later_date Sample.s0 "10002" None 3);
    [reflexivity | lia | vm_compute; discriminate].
Defined.

(** C1 as it is stated fails: an extension that leads past 9999-12-31
    raises [OverflowError] and the record keeps its expiry. *)
Lemma extension_past_last_date :
  expire_of "10001" Sample.s0 = Some (mkdt 738895 0)
  /\ 0 < 4000000
  /\ ~ extends_from_later Sample.s0 "10001" None 4000000 (mkdt 738895 0)
  /\ (add_or_update_user "10001" None 4000000 Sample.s0).1
     = inl (OverflowError "date value out of range")
  /\ expire_of "10001" (add_or_update_user "10001" None 4000000 Sample.s0).2
     = Some (mkdt 738895 0).
Proof.
  split; [reflexivity|]. split; [lia|]. split; [|split; reflexivity].
  intros (info & s' & Hrun & _). vm_compute in Hrun. discriminate Hrun.
Qed.

End Upsert.

(* ===================================================================== *)
(** ** Sequences of calls, and what a call leaves alone *)
(* ===================================================================== *)

Section Sequences.
Import Datetime.

Lemma expire_of_inv (user_id : string) (s : state) (E : datetime) :
  expire_of user_id s = Some E ->
  exists info stored,
    dict_get user_id (users_of s) = Some info
    /\ info !! "expire_date" = Some stored
    /\ strptime stored = Some E.
Proof.
  unfold expire_of. intros H.
  destruct (dict_get user_id (users_of s)) as [info|]; [|discriminate].
  destruct (info !! "expire_date") as [stored|] eqn:Hs; [|discriminate].
  eauto.
Qed.

(** One call, on any user, never takes the expiry of [user_id] back. *)
Lemma upsert_expire_monotone
    (user_id other : string) (username : option string) (n : Z)
    (s : state) (E : datetime) :
  expire_of user_id s = Some E ->
  exists E',
    expire_of user_id (add_or_update_user other username n s).2 = Some E'
    /\ ordinal E <= ordinal E'.
Proof.
  intros Hexp.
  destruct (expire_of_inv _ _ _ Hexp)
    as (info0 & stored & Hget0 & Hstored & Hparse).
  destruct (dict_get other (users_of s)) as [info|] eqn:Hget.
  - rewrite (add_or_update_user_existing _ _ _ _ _ Hget). cbv zeta.
    destruct (Z.ltb_spec 0 n) as [Hn|Hn].
    + pose proof (extend_expire_date_users_file
                    (match username with
                     | Some u => <["platform_username" := u]> info
                     | None => info
                     end) n s) as Hfile.
      destruct (extend_expire_date _ n s) as [[e|info2] s'] eqn:Hrun;
        cbn in Hfile |- *.
      * exists E. rewrite (expire_of_ext _ _ _ Hfile). split; [assumption|lia].
      * destruct (decide (other = user_id)) as [->|Hne].
        -- rewrite expire_of_set.
           rewrite Hget0 in Hget. injection Hget as <-.
           rewrite extend_expire_date_run, lookup_with_username,
             Hstored, Hparse in Hrun.
           destruct (timedelta_days n) as [e|d] eqn:Hd; [discriminate|].
           apply timedelta_days_inr in Hd as ->.
           destruct (add_days (max E (reading s)) n) as [e|t] eqn:Ha;
             [discriminate|].
           injection Hrun as <- <-.
           apply add_days_inr in Ha as [Hord Hrange].
           rewrite DatetimeFacts.max_ordinal in Hord.
           rewrite lookup_insert_eq.
           exists (mkdt (ordinal t) 0). split.
           ++ now apply DatetimeFacts.strptime_strftime.
           ++ cbn. lia.
        -- rewrite expire_of_set_ne by assumption.
           exists E. split; [assumption|lia].
    + cbn. destruct (decide (other = user_id)) as [->|Hne].
      * rewrite expire_of_set, lookup_with_username.
        rewrite Hget0 in Hget. injection Hget as <-.
        rewrite Hstored. exists E. split; [assumption|lia].
      * rewrite expire_of_set_ne by assumption.
        exists E. split; [assumption|lia].
  - rewrite (add_or_update_user_new _ _ _ _ Hget).
    assert (Hne : other <> user_id) by congruence.
    pose proof (new_user_record_users_file username n s) as Hfile.
    destruct (new_user_record username n s) as [[e|info] s'];
      cbn in Hfile |- *.
    + exists E. rewrite (expire_of_ext _ _ _ Hfile). split; [assumption|lia].
    + rewrite expire_of_set_ne by assumption.
      exists E. split; [assumption|lia].
Qed.

(** C2: in every finite sequence of calls of [add_or_update_user], the
    [expire_date] of a record after a call is on or after its
    [expire_date] before that call, whether or not that date was already
    past.  (The calls may have any target, user name and number of days;
    the calls with [extend_days > 0] on the record are a special case.) *)
Theorem expire_date_non_decreasing
    (user_id : string) (calls : list call) (c : call)
    (s : state) (before : datetime) :
  expire_of user_id (after_calls calls s) = Some before ->
  exists after,
    expire_of user_id (after_calls (calls ++ [c]) s) = Some after
    /\ ordinal before <= ordinal after.
Proof.
  intros Hbefore. unfold after_calls. rewrite fold_left_app. cbn [fold_left].
  now apply upsert_expire_monotone.
Qed.

(** Two extensions of the first sample user, +5 and then +2 days. *)
Lemma expire_date_non_decreasing_witness :
  exists after,
    expire_of "10001"
      (after_calls ([mkcall "10001" None 5] ++ [mkcall "10001" None 2]) Sample.s0)
    = Some after
    /\ 738895 + 5 <= ordinal after.
Proof.
  apply (expire_date_non_decreasing "10001" [mkcall "10001" None 5]
           (mkcall "10001" None 2) Sample.s0 (mkdt (738895 + 5) 0)).
  vm_compute. reflexivity.
Defined.

(** Over a whole sequence the expiry does not go back either. *)
Lemma expire_date_never_earlier
    (user_id : string) (calls : list call) (s : state) (before : datetime) :
  expire_of user_id s = Some before ->
  exists after,
    expire_of user_id (after_calls calls s) = Some after
    /\ ordinal before <= ordinal after.
Proof.
  revert s before. induction calls as [|c calls IH]; intros s before Hbefore.
  - exists before. split; [assumption|lia].
  - cbn [after_calls fold_left].
    destruct (upsert_expire_monotone user_id (call_user_id c)
                (call_username c) (call_extend_days c) s before Hbefore)
      as (mid & Hmid & Hle).
    destruct (IH _ _ Hmid) as (after & Hafter & Hle').
    exists after. split; [assumption|lia].
Qed.

End Sequences.

Section Frame.

(** C10: on a user that has a record, [add_or_update_user] with a user
    name and [extend_days = 0] changes [platform_username] only (so
    [start_date] and [expire_date] stay); with [extend_days > 0] and no
    user name it leaves every field but [expire_date] as it was (so
    [platform_username] and [start_date] stay), whether the call returns
    or raises; in both cases the records of the other users stay as they
    were. *)
Theorem upsert_changes_one_field
    (s : state) (user_id : string) (info : user_info) :
  dict_get user_id (users_of s) = Some info ->
  (forall username : string,
     exists s',
       add_or_update_user user_id (Some username) 0 s
       = (inr (<["platform_username" := username]> info), s')
       /\ dict_get user_id (users_of s')
          = Some (<["platform_username" := username]> info)
       /\ (forall key, key <> "platform_username" ->
             (<["platform_username" := username]> info) !! key = info !! key)
       /\ (forall other, other <> user_id ->
             dict_get other (users_of s') = dict_get other (users_of s)))
  /\ (forall extend_days : Z, 0 < extend_days ->
        let s' := (add_or_update_user user_id None extend_days s).2 in
        exists info',
          dict_get user_id (users_of s') = Some info'
          /\ (forall key, key <> "expire_date" -> info' !! key = info !! key)
          /\ (forall other, other <> user_id ->
                dict_get other (users_of s') = dict_get other (users_of s))).
Proof.
  intros Hget. split.
  - intros username.
    rewrite (add_or_update_user_existing _ _ _ _ _ Hget). cbn.
    eexists. split; [reflexivity|]. split; [|split].
    + unfold users_of at 1. cbn. apply dict_get_set_eq.
    + intros key Hkey. now apply lookup_insert_ne.
    + intros other Hother. unfold users_of at 1. cbn.
      now apply dict_get_set_ne.
  - intros n Hn. rewrite (add_or_update_user_existing _ _ _ _ _ Hget).
    cbv zeta. destruct (Z.ltb_spec 0 n); [|lia].
    pose proof (extend_expire_date_users_file info n s) as Hfile.
    destruct (extend_expire_date info n s) as [[e|info2] s'] eqn:Hrun;
      cbn in Hfile |- *.
    + exists info. unfold users_of. rewrite Hfile. fold (users_of s). auto.
    + destruct (extend_expire_date_frame _ _ _ _ _ Hrun) as [text ->].
      eexists. split; [|split].
      * unfold users_of at 1. cbn. apply dict_get_set_eq.
      * intros key Hkey. now apply lookup_insert_ne.
      * intros other Hother. unfold users_of at 1. cbn.
        now apply dict_get_set_ne.
Qed.

Lemma upsert_changes_one_field_witness :
  exists s',
    add_or_update_user "10001" (Some "alicia") 0 Sample.s0
    = (inr (<["platform_username" := "alicia"]>
              (Sample.record "alice" "2023-12-01" "2024-01-10")), s')
    /\ dict_get "10002" (users_of s') = dict_get "10002" (users_of Sample.s0).
Proof.
  destruct (upsert_changes_one_field Sample.s0 "10001"
              (Sample.record "alice" "2023-12-01" "2024-01-10") eq_refl)
    as [Hname _].
  destruct (Hname "alicia") as (s' & Hrun & _ & _ & Hothers).
  exists s'. split; [exact Hrun|]. apply Hothers. discriminate.
Defined.

End Frame.

(* ===================================================================== *)
(** ** Commands *)
(* ===================================================================== *)

Section Commands.

Lemma is_admin_run (user_id : string) (s : state) :
  is_admin user_id s = (inr (bool_decide (user_id ∈ self_admins s)), s).
Proof. reflexivity. Qed.

Lemma handle_yhm_denied
    (message_parts : list string) (message_text sender_id : string) (s : state) :
  sender_id ∉ self_admins s ->
  handle_yhm_command message_parts message_text sender_id s
  = (inr PERMISSION_DENIED, s).
Proof.
  intros Hna. unfold handle_yhm_command. munfold. rewrite is_admin_run.
  rewrite bool_decide_eq_false_2 by assumption. reflexivity.
Qed.

Lemma handle_extend_denied
    (message_parts : list string) (message_text sender_id : string) (s : state) :
  sender_id ∉ self_admins s ->
  handle_extend_time_command message_parts message_text sender_id s
  = (inr PERMISSION_DENIED, s).
Proof.
  intros Hna. unfold handle_extend_time_command. munfold. rewrite is_admin_run.
  rewrite bool_decide_eq_false_2 by assumption. reflexivity.
Qed.

Lemma command_of_inv (message_text command : string) :
  command_of message_text = Some command ->
  exists first rest,
    Text.split (Text.strip message_text) = first :: rest
    /\ Text.lower first = command.
Proof.
  unfold command_of.
  destruct (Text.split (Text.strip message_text)) as [|first rest];
    [discriminate|].
  intros [= <-]. eauto.
Qed.

(** C3 (amended): a sender that is not an admin gets the
    permission-denied message for the commands [/yhm] and [/续时], and no
    answer at all for [/用户列表]; in the three cases nothing changes,
    the user store included. *)
Theorem admin_commands_from_others
    (s : state) (message_text sender_id : string) :
  sender_id ∉ self_admins s ->
  (command_of message_text = Some "/yhm"
   \/ command_of message_text = Some "/续时" ->
   process_message message_text sender_id s
   = (inr (Some PERMISSION_DENIED), s))
  /\ (command_of message_text = Some "/用户列表" ->
      process_message message_text sender_id s = (inr None, s)).
Proof.
  intros Hna. split.
  - intros [H|H];
      destruct (command_of_inv _ _ H) as (first & rest & Hsplit & Hlower);
      unfold process_message; rewrite Hsplit, Hlower.
    + change (("/yhm" =? "/yhm")%string) with true. cbv iota.
      munfold. rewrite handle_yhm_denied by assumption. reflexivity.
    + change (("/续时" =? "/yhm")%string) with false. cbv iota.
      change (("/续时" =? "/续时")%string) with true. cbv iota.
      munfold. rewrite handle_extend_denied by assumption. reflexivity.
  - intros H.
    destruct (command_of_inv _ _ H) as (first & rest & Hsplit & Hlower).
    unfold process_message; rewrite Hsplit, Hlower.
    change (("/用户列表" =? "/yhm")%string) with false.
    change (("/用户列表" =? "/续时")%string) with false.
    change (("/用户列表" =? "/查看到期时间")%string) with false.
    change (("/用户列表" =? "/用户列表")%string) with true.
    change (("/用户列表" =? "/帮助")%string) with false. cbv iota.
    munfold. rewrite is_admin_run.
    rewrite bool_decide_eq_false_2 by assumption. reflexivity.
Qed.

(** The first sample user asks for an extension of a friend's record. *)
Lemma admin_commands_from_others_witness :
  process_message "/续时 30 @10002" "10001" Sample.s0
  = (inr (Some PERMISSION_DENIED), Sample.s0).
Proof.
  apply (admin_commands_from_others Sample.s0 "/续时 30 @10002" "10001").
  - vm_compute. intros H. inversion H as [|? ? ? H']; inversion H'.
  - right. reflexivity.
Defined.

(** C3 as it is stated fails for the third admin command: a sender that
    is not an admin gets no answer to [/用户列表], not the
    permission-denied message. *)
Lemma user_list_from_others_is_silent :
  command_of "/用户列表" = Some "/用户列表"
  /\ ("10001" ∉ self_admins Sample.s0)
  /\ process_message "/用户列表" "10001" Sample.s0 = (inr None, Sample.s0)
  /\ fst (process_message "/用户列表" "10001" Sample.s0)
     <> inr (Some PERMISSION_DENIED).
Proof.
  split; [reflexivity|]. split; [|split].
  - vm_compute. intros H. inversion H as [|? ? ? H']; inversion H'.
  - reflexivity.
  - discriminate.
Qed.

(** C6: for a sender that has no record, the check-expiry command, as a
    handler and through [process_message], returns the no-record message
    and leaves the state, the user store included, as it was. *)
Theorem check_expiry_without_record
    (s : state) (message_text sender_id : string) :
  dict_get sender_id (users_of s) = None ->
  handle_check_expire_command sender_id s = (inr NO_RECORD, s)
  /\ (command_of message_text = Some "/查看到期时间" ->
      process_message message_text sender_id s = (inr (Some NO_RECORD), s)).
Proof.
  intros Hget.
  assert (Hh : handle_check_expire_command sender_id s = (inr NO_RECORD, s)).
  { unfold handle_check_expire_command, get_user_info. munfold.
    now rewrite Hget. }
  split; [exact Hh|]. intros H.
  destruct (command_of_inv _ _ H) as (first & rest & Hsplit & Hlower).
  unfold process_message; rewrite Hsplit, Hlower.
  change (("/查看到期时间" =? "/yhm")%string) with false.
  change (("/查看到期时间" =? "/续时")%string) with false.
  change (("/查看到期时间" =? "/查看到期时间")%string) with true. cbv iota.
  munfold. now rewrite Hh.
Qed.

Lemma check_expiry_without_record_witness :
  handle_check_expire_command "10009" Sample.s0 = (inr NO_RECORD, Sample.s0)
  /\ (command_of "/查看到期时间" = Some "/查看到期时间" ->
      process_message "/查看到期时间" "10009" Sample.s0
      = (inr (Some NO_RECORD), Sample.s0)).
Proof.
  apply (check_expiry_without_record Sample.s0 "/查看到期时间" "10009").
  reflexivity.
Defined.

Import Datetime.

(** The number of days [handle_check_expire_command] shows: the calendar
    difference only at midnight sharp, one less at any later time of the
    day. *)
Lemma sub_days_from_clock (expire today : datetime) :
  usec expire = 0 -> 0 <= usec today < USEC_PER_DAY ->
  sub_days expire today
  = if usec today =? 0 then ordinal expire - ordinal today
    else ordinal expire - ordinal today - 1.
Proof.
  unfold sub_days, USEC_PER_DAY. intros -> Ht.
  destruct (Z.eqb_spec (usec today) 0); Z.div_mod_to_equations; lia.
Qed.

(** C4 (defect of the code): at noon of 2024-01-10 the user whose
    [expire_date] is 2024-01-10 is told "expired 1 day ago" instead of
    "expires today", and the user whose [expire_date] is the next day is
    told "expires today". *)
Theorem check_expiry_on_expiry_day :
  (handle_check_expire_command "10001" Sample.s0).1
  = inr ("📊 您的服务状态：" +:+ LF
         +:+ "👤 外部平台用户名：alice" +:+ LF
         +:+ "📅 开户时间：2023-12-01" +:+ LF
         +:+ "⏰ 到期时间：2024-01-10" +:+ LF
         +:+ "⏳ 已过期 1 天")
  /\ (handle_check_expire_command "10003" Sample.s0).1
     = inr ("📊 您的服务状态：" +:+ LF
            +:+ "👤 外部平台用户名：carol" +:+ LF
            +:+ "📅 开户时间：2023-12-11" +:+ LF
            +:+ "⏰ 到期时间：2024-01-11" +:+ LF
            +:+ "⏳ " +:+ EXPIRES_TODAY).
Proof. split; vm_compute; reflexivity. Qed.

(** What the status line is at any time after midnight. *)
Lemma status_text_after_midnight
    (stored : string) (s : state) (expire : datetime) :
  strptime stored = Some expire ->
  0 < usec (reading s) < USEC_PER_DAY ->
  let days_left := ordinal expire - ordinal (reading s) - 1 in
  status_text_of stored s
  = (inr (if 0 <? days_left then
            "距离到期还有：" +:+ Text.str_of_int days_left +:+ " 天"
          else if days_left =? 0 then EXPIRES_TODAY
          else "已过期 " +:+ Text.str_of_int (Z.abs days_left) +:+ " 天"),
     tick s).
Proof.
  intros Hparse Hclock. unfold status_text_of. munfold. rewrite Hparse.
  destruct (DatetimeFacts.strptime_range _ _ Hparse) as [_ Hmid].
  rewrite (sub_days_from_clock _ _ Hmid) by lia.
  destruct (Z.eqb_spec (usec (reading s)) 0); [lia|]. reflexivity.
Qed.

End Commands.

(* ===================================================================== *)
(** ** Finding the mentioned user *)
(* ===================================================================== *)

Section Extract.

Local Arguments String.append !_ _ / : simpl nomatch.

Lemma strip_prefix_app (p r : string) : Text.strip_prefix p (p +:+ r) = Some r.
Proof.
  induction p as [|c p IH]; cbn; [reflexivity|].
  now rewrite Ascii.eqb_refl.
Qed.

Lemma strip_prefix_inv (p s r : string) :
  Text.strip_prefix p s = Some r -> s = p +:+ r.
Proof.
  revert s. induction p as [|c p IH]; intros s; cbn.
  - now intros [= ->].
  - destruct s as [|c' s]; [discriminate|].
    destruct (Ascii.eqb_spec c c') as [->|]; [|discriminate].
    intros H. now rewrite (IH _ H).
Qed.

Lemma span_digits_inv (s ds r : string) :
  Text.span_digits s = (ds, r) ->
  s = ds +:+ r /\ Text.all_digits ds = true /\ no_digit_head r.
Proof.
  revert ds r. induction s as [|c s IH]; intros ds r; cbn [Text.span_digits].
  - intros [= <- <-]. repeat split.
  - destruct (Text.is_digit c) eqn:Hc.
    + destruct (Text.span_digits s) as [ds' r'].
      intros [= <- <-]. destruct (IH _ _ eq_refl) as (-> & Hds & Hr).
      cbn [String.append Text.all_digits]. rewrite Hc, Hds. auto.
    + intros [= <- <-]. repeat split. exact Hc.
Qed.

Lemma span_digits_app (ds r : string) :
  Text.all_digits ds = true -> no_digit_head r ->
  Text.span_digits (ds +:+ r) = (ds, r).
Proof.
  intros Hds Hr. induction ds as [|c ds IH];
    cbn [String.append Text.span_digits Text.all_digits] in *.
  - destruct r as [|c r]; [reflexivity|].
    cbn [Text.span_digits]. unfold no_digit_head in Hr. now rewrite Hr.
  - apply andb_prop in Hds as [Hc Hds]. now rewrite Hc, IH.
Qed.

Lemma match_cq_at_spec (s id : string) :
  match_cq_at s = Some id <->
  digits id /\ exists post, s = "[CQ:at,qq=" +:+ id +:+ "]" +:+ post.
Proof.
  unfold match_cq_at, digits. split.
  - destruct (Text.strip_prefix "[CQ:at,qq=" s) as [r|] eqn:Hp; [|discriminate].
    apply strip_prefix_inv in Hp as ->.
    destruct (Text.span_digits r) as [ds r'] eqn:Hspan.
    apply span_digits_inv in Hspan as (-> & Hds & _).
    destruct ds as [|d ds]; [discriminate|].
    destruct r' as [|c r']; [discriminate|].
    destruct (Ascii.eqb_spec c "]") as [->|Hc].
    + intros [= <-]. split; [split; [discriminate|exact Hds]|].
      now exists r'.
    + intros H. exfalso. revert H.
      destruct c as [[] [] [] [] [] [] [] []]; try discriminate.
      now contradict Hc.
  - intros [[Hne Hds] [post ->]].
    rewrite strip_prefix_app, span_digits_app by (assumption || reflexivity).
    destruct id; [contradiction|reflexivity].
Qed.

Lemma match_at_spec (s id : string) :
  match_at s = Some id <->
  digits id
  /\ exists post, s = "@" +:+ id +:+ post /\ no_digit_head post.
Proof.
  unfold match_at, digits. split.
  - destruct s as [|c r]; [discriminate|].
    destruct (Ascii.eqb_spec c "@") as [->|Hc].
    + destruct (Text.span_digits r) as [ds r'] eqn:Hspan.
      apply span_digits_inv in Hspan as (-> & Hds & Hr).
      destruct ds as [|d ds]; [discriminate|].
      intros [= <-]. split; [split; [discriminate|exact Hds]|].
      now exists r'.
    + intros H. exfalso. revert H.
      destruct c as [[] [] [] [] [] [] [] []]; try discriminate.
      now contradict Hc.
  - intros [[Hne Hds] (post & -> & Hpost)]. cbn [String.append].
    rewrite span_digits_app by assumption.
    destruct id; [contradiction|reflexivity].
Qed.

Lemma re_search_unfold (pattern : string -> option string) (text : string) :
  re_search pattern text =
  match pattern text with
  | Some g => Some g
  | None =>
      match text with
      | EmptyString => None
      | String _ text' => re_search pattern text'
      end
  end.
Proof. destruct text; reflexivity. Qed.

Lemma re_search_none (pattern : string -> option string) (text : string) :
  re_search pattern text = None <->
  forall pre suf, text = pre +:+ suf -> pattern suf = None.
Proof.
  split.
  - intros H pre. revert text H.
    induction pre as [|c pre IH]; intros text H suf ->;
      rewrite re_search_unfold in H; cbn [String.append] in H.
    + destruct (pattern suf); [discriminate|reflexivity].
    + destruct (pattern (String c (pre +:+ suf))); [discriminate|].
      now apply (IH _ H).
  - induction text as [|c text IH]; intros H; rewrite re_search_unfold.
    + now rewrite (H "" "" eq_refl).
    + rewrite (H "" (String c text) eq_refl). apply IH.
      intros pre suf ->. now apply (H (String c pre) suf).
Qed.


Lemma re_search_cq_none (text : string) :
  re_search match_cq_at text = None
  <-> forall pos id, ~ cq_at_occurs text pos id.
Proof.
  rewrite re_search_none. split.
  - intros H pos id (pre & post & -> & _ & Hid).
    specialize (H pre _ eq_refl).
    assert (Hm : match_cq_at ("[CQ:at,qq=" +:+ id +:+ "]" +:+ post) = Some id)
      by (apply match_cq_at_spec; eauto).
    congruence.
  - intros H pre suf ->.
    destruct (match_cq_at suf) as [id|] eqn:Hm; [|reflexivity].
    apply match_cq_at_spec in Hm as [Hid [post ->]].
    exfalso. apply (H (String.length pre) id). now exists pre, post.
Qed.




(** The at-code is preferred to a bare mention that stands before it;
    a bare mention is used when there is no complete at-code. *)
Example extract_at_user_samples :
  extract_at_user "/yhm bob [CQ:at,qq=10002]" = Some "10002"
  /\ extract_at_user "@12 [CQ:at,qq=456] [CQ:at,qq=789]" = Some "456"
  /\ extract_at_user "/续时 30 @10002 @10003" = Some "10002"
  /\ extract_at_user "[CQ:at,qq=12 @345x" = Some "345"
  /\ extract_at_user "mail me @ home [CQ:at,qq=]" = None.
Proof. repeat split; reflexivity. Qed.

End Extract.

(* ===================================================================== *)
(** ** Scans by expiry date and the reminder loop *)
(* ===================================================================== *)

Section Scans.
Import Datetime.

Lemma filter_is_exact (target_date : string) (s : state) :
  scan_is_exact (filter (expires_on target_date) (users_of s)) target_date s.
Proof.
  split; [apply sublist_filter|].
  intros entry. rewrite list_elem_of_filter. unfold expires_on. tauto.
Qed.

Lemma get_users_by_expire_date_run (target_date : string) (s : state) :
  get_users_by_expire_date target_date s
  = (inr (filter (expires_on target_date) (users_of s)), s).
Proof. reflexivity. Qed.

Lemma wf_abs (t : datetime) (n : Z) :
  wf t -> 1 <= ordinal t + n <= Calendar.MAXORDINAL -> Z.abs n <= 999999999.
Proof. unfold wf, Calendar.MAXORDINAL. lia. Qed.

Lemma get_expiring_users_run (days_before : Z) (s : state) :
  wf (reading s) ->
  1 <= ordinal (reading s) + days_before <= Calendar.MAXORDINAL ->
  get_expiring_users days_before s
  = get_users_by_expire_date
      (strftime (mkdt (ordinal (reading s) + days_before) 0)) (tick s).
Proof.
  intros Hwf Hrange. unfold get_expiring_users. munfold.
  rewrite today_plus_run, timedelta_days_ok by eauto using wf_abs.
  rewrite add_days_ok by assumption. reflexivity.
Qed.

Lemma get_expired_users_run (days_after : Z) (s : state) :
  wf (reading s) ->
  1 <= ordinal (reading s) - days_after <= Calendar.MAXORDINAL ->
  get_expired_users days_after s
  = get_users_by_expire_date
      (strftime (mkdt (ordinal (reading s) - days_after) 0)) (tick s).
Proof.
  intros Hwf Hrange. unfold get_expired_users. munfold.
  rewrite timedelta_days_ok
    by (apply Z.abs_le; pose proof (wf_abs _ (- days_after) Hwf ltac:(lia)); lia).
  rewrite add_days_ok by lia. reflexivity.
Qed.

(** C5 (amended): [get_users_by_expire_date] returns, in the order of the
    store, exactly the entries whose stored [expire_date] is the text
    asked for; [get_expiring_users days] and [get_expired_users days_ago]
    hand the text of today + days, of today - days_ago, to that scan and
    so return exactly the users that expire on that day, provided the day
    lies between 1000-01-01 and 9999-12-31: later days are out of the
    calendar, and the text of an earlier year is not the same on every
    platform. *)
Theorem expiry_scans_are_exact :
  (forall target_date s,
     get_users_by_expire_date target_date s
     = (inr (filter (expires_on target_date) (users_of s)), s)
     /\ scan_returns (get_users_by_expire_date target_date) target_date s)
  /\ (forall days s,
        wf (reading s) ->
        FIRST_PADDED <= ordinal (reading s) + days <= Calendar.MAXORDINAL ->
        let target_date := strftime (mkdt (ordinal (reading s) + days) 0) in
        get_expiring_users days s
        = get_users_by_expire_date target_date (tick s)
        /\ scan_returns (get_expiring_users days) target_date s)
  /\ (forall days_ago s,
        wf (reading s) ->
        FIRST_PADDED <= ordinal (reading s) - days_ago <= Calendar.MAXORDINAL ->
        let target_date := strftime (mkdt (ordinal (reading s) - days_ago) 0) in
        get_expired_users days_ago s
        = get_users_by_expire_date target_date (tick s)
        /\ scan_returns (get_expired_users days_ago) target_date s).
Proof.
  assert (Hfirst : FIRST_PADDED = 364878) by reflexivity.
  split; [|split].
  - intros target_date s. split; [reflexivity|].
    eexists _, _. split; [reflexivity|]. apply filter_is_exact.
  - intros days s Hwf Hrange target_date. unfold scan_returns.
    rewrite (get_expiring_users_run _ _ Hwf) by lia.
    split; [reflexivity|].
    eexists _, _. split; [reflexivity|]. apply (filter_is_exact _ s).
  - intros days s Hwf Hrange target_date. unfold scan_returns.
    rewrite (get_expired_users_run _ _ Hwf) by lia.
    split; [reflexivity|].
    eexists _, _. split; [reflexivity|]. apply (filter_is_exact _ s).
Qed.

(** At noon of 2024-01-10: who expires on 2024-01-13, who expired on
    2024-01-09. *)
Lemma expiry_scans_are_exact_witness :
  get_expiring_users 3 Sample.s0
  = get_users_by_expire_date "2024-01-13" (tick Sample.s0)
  /\ get_expired_users 1 Sample.s0
     = (inr [("10005", Sample.record "erin" "2023-12-10" "2024-01-09")],
        tick Sample.s0).
Proof.
  destruct expiry_scans_are_exact as (_ & Hin & Hago). split.
  - apply (Hin 3 Sample.s0);
      change FIRST_PADDED with 364878;
      unfold wf, Calendar.MAXORDINAL, USEC_PER_DAY; cbn; lia.
  - destruct (Hago 1 Sample.s0) as [-> _];
      [change FIRST_PADDED with 364878;
       unfold wf, Calendar.MAXORDINAL, USEC_PER_DAY; cbn; lia..|reflexivity].
Defined.

(** C5 as it is stated fails: for a day past 9999-12-31 the scan raises
    [OverflowError] instead of returning the (empty) list of users. *)
Lemma scan_far_ahead_raises :
  wf (reading Sample.s0)
  /\ (forall target_date,
        ~ scan_returns (get_expiring_users 4000000) target_date Sample.s0)
  /\ (get_expiring_users 4000000 Sample.s0).1
     = inl (OverflowError "date value out of range").
Proof.
  split; [unfold wf, Calendar.MAXORDINAL, USEC_PER_DAY; cbn; lia|].
  split; [|reflexivity].
  intros target_date (found & s' & Hrun & _). vm_compute in Hrun. discriminate Hrun.
Qed.
End Scans.

Section Reminders.
Import Datetime.

Lemma emit_all_nil (s : state) : emit_all [] s = s.
Proof. destruct s. unfold emit_all. cbn. now rewrite app_nil_r. Qed.

Lemma emit_all_app (es1 es2 : list event) (s : state) :
  emit_all es2 (emit_all es1 s) = emit_all (es1 ++ es2) s.
Proof. unfold emit_all. cbn. now rewrite app_assoc. Qed.

Lemma emit_one (e : event) (s : state) : emit e s = emit_all [e] s.
Proof. reflexivity. Qed.

(** A loop whose rounds only send messages, as long as [inv] holds. *)
Lemma for_each_emits {A : Type} (inv : state -> Prop)
    (xs : list A) (body : A -> M unit) (events : A -> list event) (s : state) :
  (forall es s, inv s -> inv (emit_all es s)) ->
  (forall x s, x ∈ xs -> inv s -> body x s = (inr tt, emit_all (events x) s)) ->
  inv s ->
  for_each xs body s = (inr tt, emit_all (concat (map events xs)) s).
Proof.
  intros Hkeep. revert s.
  induction xs as [|x xs IH]; intros s Hbody Hs; cbn [for_each map concat].
  - now rewrite emit_all_nil.
  - munfold. rewrite Hbody by (assumption || apply list_elem_of_here).
    rewrite IH; [now rewrite emit_all_app| |now apply Hkeep].
    intros; apply Hbody; [now apply list_elem_of_further|assumption].
Qed.

Lemma concat_singletons {A B : Type} (f : A -> B) (xs : list A) :
  concat (map (fun x => [f x]) xs) = map f xs.
Proof. induction xs; cbn; congruence. Qed.

Lemma remind_3days_all (target_date : string) (s0 s : state) :
  for_each (filter (expires_on target_date) (users_of s0)) remind_3days s
  = (inr tt, emit_all (events_3days target_date s0) s).
Proof.
  unfold events_3days. rewrite <- concat_singletons.
  apply (for_each_emits (fun _ => True)); [trivial| |trivial].
  intros [user_id info] s1 Hin _.
  apply list_elem_of_filter in Hin as [Hexp _]. unfold expires_on in Hexp.
  cbn in Hexp. unfold remind_3days. munfold. now rewrite Hexp.
Qed.

Lemma remind_today_all (target_date : string) (s0 s : state) :
  for_each (filter (expires_on target_date) (users_of s0)) remind_today s
  = (inr tt, emit_all (events_today target_date s0) s).
Proof.
  unfold events_today. rewrite <- concat_singletons.
  apply (for_each_emits (fun _ => True)); [trivial| |trivial].
  intros [user_id info] s1 Hin _.
  apply list_elem_of_filter in Hin as [Hexp _]. unfold expires_on in Hexp.
  cbn in Hexp. unfold remind_today. munfold. now rewrite Hexp.
Qed.

Lemma notify_expired_all (target_date : string) (s0 s : state) :
  self_admins s = self_admins s0 ->
  for_each (filter (expires_on target_date) (users_of s0)) notify_expired s
  = (inr tt, emit_all (events_expired target_date s0) s).
Proof.
  intros Hadm. unfold events_expired.
  apply (for_each_emits (fun s1 => self_admins s1 = self_admins s0));
    [trivial| |assumption].
  intros [user_id info] s1 Hin Hs1.
  apply list_elem_of_filter in Hin as [Hexp _]. unfold expires_on in Hexp.
  cbn in Hexp. unfold notify_expired. munfold. rewrite Hexp, Hs1.
  rewrite <- concat_singletons.
  apply (for_each_emits (fun _ => True)); trivial.
Qed.

Lemma reading_emit_all (es : list event) (s : state) :
  reading (emit_all es s) = reading s.
Proof. reflexivity. Qed.

Lemma tick_emit_all (es : list event) (s : state) :
  tick (emit_all es s) = emit_all es (tick s).
Proof. reflexivity. Qed.

Lemma users_of_emit_all (es : list event) (s : state) :
  users_of (emit_all es s) = users_of s.
Proof. reflexivity. Qed.

Lemma users_of_tick (s : state) : users_of (tick s) = users_of s.
Proof. reflexivity. Qed.

Lemma check_and_send_reminders_enabled (s : state) :
  reminder_enabled (config_of s) = true ->
  wf (reading s) -> wf (reading (tick s)) -> wf (reading (tick (tick s))) ->
  ordinal (reading s) + 3 <= Calendar.MAXORDINAL ->
  1 <= ordinal (reading (tick (tick s))) - 1 ->
  check_and_send_reminders s
  = (inr tt,
     emit_all
       (events_3days (strftime (mkdt (ordinal (reading s) + 3) 0)) s
        ++ events_today (strftime (mkdt (ordinal (reading (tick s))) 0)) s
        ++ events_expired
             (strftime (mkdt (ordinal (reading (tick (tick s))) - 1) 0)) s)
       (tick (tick (tick s)))).
Proof.
  intros Hon H3 H0 H1 Hmax Hmin.
  unfold check_and_send_reminders. munfold. rewrite Hon. cbn [negb].
  rewrite get_expiring_users_run by (assumption || (unfold wf in *; lia)).
  rewrite get_users_by_expire_date_run, users_of_tick, remind_3days_all.
  rewrite (get_expiring_users_run 0);
    rewrite ?reading_emit_all;
    [|assumption|unfold wf in H0; lia].
  rewrite get_users_by_expire_date_run.
  rewrite ?tick_emit_all, ?users_of_emit_all, ?users_of_tick, Z.add_0_r.
  rewrite remind_today_all, emit_all_app.
  rewrite get_expired_users_run;
    rewrite ?reading_emit_all;
    [|assumption|unfold wf in H1; lia].
  rewrite get_users_by_expire_date_run.
  rewrite ?tick_emit_all, ?users_of_emit_all, ?users_of_tick.
  rewrite notify_expired_all by reflexivity.
  now rewrite emit_all_app, <- app_assoc.
Qed.

Lemma reminder_iteration_disabled (s : state) :
  reminder_enabled (config_of s) = false ->
  reminder_iteration s = (inr tt, emit (Sleep 86400) s).
Proof.
  intros Hoff. unfold reminder_iteration, check_and_send_reminders, sleep.
  munfold. now rewrite Hoff.
Qed.

(** Whatever happens in the scans, a round of the loop raises nothing
    and ends with the same sleep. *)
Lemma reminder_iteration_sleeps (s : state) :
  exists s',
    reminder_iteration s = (inr tt, emit (Sleep 86400) s').
Proof.
  unfold reminder_iteration, sleep. munfold.
  destruct (check_and_send_reminders s) as [[e|[]] s']; eauto.
Qed.

(** C7: a round of the reminder loop reads [config.json] anew; when
    [reminder_enabled] is false there it sends nothing; otherwise it
    makes three scans, each with its own reading of the clock: the users
    that expire in three days and those that expire today get a group
    message, and for those that expired yesterday every admin gets a
    private message; in both cases the round ends with a sleep of 24
    hours.  (The three readings must leave room for +3 days and -1 day
    in the calendar.) *)
Theorem reminder_round (s : state) :
  let t3 := reading s in
  let t0 := reading (tick s) in
  let t1 := reading (tick (tick s)) in
  (reminder_enabled (config_of s) = false ->
   reminder_iteration s = (inr tt, emit (Sleep (24 * 60 * 60)) s))
  /\ (reminder_enabled (config_of s) = true ->
      wf t3 -> wf t0 -> wf t1 ->
      ordinal t3 + 3 <= Calendar.MAXORDINAL -> 1 <= ordinal t1 - 1 ->
      reminder_iteration s
      = (inr tt,
         emit_all
           (events_3days (strftime (mkdt (ordinal t3 + 3) 0)) s
            ++ events_today (strftime (mkdt (ordinal t0) 0)) s
            ++ events_expired (strftime (mkdt (ordinal t1 - 1) 0)) s
            ++ [Sleep (24 * 60 * 60)])
           (tick (tick (tick s))))).
Proof.
  cbv zeta. split; [apply reminder_iteration_disabled|].
  intros Hon H3 H0 H1 Hmax Hmin.
  unfold reminder_iteration, sleep. munfold.
  rewrite check_and_send_reminders_enabled by assumption.
  rewrite emit_one, emit_all_app. now rewrite <- !app_assoc.
Qed.

(** The round of noon, 2024-01-10. *)
Lemma reminder_round_witness :
  trace (reminder_iteration Sample.s0).2
  = [ GroupMessage "⚠️ @10004 您的服务将在3天后（2024-01-13）到期，请及时续期！";
      GroupMessage
        ("🚨 @10001 您的服务今天到期（2024-01-10），这是最后提醒！"
         +:+ LF +:+ "用户名：alice");
      PrivateMessage "90001"
        "🔴 管理员提醒：用户 @10005 (用户名: erin) 的服务已于 2024-01-09 到期，请及时进行关停操作。";
      Sleep 86400 ].
Proof.
  destruct (reminder_round Sample.s0) as [_ Hon].
  rewrite Hon; [reflexivity|reflexivity|..];
    unfold wf, Calendar.MAXORDINAL, USEC_PER_DAY; cbn; lia.
Defined.
End Reminders.

(* ===================================================================== *)
(** ** Saving the settings *)
(* ===================================================================== *)

Section SettingsFacts.
Variable json_loads : string -> string + users.

(** C8: [save_settings] never raises: it returns a success flag and a
    message; when the [users_json] text is not valid JSON the flag is
    false, the message is that of the JSON error, and nothing was
    saved. *)
Theorem save_settings_reports (settings_data : settings) (s : state) :
  (exists r s', save_settings json_loads settings_data s = (inr r, s'))
  /\ (forall blob msg,
        users_json settings_data = Some blob ->
        json_loads blob = inl msg ->
        save_settings json_loads settings_data s
        = (inr (mkresult false ("JSON格式错误: " +:+ msg)), s)).
Proof.
  unfold save_settings, try_except2, loads. split.
  - munfold.
    destruct (users_json settings_data) as [blob|];
      [destruct (json_loads blob) as [msg|users_data]|];
      destruct (settings_config settings_data); eauto.
  - intros blob msg -> Hbad. munfold. now rewrite Hbad.
Qed.

End SettingsFacts.

(** A text that is no users document, next to a new configuration: nothing
    is saved, the configuration neither. *)
Lemma save_settings_reports_witness :
  save_settings Reader.json_loads
    (mksettings (Some "users: none") (Some (mkconfig None None None None None)))
    Sample.s0
  = (inr (mkresult false "JSON格式错误: Expecting a users document"), Sample.s0).
Proof.
  destruct (save_settings_reports Reader.json_loads
              (mksettings (Some "users: none")
                 (Some (mkconfig None None None None None)))
              Sample.s0) as [_ Hbad].
  apply (Hbad "users: none" "Expecting a users document"); reflexivity.
Defined.

(** A users document and a configuration are both saved, and the plugin
    takes the admins of the new configuration. *)
Example save_settings_saves :
  let text :=
    "{ " +:+ Reader.quoted "10007" +:+ ": { "
    +:+ Reader.quoted "expire_date" +:+ ": " +:+ Reader.quoted "2024-02-01"
    +:+ " } }" in
  let new_config := mkconfig (Some ["90002"]) (Some false) None None None in
  let out :=
    save_settings Reader.json_loads
      (mksettings (Some text) (Some new_config)) Sample.s0 in
  out.1 = inr (mkresult true "设置保存成功")
  /\ users_file out.2 = Some [("10007", <["expire_date" := "2024-02-01"]> ∅)]
  /\ config_file out.2 = Some new_config
  /\ self_admins out.2 = ["90002"].
Proof. repeat split. Qed.

(* ===================================================================== *)
(** ** More on [add_or_update_user] *)
(* ===================================================================== *)

Section DictOrder.
Context {V : Type}.
Implicit Types (k : string) (v : V) (d : list (string * V)).

(** A new key goes at the end. *)
Lemma dict_set_absent k v d :
  dict_get k d = None -> dict_set k v d = d ++ [(k, v)].
Proof.
  induction d as [|[k' v'] d IH]; cbn; [reflexivity|].
  destruct (String.eqb_spec k' k); [discriminate|].
  intros H. now rewrite IH.
Qed.

(** Assigning the value that is there changes nothing. *)
Lemma dict_set_same k v d : dict_get k d = Some v -> dict_set k v d = d.
Proof.
  induction d as [|[k' v'] d IH]; cbn; [discriminate|].
  destruct (String.eqb_spec k' k) as [->|Hne].
  - now intros [= ->].
  - intros H. now rewrite IH.
Qed.
End DictOrder.

Lemma users_of_set (u : users) (s : state) :
  users_of (set_users_file (Some u) s) = u.
Proof. reflexivity. Qed.

(** A store that holds a record is a file that is there. *)
Lemma set_users_file_same (s : state) (user_id : string) (info : user_info) :
  dict_get user_id (users_of s) = Some info ->
  set_users_file (Some (users_of s)) s = s.
Proof.
  unfold users_of. destruct s as [[u|] ? ? ? ? ? ? ? ?]; cbn; [reflexivity|].
  discriminate.
Qed.

Lemma ticked_0 (s : state) : ticked 0 s = s.
Proof. destruct s. unfold ticked, set_ticks. cbn. now rewrite Nat.add_0_r. Qed.

Lemma ticked_S (k : nat) (s : state) : ticked (S k) s = ticked k (tick s).
Proof.
  unfold ticked, tick, set_ticks. cbn. f_equal. lia.
Qed.

Lemma ticked_1 (s : state) : ticked 1 s = tick s.
Proof. now rewrite ticked_S, ticked_0. Qed.

Lemma ticked_ticked (j k : nat) (s : state) :
  ticked k (ticked j s) = ticked (j + k) s.
Proof. unfold ticked, set_ticks. cbn. f_equal. lia. Qed.

Lemma only_ticks_refl (s : state) : only_ticks s s.
Proof. exists 0%nat. now rewrite ticked_0. Qed.

Lemma only_ticks_tick (s : state) : only_ticks s (tick s).
Proof. exists 1%nat. now rewrite ticked_1. Qed.

Lemma only_ticks_trans (s1 s2 s3 : state) :
  only_ticks s1 s2 -> only_ticks s2 s3 -> only_ticks s1 s3.
Proof.
  intros [j ->] [k ->]. exists (j + k)%nat. apply ticked_ticked.
Qed.

Lemma only_ticks_same_files (s s' : state) : only_ticks s s' -> same_files s s'.
Proof. intros [k ->]. split; reflexivity. Qed.

Lemma today_plus_only_ticks (n : Z) (s : state) :
  only_ticks s (today_plus n s).2.
Proof.
  rewrite today_plus_run.
  destruct (Datetime.timedelta_days n); [apply only_ticks_tick|].
  destruct (Datetime.add_days (reading s) z); apply only_ticks_tick.
Qed.

Lemma extend_expire_date_only_ticks (info : user_info) (n : Z) (s : state) :
  only_ticks s (extend_expire_date info n s).2.
Proof.
  rewrite extend_expire_date_run.
  destruct (info !! "expire_date") as [stored|]; [|apply only_ticks_refl].
  destruct (Datetime.strptime stored) as [E|].
  - destruct (Datetime.timedelta_days n); [apply only_ticks_tick|].
    destruct (Datetime.add_days _ _); apply only_ticks_tick.
  - pose proof (today_plus_only_ticks n s) as H.
    destruct (today_plus n s) as [[e|text] s']; exact H.
Qed.

Lemma new_user_record_only_ticks
    (username : option string) (n : Z) (s : state) :
  only_ticks s (new_user_record username n s).2.
Proof.
  unfold new_user_record. munfold.
  destruct (0 <? n).
  - pose proof (today_plus_only_ticks n (tick s)) as H.
    apply (only_ticks_trans _ _ _ (only_ticks_tick s)).
    destruct (today_plus n (tick s)) as [[e|text] s']; exact H.
  - exists 2%nat. now rewrite !ticked_S, ticked_0.
Qed.

(** What [today_plus] can raise. *)
Lemma today_plus_raises (n : Z) (s s' : state) (e : exn) :
  today_plus n s = (inl e, s') -> exists msg, e = OverflowError msg.
Proof.
  rewrite today_plus_run. unfold Datetime.timedelta_days, Datetime.add_days.
  repeat match goal with
         | |- context [if ?b then _ else _] => destruct b
         end; intros [= <- <-]; eauto.
Qed.

Lemma extend_expire_date_raises
    (info : user_info) (n : Z) (s s' : state) (e : exn) :
  extend_expire_date info n s = (inl e, s') ->
  (e = KeyError "expire_date" /\ info !! "expire_date" = None /\ s' = s)
  \/ exists msg, e = OverflowError msg.
Proof.
  rewrite extend_expire_date_run.
  destruct (info !! "expire_date") as [stored|].
  - destruct (Datetime.strptime stored) as [E|].
    + unfold Datetime.timedelta_days, Datetime.add_days.
      repeat match goal with
             | |- context [if ?b then _ else _] => destruct b
             end; intros [= <- <-]; eauto.
    + destruct (today_plus n s) as [[e'|text] s0] eqn:Hrun; [|discriminate].
      intros [= <- <-]. right. eapply today_plus_raises, Hrun.
  - intros [= <- <-]. auto.
Qed.

Section UpsertMore.
Import Datetime.

(** X1: a user that has no record gets one with the three keys: the
    user name given (the empty text when there is none), the day of the
    call as [start_date], and as [expire_date] the day [extend_days]
    later, or the day of the call when [extend_days] is not positive.
    The record goes at the end of the store, and it is what the call
    returns.  Two readings of the clock are taken, one per date. *)
Theorem first_contact_creates_record
    (s : state) (user_id : string) (username : option string)
    (extend_days : Z) :
  dict_get user_id (users_of s) = None ->
  (0 < extend_days ->
   1 <= ordinal (reading (tick s))
   /\ ordinal (reading (tick s)) + extend_days <= Calendar.MAXORDINAL) ->
  let info : user_info :=
    <["platform_username" := default "" username]>
      (<["start_date" := strftime (reading s)]>
         (<["expire_date" :=
              strftime (mkdt (ordinal (reading (tick s)) + Z.max 0 extend_days) 0)]>
            ∅)) in
  add_or_update_user user_id username extend_days s
  = (inr info,
     set_users_file (Some (users_of s ++ [(user_id, info)])) (tick (tick s))).
Proof.
  intros Hnew Hroom. cbv zeta.
  rewrite (add_or_update_user_new _ _ _ _ Hnew).
  unfold new_user_record. munfold.
  destruct (Z.ltb_spec 0 extend_days) as [Hpos|Hneg].
  - destruct (Hroom Hpos) as [Hlo Hhi].
    rewrite today_plus_run.
    rewrite timedelta_days_ok by (unfold Calendar.MAXORDINAL in Hhi; lia).
    rewrite add_days_ok by lia.
    rewrite dict_set_absent by assumption.
    replace (Z.max 0 extend_days) with extend_days by lia.
    destruct username; reflexivity.
  - rewrite dict_set_absent by assumption.
    replace (Z.max 0 extend_days) with 0 by lia.
    unfold strftime at 3. cbn [ordinal]. rewrite Z.add_0_r.
    destruct username; reflexivity.
Qed.

(** A user the sample does not know, registered with thirty days. *)
Lemma first_contact_creates_record_witness :
  add_or_update_user "10009" (Some "zoe") 30 Sample.s0
  = (inr (Sample.record "zoe" "2024-01-10" "2024-02-09"),
     set_users_file
       (Some (Sample.store
              ++ [("10009", Sample.record "zoe" "2024-01-10" "2024-02-09")]))
       (tick (tick Sample.s0))).
Proof.
  apply (first_contact_creates_record Sample.s0 "10009" (Some "zoe") 30).
  - reflexivity.
  - intros _. unfold Calendar.MAXORDINAL. cbn. lia.
Defined.

(** X2: an extension of a record whose [expire_date], a plain text,
    does not read as a date starts from the day of the call: the new
    [expire_date] is that day plus [extend_days], and it is stored.
    (For a clock in the years from 1000 on.) *)
Theorem extension_repairs_unreadable_date
    (s : state) (user_id : string) (username : option string)
    (extend_days : Z) (info : user_info) (stored : string) :
  dict_get user_id (users_of s) = Some info ->
  info !! "expire_date" = Some stored ->
  plain stored = true ->
  strptime stored = None ->
  0 < extend_days ->
  FIRST_PADDED <= ordinal (reading s) ->
  ordinal (reading s) + extend_days <= Calendar.MAXORDINAL ->
  let new_expire := mkdt (ordinal (reading s) + extend_days) 0 in
  exists info' s',
    add_or_update_user user_id username extend_days s = (inr info', s')
    /\ info' !! "expire_date" = Some (strftime new_expire)
    /\ dict_get user_id (users_of s') = Some info'
    /\ expire_of user_id s' = Some new_expire.
Proof.
  intros Hget Hstored _ Hbad Hpos Hlo Hhi. cbv zeta.
  assert (Hfirst : FIRST_PADDED = 364878) by reflexivity.
  rewrite (add_or_update_user_existing _ _ _ _ _ Hget). cbv zeta.
  destruct (Z.ltb_spec 0 extend_days); [|lia].
  rewrite extend_expire_date_run, lookup_with_username, Hstored, Hbad.
  rewrite today_plus_run.
  rewrite timedelta_days_ok by (unfold Calendar.MAXORDINAL in Hhi; lia).
  rewrite add_days_ok by lia.
  eexists _, _. split; [reflexivity|].
  assert (Hsame : strftime (mkdt (ordinal (reading s) + extend_days)
                              (usec (reading s)))
                  = strftime (mkdt (ordinal (reading s) + extend_days) 0))
    by reflexivity.
  rewrite lookup_insert_eq, Hsame. split; [reflexivity|]. split.
  - rewrite users_of_set. apply dict_get_set_eq.
  - rewrite expire_of_set, lookup_insert_eq.
    apply DatetimeFacts.strptime_strftime. cbn. lia.
Qed.

(** A record with a date in another format gets seven days from the day
    of the call. *)
Lemma extension_repairs_unreadable_date_witness :
  let s :=
    set_users_file
      (Some [("10001", Sample.record "alice" "2023-12-01" "10/01/2024")])
      Sample.s0 in
  exists info' s',
    add_or_update_user "10001" None 7 s = (inr info', s')
    /\ info' !! "expire_date" = Some "2024-01-17".
Proof.
  cbv zeta.
  destruct (extension_repairs_unreadable_date
              (set_users_file
                 (Some [("10001",
                         Sample.record "alice" "2023-12-01" "10/01/2024")])
                 Sample.s0)
              "10001" None 7
              (Sample.record "alice" "2023-12-01" "10/01/2024") "10/01/2024")
    as (info' & s' & Hrun & Hdate & _);
    [reflexivity | reflexivity | reflexivity | reflexivity | lia
    | change FIRST_PADDED with 364878; cbn; lia
    | unfold Calendar.MAXORDINAL; cbn; lia |].
  exists info', s'. split; [exact Hrun|exact Hdate].
Defined.

(** X3: on a user that has a record, a call without positive
    [extend_days], and with no user name or with the name the record
    holds already, returns the record and changes nothing: the file is
    written with what it held and the clock is not read. *)
Theorem idle_call_changes_nothing
    (s : state) (user_id : string) (username : option string)
    (extend_days : Z) (info : user_info) :
  dict_get user_id (users_of s) = Some info ->
  extend_days <= 0 ->
  (forall u, username = Some u -> info !! "platform_username" = Some u) ->
  add_or_update_user user_id username extend_days s = (inr info, s).
Proof.
  intros Hget Hneg Hname.
  rewrite (add_or_update_user_existing _ _ _ _ _ Hget). cbv zeta.
  destruct (Z.ltb_spec 0 extend_days); [lia|].
  assert (Hinfo : match username with
                  | Some u => <["platform_username" := u]> info
                  | None => info
                  end = info).
  { destruct username as [u|]; [|reflexivity].
    apply insert_id. now apply Hname. }
  rewrite Hinfo. cbv iota. rewrite (dict_set_same _ _ _ Hget).
  f_equal. exact (set_users_file_same _ _ _ Hget).
Qed.

Lemma idle_call_changes_nothing_witness :
  add_or_update_user "10001" (Some "alice") 0 Sample.s0
  = (inr (Sample.record "alice" "2023-12-01" "2024-01-10"), Sample.s0).
Proof.
  apply (idle_call_changes_nothing Sample.s0 "10001" (Some "alice") 0).
  - reflexivity.
  - lia.
  - intros u [= <-]. reflexivity.
Defined.

(** X4: when [add_or_update_user] raises, it was asked for an extension,
    the exception is the [KeyError] of a record without [expire_date] or
    an [OverflowError] of the date arithmetic, and nothing was written:
    the state differs by readings of the clock only.  In particular the
    last lookup of the function never fails, and a user name given with
    the call is not stored. *)
Theorem failed_call_writes_nothing
    (s s' : state) (user_id : string) (username : option string)
    (extend_days : Z) (e : exn) :
  add_or_update_user user_id username extend_days s = (inl e, s') ->
  0 < extend_days
  /\ only_ticks s s'
  /\ users_file s' = users_file s
  /\ ((e = KeyError "expire_date"
       /\ exists info, dict_get user_id (users_of s) = Some info
                       /\ info !! "expire_date" = None)
      \/ exists msg, e = OverflowError msg).
Proof.
  intros Hrun.
  destruct (dict_get user_id (users_of s)) as [info|] eqn:Hget.
  - rewrite (add_or_update_user_existing _ _ _ _ _ Hget) in Hrun.
    cbv zeta in Hrun.
    destruct (Z.ltb_spec 0 extend_days) as [Hpos|Hneg]; [|discriminate].
    split; [assumption|].
    pose proof (extend_expire_date_only_ticks
                  (match username with
                   | Some u => <["platform_username" := u]> info
                   | None => info
                   end) extend_days s) as Hticks.
    destruct (extend_expire_date _ extend_days s) as [[e0|info2] s0] eqn:Hext;
      [|discriminate].
    injection Hrun as <- <-. cbn in Hticks.
    split; [assumption|].
    split; [apply only_ticks_same_files, Hticks|].
    destruct (extend_expire_date_raises _ _ _ _ _ Hext)
      as [(-> & Hnone & _)|Hover]; [left|now right].
    rewrite lookup_with_username in Hnone. eauto.
  - rewrite (add_or_update_user_new _ _ _ _ Hget) in Hrun.
    pose proof (new_user_record_only_ticks username extend_days s) as Hticks.
    unfold new_user_record in Hrun, Hticks. revert Hrun Hticks. munfold.
    destruct (Z.ltb_spec 0 extend_days) as [Hpos|Hneg]; [|discriminate].
    destruct (today_plus extend_days (tick s)) as [[e0|text] s0] eqn:Hplus;
      [|discriminate].
    intros [= <- <-] Hticks. cbn in Hticks.
    split; [assumption|]. split; [assumption|].
    split; [apply only_ticks_same_files, Hticks|].
    right. eapply today_plus_raises, Hplus.
Qed.

(** The extension of the first sample user by four million days. *)
Lemma failed_call_writes_nothing_witness :
  users_file (add_or_update_user "10001" (Some "al") 4000000 Sample.s0).2
  = Some Sample.store.
Proof.
  destruct (failed_call_writes_nothing Sample.s0
              (add_or_update_user "10001" (Some "al") 4000000 Sample.s0).2
              "10001" (Some "al") 4000000
              (OverflowError "date value out of range") eq_refl)
    as (_ & _ & Hfile & _).
  exact Hfile.
Defined.

(** X5: what [add_or_update_user] returns is the record that
    [get_user_info] then finds for that user; for every other user
    [get_user_info] finds what it found before the call. *)
Theorem lookup_after_call
    (s s' : state) (user_id : string) (username : option string)
    (extend_days : Z) (info : user_info) :
  add_or_update_user user_id username extend_days s = (inr info, s') ->
  get_user_info user_id s' = (inr (Some info), s')
  /\ forall other, other <> user_id ->
       (get_user_info other s').1 = (get_user_info other s).1.
Proof.
  intros Hrun.
  assert (Hfile : exists s0,
             s' = set_users_file (Some (dict_set user_id info (users_of s))) s0).
  { destruct (dict_get user_id (users_of s)) as [info0|] eqn:Hget.
    - rewrite (add_or_update_user_existing _ _ _ _ _ Hget) in Hrun.
      cbv zeta in Hrun.
      destruct (if 0 <? extend_days then _ else _) as [[e|info2] s0];
        [discriminate|].
      injection Hrun as <- <-. eauto.
    - rewrite (add_or_update_user_new _ _ _ _ Hget) in Hrun.
      destruct (new_user_record username extend_days s) as [[e|info2] s0];
        [discriminate|].
      injection Hrun as <- <-. eauto. }
  destruct Hfile as [s0 ->]. unfold get_user_info. munfold.
  rewrite users_of_set. split.
  - now rewrite dict_get_set_eq.
  - intros other Hne. cbn. now rewrite dict_get_set_ne by congruence.
Qed.

Lemma lookup_after_call_witness :
  (get_user_info "10001" (add_or_update_user "10001" None 5 Sample.s0).2).1
  = inr (Some (Sample.record "alice" "2023-12-01" "2024-01-15")).
Proof.
  destruct (lookup_after_call Sample.s0
              (add_or_update_user "10001" None 5 Sample.s0).2
              "10001" None 5
              (Sample.record "alice" "2023-12-01" "2024-01-15") eq_refl)
    as [-> _].
  reflexivity.
Defined.

(** X6: an extension that returns leaves an [expire_date] that reads as
    a date, whatever the record held before; the date is at least
    [extend_days] after the day the clock showed when the call began. *)
Theorem extension_leaves_readable_date
    (s s' : state) (user_id : string) (username : option string)
    (extend_days : Z) (info : user_info) :
  0 < extend_days ->
  (forall j k : nat, (j <= k)%nat -> ordinal (clock s j) <= ordinal (clock s k)) ->
  add_or_update_user user_id username extend_days s = (inr info, s') ->
  exists new_expire,
    info !! "expire_date" = Some (strftime new_expire)
    /\ expire_of user_id s' = Some (mkdt (ordinal new_expire) 0)
    /\ ordinal (reading s) + extend_days <= ordinal new_expire.
Proof.
  intros Hpos Hmono Hrun.
  assert (Hnext : ordinal (reading s) <= ordinal (reading (tick s)))
    by (apply Hmono; cbn; lia).
  assert (Hout : exists t s0,
             info !! "expire_date" = Some (strftime t)
             /\ 1 <= ordinal t <= Calendar.MAXORDINAL
             /\ ordinal (reading s) + extend_days <= ordinal t
             /\ s' = set_users_file
                       (Some (dict_set user_id info (users_of s))) s0).
  { destruct (dict_get user_id (users_of s)) as [info0|] eqn:Hget.
    - rewrite (add_or_update_user_existing _ _ _ _ _ Hget) in Hrun.
      cbv zeta in Hrun.
      destruct (Z.ltb_spec 0 extend_days); [|lia].
      rewrite extend_expire_date_run, lookup_with_username in Hrun.
      destruct (info0 !! "expire_date") as [stored|]; [|discriminate].
      destruct (strptime stored) as [E|].
      + destruct (timedelta_days extend_days) as [e|d] eqn:Hd; [discriminate|].
        apply timedelta_days_inr in Hd as ->.
        destruct (add_days (max E (reading s)) extend_days) as [e|t] eqn:Ha;
          [discriminate|].
        injection Hrun as <- <-.
        apply add_days_inr in Ha as [Hord Hrange].
        rewrite DatetimeFacts.max_ordinal in Hord.
        exists t. eexists. rewrite lookup_insert_eq.
        split; [reflexivity|]. split; [lia|]. split; [lia|reflexivity].
      + rewrite today_plus_run in Hrun.
        destruct (timedelta_days extend_days) as [e|d] eqn:Hd; [discriminate|].
        apply timedelta_days_inr in Hd as ->.
        destruct (add_days (reading s) extend_days) as [e|t] eqn:Ha;
          [discriminate|].
        injection Hrun as <- <-.
        apply add_days_inr in Ha as [Hord Hrange].
        exists t. eexists. rewrite lookup_insert_eq.
        split; [reflexivity|]. split; [lia|]. split; [lia|reflexivity].
    - rewrite (add_or_update_user_new _ _ _ _ Hget) in Hrun.
      unfold new_user_record in Hrun. revert Hrun. munfold.
      destruct (Z.ltb_spec 0 extend_days); [|lia].
      rewrite today_plus_run.
      destruct (timedelta_days extend_days) as [e|d] eqn:Hd; [discriminate|].
      apply timedelta_days_inr in Hd as ->.
      destruct (add_days (reading (tick s)) extend_days) as [e|t] eqn:Ha;
        [discriminate|].
      intros [= <- <-].
      apply add_days_inr in Ha as [Hord Hrange].
      exists t. eexists.
      rewrite lookup_insert_ne, lookup_insert_ne, lookup_insert_eq by discriminate.
      split; [reflexivity|]. split; [lia|]. split; [lia|reflexivity]. }
  destruct Hout as (t & s0 & Hdate & Hrange & Hlate & ->).
  exists t. split; [assumption|]. split; [|assumption].
  rewrite expire_of_set, Hdate.
  now apply DatetimeFacts.strptime_strftime.
Qed.

Lemma extension_leaves_readable_date_witness :
  exists new_expire,
    expire_of "10002" (add_or_update_user "10002" None 3 Sample.s0).2
    = Some (mkdt (ordinal new_expire) 0)
    /\ 738895 + 3 <= ordinal new_expire.
Proof.
  destruct (extension_leaves_readable_date Sample.s0
              (add_or_update_user "10002" None 3 Sample.s0).2
              "10002" None 3
              (Sample.record "bob" "2023-11-01" "2024-01-13"))
    as (new_expire & _ & Hexp & Hlate);
    [lia | intros j k _; cbn; lia | reflexivity |].
  exists new_expire. split; [exact Hexp|exact Hlate].
Defined.

End UpsertMore.

(* ===================================================================== *)
(** ** More on sequences of calls *)
(* ===================================================================== *)

Section SequencesMore.
Import Datetime.

Lemma dict_get_None {V : Type} (k : string) (d : list (string * V)) :
  dict_get k d = None -> k ∉ map fst d.
Proof.
  induction d as [|[k' v'] d IH]; cbn; [intros _; apply not_elem_of_nil|].
  destruct (String.eqb_spec k' k) as [->|Hne]; [discriminate|].
  intros H. apply not_elem_of_cons. split; [congruence|auto].
Qed.

Lemma failed_call_keeps_file
    (user_id : string) (username : option string) (n : Z)
    (s s' : state) (e : exn) :
  add_or_update_user user_id username n s = (inl e, s') ->
  users_file s' = users_file s.
Proof.
  destruct (dict_get user_id (users_of s)) as [info|] eqn:Hget.
  - rewrite (add_or_update_user_existing _ _ _ _ _ Hget). cbv zeta.
    destruct (0 <? n); [|discriminate].
    pose proof (extend_expire_date_users_file
                  (match username with
                   | Some u => <["platform_username" := u]> info
                   | None => info
                   end) n s) as Hfile.
    destruct (extend_expire_date _ n s) as [[e0|info2] s0]; [|discriminate].
    now intros [= <- <-].
  - rewrite (add_or_update_user_new _ _ _ _ Hget).
    pose proof (new_user_record_users_file username n s) as Hfile.
    destruct (new_user_record username n s) as [[e0|info2] s0]; [|discriminate].
    now intros [= <- <-].
Qed.

(** The user ids of the store after one call: those of before, in
    their order, and the new user at the end. *)
Lemma after_call_keys (s : state) (c : call) :
  map fst (users_of (after_call s c)) = map fst (users_of s)
  \/ ((call_user_id c ∉ map fst (users_of s))
      /\ map fst (users_of (after_call s c))
         = map fst (users_of s) ++ [call_user_id c]).
Proof.
  destruct c as [user_id username n]. unfold after_call. cbn [call_user_id
    call_username call_extend_days].
  destruct (add_or_update_user user_id username n s) as [[e|info] s'] eqn:Hrun.
  - left. cbn [snd].
    pose proof (failed_call_keeps_file _ _ _ _ _ _ Hrun) as Hfile.
    unfold users_of. now rewrite Hfile.
  - cbn [snd].
    destruct (dict_get user_id (users_of s)) as [info0|] eqn:Hget.
    + left. rewrite (add_or_update_user_existing _ _ _ _ _ Hget) in Hrun.
      cbv zeta in Hrun.
      destruct (if 0 <? n then _ else _) as [[e|info2] s0]; [discriminate|].
      injection Hrun as <- <-. rewrite users_of_set.
      exact (dict_set_keys _ _ _ _ Hget).
    + right. split; [now apply dict_get_None|].
      rewrite (add_or_update_user_new _ _ _ _ Hget) in Hrun.
      destruct (new_user_record username n s) as [[e|info2] s0];
        [discriminate|].
      injection Hrun as <- <-. rewrite users_of_set.
      rewrite dict_set_absent by assumption. now rewrite map_app.
Qed.

(** X28: calls of [add_or_update_user] never lose a user and never
    change the order of the store: after any sequence of calls the user
    ids of before still come first, in their order, the new users
    follow them, and no id appears twice if none did before. *)
Theorem users_are_never_lost (calls : list call) (s : state) :
  map fst (users_of s) `prefix_of` map fst (users_of (after_calls calls s))
  /\ (NoDup (map fst (users_of s)) ->
      NoDup (map fst (users_of (after_calls calls s)))).
Proof.
  revert s. induction calls as [|c calls IH]; intros s;
    cbn [after_calls fold_left].
  - split; [reflexivity|trivial].
  - fold (after_calls calls (after_call s c)).
    destruct (IH (after_call s c)) as [Hprefix Hnodup].
    destruct (after_call_keys s c) as [Hkeys|[Hnew Hkeys]];
      rewrite Hkeys in Hprefix, Hnodup.
    + split; assumption.
    + split.
      * etransitivity; [|exact Hprefix]. now apply prefix_app_r.
      * intros Hs. apply Hnodup. apply NoDup_app. split; [assumption|].
        split; [|apply NoDup_singleton].
        intros k Hk Hin. apply list_elem_of_singleton in Hin as ->.
        contradiction.
Qed.

(** An extension of a record whose date reads, within the calendar. *)
Lemma extension_expire_of
    (s : state) (user_id : string) (username : option string) (n : Z)
    (current_expire : datetime) :
  expire_of user_id s = Some current_expire ->
  0 < n ->
  Z.max (ordinal current_expire) (ordinal (reading s)) + n
    <= Calendar.MAXORDINAL ->
  expire_of user_id (add_or_update_user user_id username n s).2
  = Some (mkdt (Z.max (ordinal current_expire) (ordinal (reading s)) + n) 0)
  /\ clock (add_or_update_user user_id username n s).2 = clock s.
Proof.
  intros Hexp Hpos Hmax.
  destruct (expire_of_inv _ _ _ Hexp) as (info & stored & Hget & Hstored & Hparse).
  destruct (DatetimeFacts.strptime_range _ _ Hparse) as [Hrange _].
  rewrite (add_or_update_user_existing _ _ _ _ _ Hget). cbv zeta.
  destruct (Z.ltb_spec 0 n); [|lia].
  rewrite extend_expire_date_run, lookup_with_username, Hstored, Hparse.
  rewrite timedelta_days_ok by (unfold Calendar.MAXORDINAL in *; lia).
  rewrite add_days_ok by (rewrite DatetimeFacts.max_ordinal; lia).
  rewrite DatetimeFacts.max_ordinal. cbn [snd]. split; [|reflexivity].
  rewrite expire_of_set, lookup_insert_eq.
  apply DatetimeFacts.strptime_strftime. cbn. lia.
Qed.

(** X29: extensions add up.  On one day [today], two extensions of a
    record whose [expire_date] reads as a date, by [a] and then by [b]
    days, lead to the same [expire_date] as one extension by [a + b]
    days: the later of the date of before and [today], plus [a + b]. *)
Theorem extensions_add_up
    (s : state) (user_id : string) (name1 name2 name : option string)
    (a b today : Z) (current_expire : datetime) :
  expire_of user_id s = Some current_expire ->
  clock_on today s ->
  0 < a -> 0 < b ->
  Z.max (ordinal current_expire) today + a + b <= Calendar.MAXORDINAL ->
  let new_expire := mkdt (Z.max (ordinal current_expire) today + a + b) 0 in
  expire_of user_id
    (after_calls [mkcall user_id name1 a; mkcall user_id name2 b] s)
  = Some new_expire
  /\ expire_of user_id (after_calls [mkcall user_id name (a + b)] s)
     = Some new_expire.
Proof.
  intros Hexp Hclock Ha Hb Hmax. cbv zeta.
  unfold after_calls, after_call. cbn [fold_left call_user_id call_username
    call_extend_days].
  assert (Hday : forall s0, clock s0 = clock s -> ordinal (reading s0) = today).
  { intros s0 Hs0. unfold reading. rewrite Hs0. apply Hclock. }
  split.
  - destruct (extension_expire_of s user_id name1 a current_expire Hexp Ha)
      as [Hexp1 Hclock1]; [rewrite (Hday s eq_refl); lia|].
    rewrite (Hday s eq_refl) in Hexp1.
    destruct (extension_expire_of _ user_id name2 b _ Hexp1 Hb)
      as [Hexp2 _]; [rewrite (Hday _ Hclock1); cbn; lia|].
    rewrite Hexp2, (Hday _ Hclock1). cbn [ordinal]. do 2 f_equal. lia.
  - destruct (extension_expire_of s user_id name (a + b) current_expire Hexp)
      as [Hexp1 _]; [lia|rewrite (Hday s eq_refl); lia|].
    rewrite Hexp1, (Hday s eq_refl). do 2 f_equal. lia.
Qed.

(** The first sample user gets five days and then two, or seven at
    once. *)
Lemma extensions_add_up_witness :
  expire_of "10001"
    (after_calls [mkcall "10001" None 5; mkcall "10001" None 2] Sample.s0)
  = Some (mkdt (738895 + 7) 0)
  /\ expire_of "10001" (after_calls [mkcall "10001" None (5 + 2)] Sample.s0)
     = Some (mkdt (738895 + 7) 0).
Proof.
  apply (extensions_add_up Sample.s0 "10001" None None None 5 2 738895
           (mkdt 738895 0)).
  - reflexivity.
  - intros k. unfold USEC_PER_DAY. cbn. lia.
  - lia.
  - lia.
  - vm_compute. discriminate.
Defined.

End SequencesMore.

(* ===================================================================== *)
(** ** What a message can do *)
(* ===================================================================== *)

Section Dispatch.

Lemma command_of_words (message_text command : string) :
  command_of message_text = Some command ->
  exists first rest,
    words_of message_text = first :: rest /\ Text.lower first = command.
Proof. apply command_of_inv. Qed.

Lemma process_message_yhm (message_text sender_id : string) :
  command_of message_text = Some "/yhm" ->
  process_message message_text sender_id
  = Some <$> handle_yhm_command (words_of message_text) message_text sender_id.
Proof.
  intros H. destruct (command_of_words _ _ H) as (first & rest & Hsplit & Hlower).
  unfold process_message. fold (words_of message_text).
  now rewrite Hsplit, Hlower.
Qed.

Lemma process_message_extend (message_text sender_id : string) :
  command_of message_text = Some "/续时" ->
  process_message message_text sender_id
  = Some <$> handle_extend_time_command (words_of message_text)
               message_text sender_id.
Proof.
  intros H. destruct (command_of_words _ _ H) as (first & rest & Hsplit & Hlower).
  unfold process_message. fold (words_of message_text).
  now rewrite Hsplit, Hlower.
Qed.

Lemma process_message_check (message_text sender_id : string) :
  command_of message_text = Some "/查看到期时间" ->
  process_message message_text sender_id
  = Some <$> handle_check_expire_command sender_id.
Proof.
  intros H. destruct (command_of_words _ _ H) as (first & rest & Hsplit & Hlower).
  unfold process_message. fold (words_of message_text).
  now rewrite Hsplit, Hlower.
Qed.

Lemma process_message_list (message_text sender_id : string) (s : state) :
  command_of message_text = Some "/用户列表" ->
  process_message message_text sender_id s
  = if bool_decide (sender_id ∈ self_admins s)
    then (Some <$> get_user_list) s else (inr None, s).
Proof.
  intros H. destruct (command_of_words _ _ H) as (first & rest & Hsplit & Hlower).
  unfold process_message. fold (words_of message_text).
  rewrite Hsplit, Hlower.
  change (("/用户列表" =? "/yhm")%string) with false.
  change (("/用户列表" =? "/续时")%string) with false.
  change (("/用户列表" =? "/查看到期时间")%string) with false.
  change (("/用户列表" =? "/用户列表")%string) with true.
  change (("/用户列表" =? "/帮助")%string) with false. cbv iota.
  munfold. rewrite is_admin_run.
  now destruct (bool_decide (sender_id ∈ self_admins s)).
Qed.

Lemma process_message_help (message_text sender_id : string) :
  command_of message_text = Some "/帮助" ->
  process_message message_text sender_id = Some <$> get_help_text sender_id.
Proof.
  intros H. destruct (command_of_words _ _ H) as (first & rest & Hsplit & Hlower).
  unfold process_message. fold (words_of message_text).
  now rewrite Hsplit, Hlower.
Qed.

(** A message whose first word is none of the five commands. *)
Lemma process_message_other (message_text sender_id : string) (s : state) :
  (forall command,
     command_of message_text = Some command -> command ∉ COMMANDS) ->
  process_message message_text sender_id s = (inr None, s).
Proof.
  intros Hother. unfold process_message, command_of in *.
  destruct (Text.split (Text.strip message_text)) as [|first rest];
    [reflexivity|].
  specialize (Hother _ eq_refl). unfold COMMANDS in Hother.
  rewrite !not_elem_of_cons in Hother.
  destruct Hother as (H1 & H2 & H3 & H4 & H5 & _).
  apply String.eqb_neq in H1, H2, H3, H4, H5.
  now rewrite H1, H2, H3, H4, H5.
Qed.

(** The first word of a message is a command or it is not. *)
Lemma command_cases (message_text : string) :
  command_of message_text = Some "/yhm"
  \/ command_of message_text = Some "/续时"
  \/ command_of message_text = Some "/查看到期时间"
  \/ command_of message_text = Some "/用户列表"
  \/ command_of message_text = Some "/帮助"
  \/ (forall command,
        command_of message_text = Some command -> command ∉ COMMANDS).
Proof.
  destruct (command_of message_text) as [command|];
    [|do 5 right; intros ? [=]].
  destruct (decide (command ∈ COMMANDS)) as [Hin|Hout].
  - unfold COMMANDS in Hin. rewrite !elem_of_cons in Hin.
    destruct Hin as [->|[->|[->|[->|[->|Hnil]]]]]; auto 6.
    now apply elem_of_nil in Hnil.
  - do 5 right. now intros ? [= <-].
Qed.

End Dispatch.

(* ===================================================================== *)
(** ** The handlers raise nothing *)
(* ===================================================================== *)

Section Returns.

Lemma returns_fmap {A B : Type} (f : A -> B) (m : M A) :
  returns m -> returns (f <$> m).
Proof.
  intros Hm s. destruct (Hm s) as (x & s' & Hrun).
  exists (f x), s'. munfold. now rewrite Hrun.
Qed.

Lemma handle_yhm_command_returns
    (message_parts : list string) (message_text sender_id : string) :
  returns (handle_yhm_command message_parts message_text sender_id).
Proof.
  intros s. unfold handle_yhm_command. munfold. rewrite is_admin_run.
  destruct (bool_decide (sender_id ∈ self_admins s)); cbn [negb]; [|eauto].
  destruct message_parts as [|? [|username ?]]; eauto.
  destruct (extract_at_user message_text) as [target|]; [|eauto].
  destruct (add_or_update_user target (Some username) 0 s) as [[e|info] s'];
    cbn; eauto.
Qed.

Lemma handle_extend_time_command_returns
    (message_parts : list string) (message_text sender_id : string) :
  returns (handle_extend_time_command message_parts message_text sender_id).
Proof.
  intros s. unfold handle_extend_time_command. munfold. rewrite is_admin_run.
  destruct (bool_decide (sender_id ∈ self_admins s)); cbn [negb]; [|eauto].
  destruct message_parts as [|? [|arg ?]]; eauto.
  destruct (Text.int arg) as [days|]; [|eauto].
  destruct (days <=? 0); [eauto|].
  destruct (extract_at_user message_text) as [target|]; [|eauto].
  destruct (add_or_update_user target None days s) as [[e|info] s'];
    cbn; [eauto|].
  destruct (info !! "expire_date"); cbn; eauto.
Qed.

Lemma status_text_of_run (expire_date : string) (s : state) :
  status_text_of expire_date s
  = match Datetime.strptime expire_date with
    | Some expire =>
        (inr (status_text (Datetime.sub_days expire (reading s))), tick s)
    | None => (inr "日期格式错误", s)
    end.
Proof.
  unfold status_text_of. munfold.
  destruct (Datetime.strptime expire_date); reflexivity.
Qed.

Lemma handle_check_expire_command_run (sender_id : string) (s : state) :
  handle_check_expire_command sender_id s
  = match dict_get sender_id (users_of s) with
    | None => (inr NO_RECORD, s)
    | Some info =>
        if bool_decide (info = ∅) then (inr NO_RECORD, s)
        else
          match Datetime.strptime (get_default info "expire_date" "未知") with
          | Some expire =>
              (inr (service_status info
                      (status_text (Datetime.sub_days expire (reading s)))),
               tick s)
          | None => (inr (service_status info "日期格式错误"), s)
          end
    end.
Proof.
  unfold handle_check_expire_command, get_user_info. munfold.
  destruct (dict_get sender_id (users_of s)) as [info|]; [|reflexivity].
  destruct (bool_decide (info = ∅)); [reflexivity|].
  rewrite status_text_of_run.
  destruct (Datetime.strptime _); reflexivity.
Qed.

Lemma user_list_entry_run (entry : string * user_info) (s : state) :
  user_list_entry entry s
  = let expire_date := get_default entry.2 "expire_date" "未知" in
    let line status :=
      LF +:+ "👤 " +:+ entry.1 +:+ " ("
      +:+ get_default entry.2 "platform_username" "未设置" +:+ ")" +:+ LF
      +:+ "   到期: " +:+ expire_date +:+ " (" +:+ status +:+ ")" +:+ LF in
    match Datetime.strptime expire_date with
    | Some expire =>
        (inr (line (list_status (Datetime.sub_days expire (reading s)))),
         tick s)
    | None => (inr (line "日期错误"), s)
    end.
Proof.
  destruct entry as [user_id info]. unfold user_list_entry. munfold. cbn [fst snd].
  destruct (Datetime.strptime _); reflexivity.
Qed.

Lemma user_list_loop_returns
    (entries : list (string * user_info)) (response : string) (s : state) :
  exists text s',
    user_list_loop response entries s = (inr text, s') /\ only_ticks s s'.
Proof.
  revert response s.
  induction entries as [|entry entries IH]; intros response s;
    cbn [user_list_loop].
  - exists response, s. split; [reflexivity|apply only_ticks_refl].
  - assert (Hentry : exists line s1,
              user_list_entry entry s = (inr line, s1) /\ only_ticks s s1).
    { rewrite user_list_entry_run. cbv zeta.
      destruct (Datetime.strptime _); eexists _, _;
        (split; [reflexivity|]);
        [apply only_ticks_tick|apply only_ticks_refl]. }
    destruct Hentry as (line & s1 & Hline & Hticks1).
    munfold. rewrite Hline.
    destruct (IH (response +:+ line) s1) as (text & s' & -> & Hticks).
    exists text, s'. split; [reflexivity|].
    exact (only_ticks_trans _ _ _ Hticks1 Hticks).
Qed.

Lemma get_user_list_returns (s : state) :
  exists text s', get_user_list s = (inr text, s') /\ only_ticks s s'.
Proof.
  unfold get_user_list. munfold.
  destruct (users_of s) as [|entry entries].
  - eexists _, s. split; [reflexivity|apply only_ticks_refl].
  - apply user_list_loop_returns.
Qed.

(** What [add_or_update_user] leaves: a new [users.json] at most, and
    readings of the clock. *)
Lemma add_or_update_user_only_store
    (user_id : string) (username : option string) (n : Z) (s : state) :
  only_store s (add_or_update_user user_id username n s).2.
Proof.
  assert (Hstore : forall u s0, only_ticks s s0 ->
                     only_store s (set_users_file u s0)).
  { intros u s0 [k ->]. now exists u, k. }
  assert (Hkeep : forall s0, only_ticks s s0 -> only_store s s0).
  { intros s0 [k ->]. exists (users_file s), k. now destruct s. }
  destruct (dict_get user_id (users_of s)) as [info|] eqn:Hget.
  - rewrite (add_or_update_user_existing _ _ _ _ _ Hget). cbv zeta.
    destruct (0 <? n).
    + pose proof (extend_expire_date_only_ticks
                    (match username with
                     | Some u => <["platform_username" := u]> info
                     | None => info
                     end) n s) as Hticks.
      destruct (extend_expire_date _ n s) as [[e|info2] s0]; cbn in *; auto.
    + cbn. apply Hstore, only_ticks_refl.
  - rewrite (add_or_update_user_new _ _ _ _ Hget).
    pose proof (new_user_record_only_ticks username n s) as Hticks.
    destruct (new_user_record username n s) as [[e|info2] s0]; cbn in *; auto.
Qed.

Lemma only_store_refl (s : state) : only_store s s.
Proof. exists (users_file s), 0%nat. rewrite ticked_0. now destruct s. Qed.

Lemma only_ticks_only_store (s s' : state) : only_ticks s s' -> only_store s s'.
Proof. intros [k ->]. exists (users_file s), k. now destruct s. Qed.

Lemma handle_yhm_command_only_store
    (message_parts : list string) (message_text sender_id : string) (s : state) :
  only_store s (handle_yhm_command message_parts message_text sender_id s).2.
Proof.
  unfold handle_yhm_command. munfold. rewrite is_admin_run.
  destruct (bool_decide (sender_id ∈ self_admins s)); cbn [negb];
    [|apply only_store_refl].
  destruct message_parts as [|? [|username ?]]; try apply only_store_refl.
  destruct (extract_at_user message_text) as [target|];
    [|apply only_store_refl].
  pose proof (add_or_update_user_only_store target (Some username) 0 s) as H.
  destruct (add_or_update_user target (Some username) 0 s) as [[e|info] s'];
    exact H.
Qed.

Lemma handle_extend_time_command_only_store
    (message_parts : list string) (message_text sender_id : string) (s : state) :
  only_store s
    (handle_extend_time_command message_parts message_text sender_id s).2.
Proof.
  unfold handle_extend_time_command. munfold. rewrite is_admin_run.
  destruct (bool_decide (sender_id ∈ self_admins s)); cbn [negb];
    [|apply only_store_refl].
  destruct message_parts as [|? [|arg ?]]; try apply only_store_refl.
  destruct (Text.int arg) as [days|]; [|apply only_store_refl].
  destruct (days <=? 0); [apply only_store_refl|].
  destruct (extract_at_user message_text) as [target|];
    [|apply only_store_refl].
  pose proof (add_or_update_user_only_store target None days s) as H.
  destruct (add_or_update_user target None days s) as [[e|info] s'];
    cbn in *; [exact H|].
  destruct (info !! "expire_date"); exact H.
Qed.

Lemma handle_check_expire_command_only_ticks (sender_id : string) (s : state) :
  only_ticks s (handle_check_expire_command sender_id s).2.
Proof.
  rewrite handle_check_expire_command_run.
  destruct (dict_get sender_id (users_of s)) as [info|];
    [|apply only_ticks_refl].
  destruct (bool_decide (info = ∅)); [apply only_ticks_refl|].
  destruct (Datetime.strptime _);
    [apply only_ticks_tick|apply only_ticks_refl].
Qed.

Lemma fmap_run {A B : Type} (f : A -> B) (m : M A) (s : state) :
  (f <$> m) s
  = match m s with
    | (inr x, s') => (inr (f x), s')
    | (inl e, s') => (inl e, s')
    end.
Proof. reflexivity. Qed.

Lemma fmap_state {A B : Type} (f : A -> B) (m : M A) (s : state) :
  ((f <$> m) s).2 = (m s).2.
Proof. rewrite fmap_run. now destruct (m s) as [[e|x] s']. Qed.

End Returns.

Section Messages.

(** X7: when [users.json] is there and holds a document of the schema,
    [process_message] raises nothing, whatever the message and the
    sender: the [KeyError], [ValueError] and [OverflowError] that the
    handlers can meet (a record without [expire_date], a date or a
    number that does not read, a date out of the calendar) are caught
    and turned into an answer.  (A file that [load_users] cannot load
    is another matter: of the errors of reading it, [load_users] catches
    [FileNotFoundError] and [JSONDecodeError] only.) *)
Theorem loaded_store_never_raises
    (message_text sender_id : string) (s : state) (store : users) :
  users_file s = Some store ->
  exists answer s',
    process_message message_text sender_id s = (inr answer, s').
Proof.
  intros _.
  destruct (command_cases message_text) as [H|[H|[H|[H|[H|H]]]]].
  - rewrite (process_message_yhm _ _ H). apply returns_fmap.
    apply handle_yhm_command_returns.
  - rewrite (process_message_extend _ _ H). apply returns_fmap.
    apply handle_extend_time_command_returns.
  - rewrite (process_message_check _ _ H), fmap_run.
    rewrite handle_check_expire_command_run.
    destruct (dict_get sender_id (users_of s)) as [info|]; [|eauto].
    destruct (bool_decide (info = ∅)); [eauto|].
    destruct (Datetime.strptime _); eauto.
  - rewrite (process_message_list _ _ _ H).
    destruct (bool_decide (sender_id ∈ self_admins s)); [|eauto].
    rewrite fmap_run.
    destruct (get_user_list_returns s) as (text & s' & -> & _). eauto.
  - rewrite (process_message_help _ _ H). apply returns_fmap.
    intros s0. unfold get_help_text. munfold. rewrite is_admin_run. eauto.
  - rewrite (process_message_other _ _ _ H). eauto.
Qed.

(** An extension beyond the calendar: the [OverflowError] becomes an
    answer. *)
Lemma loaded_store_never_raises_witness :
  exists answer s',
    process_message "/续时 4000000 @10002" "90001" Sample.s0
    = (inr answer, s').
Proof.
  apply (loaded_store_never_raises "/续时 4000000 @10002" "90001"
           Sample.s0 Sample.store eq_refl).
Defined.

(** X8: a message, a plain text, changes nothing but [users.json] and
    the number of readings of the clock: it sends nothing by itself,
    and leaves [config.json], the admins and the reminder task alone.
    And [users.json] changes only when the sender is an admin and the
    command is [/yhm] or [/续时]. *)
Theorem only_admin_commands_write (message_text sender_id : string) (s : state) :
  plain message_text = true ->
  only_store s (process_message message_text sender_id s).2
  /\ (users_file (process_message message_text sender_id s).2 <> users_file s ->
      sender_id ∈ self_admins s
      /\ (command_of message_text = Some "/yhm"
          \/ command_of message_text = Some "/续时")).
Proof.
  intros _.
  assert (Hread : forall s' : state,
            only_ticks s s' ->
            only_store s s'
            /\ (users_file s' <> users_file s ->
                sender_id ∈ self_admins s
                /\ (command_of message_text = Some "/yhm"
                    \/ command_of message_text = Some "/续时"))).
  { intros s' Hticks. split; [now apply only_ticks_only_store|].
    intros Hchanged. destruct Hticks as [k ->]. now contradict Hchanged. }
  destruct (command_cases message_text) as [H|[H|[H|[H|[H|H]]]]].
  - rewrite (process_message_yhm _ _ H), fmap_state.
    destruct (decide (sender_id ∈ self_admins s)) as [Hadm|Hna].
    + split; [apply handle_yhm_command_only_store|auto].
    + rewrite handle_yhm_denied by assumption. apply Hread, only_ticks_refl.
  - rewrite (process_message_extend _ _ H), fmap_state.
    destruct (decide (sender_id ∈ self_admins s)) as [Hadm|Hna].
    + split; [apply handle_extend_time_command_only_store|auto].
    + rewrite handle_extend_denied by assumption. apply Hread, only_ticks_refl.
  - rewrite (process_message_check _ _ H), fmap_state.
    apply Hread, handle_check_expire_command_only_ticks.
  - rewrite (process_message_list _ _ _ H).
    destruct (bool_decide (sender_id ∈ self_admins s));
      [|apply Hread, only_ticks_refl].
    rewrite fmap_state.
    destruct (get_user_list_returns s) as (text & s' & -> & Hticks).
    now apply Hread.
  - rewrite (process_message_help _ _ H), fmap_state.
    apply Hread, only_ticks_refl.
  - rewrite (process_message_other _ _ _ H). apply Hread, only_ticks_refl.
Qed.

(** The first sample user, who is no admin, asks for the list and for
    an extension. *)
Lemma only_admin_commands_write_witness :
  users_file (process_message "/用户列表" "10001" Sample.s0).2
  = users_file Sample.s0
  /\ only_store Sample.s0 (process_message "/续时 30 @10002" "10001" Sample.s0).2.
Proof.
  split.
  - destruct (only_admin_commands_write "/用户列表" "10001" Sample.s0 eq_refl)
      as [_ Hwrite].
    destruct (decide (users_file (process_message "/用户列表" "10001" Sample.s0).2
                      = users_file Sample.s0)) as [Hsame|Hchanged];
      [exact Hsame|].
    destruct (Hwrite Hchanged) as [_ [Hcmd|Hcmd]]; discriminate Hcmd.
  - apply (only_admin_commands_write "/续时 30 @10002" "10001" Sample.s0 eq_refl).
Defined.

(** X9: the plugin stays silent, for a message that is a plain text, in
    two cases only: the message is empty or blank or its first word, in
    lower case, is none of the five commands; or the command is
    [/用户列表] and the sender is no admin.  Then there is no answer and
    no effect at all; in every other case there is an answer. *)
Theorem silent_messages (message_text sender_id : string) (s : state) :
  plain message_text = true ->
  let silent :=
    (forall command,
       command_of message_text = Some command -> command ∉ COMMANDS)
    \/ (command_of message_text = Some "/用户列表"
        /\ sender_id ∉ self_admins s) in
  (silent -> process_message message_text sender_id s = (inr None, s))
  /\ (~ silent ->
      exists text,
        (process_message message_text sender_id s).1 = inr (Some text)).
Proof.
  intros _. cbv zeta.
  assert (Hknown : forall command,
            command_of message_text = Some command -> command ∈ COMMANDS ->
            ~ (forall command',
                 command_of message_text = Some command' ->
                 command' ∉ COMMANDS)).
  { intros command Hc Hin Hother. exact (Hother _ Hc Hin). }
  assert (Hsome : forall m : M string,
            returns m ->
            exists text, ((Some <$> m) s).1 = inr (Some text)).
  { intros m Hm. destruct (Hm s) as (text & s' & Hrun).
    exists text. now rewrite fmap_run, Hrun. }
  split.
  - intros [Hother|[Hlist Hna]]; [now apply process_message_other|].
    rewrite (process_message_list _ _ _ Hlist).
    now rewrite bool_decide_eq_false_2.
  - intros Hloud.
    destruct (command_cases message_text) as [H|[H|[H|[H|[H|H]]]]].
    + rewrite (process_message_yhm _ _ H).
      apply Hsome, handle_yhm_command_returns.
    + rewrite (process_message_extend _ _ H).
      apply Hsome, handle_extend_time_command_returns.
    + rewrite (process_message_check _ _ H). apply Hsome.
      intros s0. rewrite handle_check_expire_command_run.
      destruct (dict_get sender_id (users_of s0)) as [info|]; [|eauto].
      destruct (bool_decide (info = ∅)); [eauto|].
      destruct (Datetime.strptime _); eauto.
    + rewrite (process_message_list _ _ _ H).
      destruct (decide (sender_id ∈ self_admins s)) as [Hadm|Hna];
        [|now contradict Hloud; right].
      rewrite bool_decide_eq_true_2 by assumption. apply Hsome.
      intros s0. destruct (get_user_list_returns s0) as (text & s' & -> & _).
      eauto.
    + rewrite (process_message_help _ _ H). apply Hsome.
      intros s0. unfold get_help_text. munfold. rewrite is_admin_run. eauto.
    + now contradict Hloud; left.
Qed.

(** A blank message, and a command with its slash missing. *)
Lemma silent_messages_witness :
  process_message "   " "90001" Sample.s0 = (inr None, Sample.s0)
  /\ process_message "yhm bob @10002" "90001" Sample.s0
     = (inr None, Sample.s0).
Proof.
  split.
  - destruct (silent_messages "   " "90001" Sample.s0 eq_refl) as [Hsilent _].
    apply Hsilent. left. intros command [=].
  - destruct (silent_messages "yhm bob @10002" "90001" Sample.s0 eq_refl)
      as [Hsilent _].
    apply Hsilent. left. intros command [= <-]. unfold COMMANDS.
    rewrite !not_elem_of_cons. repeat split; try discriminate.
    apply not_elem_of_nil.
Defined.

End Messages.

(* ===================================================================== *)
(** ** The two commands of the admins *)
(* ===================================================================== *)

Section AdminCommands.
Import Datetime.

Lemma second_word {A : Type} (parts : list A) (x : A) :
  parts !! 1%nat = Some x -> exists first rest, parts = first :: x :: rest.
Proof.
  destruct parts as [|first [|x' rest]]; try discriminate.
  intros [= ->]. eauto.
Qed.

Lemma no_second_word {A : Type} (parts : list A) :
  parts !! 1%nat = None -> parts = [] \/ exists first, parts = [first].
Proof.
  destruct parts as [|first [|x' rest]]; try discriminate; eauto.
Qed.

Lemma add_days_over (t : datetime) (n : Z) :
  Calendar.MAXORDINAL < ordinal t + n ->
  add_days t n = inl (OverflowError "date value out of range").
Proof.
  intros H. unfold add_days.
  destruct (Z.leb_spec (ordinal t + n) Calendar.MAXORDINAL); [lia|].
  now rewrite andb_false_r.
Qed.

(** [/续时] from an admin, once the number of days and the target are
    read. *)
Lemma handle_extend_time_command_admin
    (message_parts : list string) (message_text sender_id : string) (s : state)
    (arg target : string) (days : Z) :
  sender_id ∈ self_admins s ->
  message_parts !! 1%nat = Some arg ->
  Text.int arg = Some days -> 0 < days ->
  extract_at_user message_text = Some target ->
  handle_extend_time_command message_parts message_text sender_id s
  = match add_or_update_user target None days s with
    | (inr info, s') =>
        match info !! "expire_date" with
        | Some expire_date =>
            (inr ("✅ 已为用户 @" +:+ target +:+ " 延长服务时间 "
                  +:+ Text.str_of_int days +:+ " 天" +:+ LF
                  +:+ "新的到期时间：" +:+ expire_date), s')
        | None => (inr ("❌ 续时失败: " +:+ "'expire_date'"), s')
        end
    | (inl e, s') => (inr ("❌ 续时失败: " +:+ str_exn e), s')
    end.
Proof.
  intros Hadm Hparts Hint Hpos Htarget.
  destruct (second_word _ _ Hparts) as (first & rest & ->).
  unfold handle_extend_time_command. munfold. rewrite is_admin_run.
  rewrite bool_decide_eq_true_2 by assumption. cbn [negb].
  rewrite Hint, Htarget.
  destruct (Z.leb_spec days 0); [lia|].
  destruct (add_or_update_user target None days s) as [[e|info] s'];
    [reflexivity|].
  cbn. destruct (info !! "expire_date"); reflexivity.
Qed.

(** X10: [/续时] from an admin, in a message that is a plain text, is
    turned down, with nothing read or written, when the message has no
    second word, when the second word is no number, when the number is
    not positive, and when the message mentions no user; the four cases
    are tried in this order and each has its own answer. *)
Theorem extend_command_checks_its_arguments
    (message_text sender_id : string) (s : state) :
  sender_id ∈ self_admins s ->
  plain message_text = true ->
  command_of message_text = Some "/续时" ->
  let answer text :=
    process_message message_text sender_id s = (inr (Some text), s) in
  match words_of message_text !! 1%nat with
  | None => answer "❌ 指令格式错误，请使用：/续时 [天数] @目标用户"
  | Some arg =>
      (Text.int arg = None -> answer "❌ 时间长度必须是数字")
      /\ (forall days,
            int_reads arg days -> days <= 0 -> answer "❌ 天数必须大于0")
      /\ (forall days,
            int_reads arg days -> 0 < days ->
            extract_at_user message_text = None -> answer "❌ 请@目标用户")
  end.
Proof.
  intros Hadm _ Hcmd. cbv zeta.
  rewrite (process_message_extend _ _ Hcmd), fmap_run.
  unfold handle_extend_time_command. munfold. rewrite is_admin_run.
  rewrite bool_decide_eq_true_2 by assumption. cbn [negb].
  destruct (words_of message_text !! 1%nat) as [arg|] eqn:Hparts.
  - destruct (second_word _ _ Hparts) as (first & rest & ->).
    split; [|split].
    + now intros ->.
    + intros days [-> _] Hneg.
      now destruct (Z.leb_spec days 0); [|lia].
    + intros days [-> _] Hpos ->.
      now destruct (Z.leb_spec days 0); [lia|].
  - destruct (no_second_word _ Hparts) as [->|[first ->]]; reflexivity.
Qed.

(** An admin gives the user where the number of days goes. *)
Lemma extend_command_checks_its_arguments_witness :
  process_message "/续时 @10002 30" "90001" Sample.s0
  = (inr (Some "❌ 时间长度必须是数字"), Sample.s0).
Proof.
  pose proof (extend_command_checks_its_arguments
                "/续时 @10002 30" "90001" Sample.s0
                (list_elem_of_here _ _) eq_refl eq_refl) as H.
  cbv zeta in H.
  change (words_of "/续时 @10002 30" !! 1%nat) with (Some "@10002") in H.
  destruct H as [H _]. apply H. reflexivity.
Defined.

(** [/续时] from an admin on a record whose date reads, within the
    calendar: the answer and the state it leaves. *)
Lemma extend_command_run
    (message_text sender_id : string) (s : state)
    (arg target : string) (days : Z)
    (info : user_info) (stored : string) (current_expire : datetime) :
  sender_id ∈ self_admins s ->
  command_of message_text = Some "/续时" ->
  words_of message_text !! 1%nat = Some arg ->
  Text.int arg = Some days -> 0 < days ->
  extract_at_user message_text = Some target ->
  dict_get target (users_of s) = Some info ->
  info !! "expire_date" = Some stored ->
  strptime stored = Some current_expire ->
  Z.max (ordinal current_expire) (ordinal (reading s)) + days
    <= Calendar.MAXORDINAL ->
  let new_date :=
    strftime
      (mkdt (Z.max (ordinal current_expire) (ordinal (reading s)) + days) 0) in
  process_message message_text sender_id s
  = (inr (Some ("✅ 已为用户 @" +:+ target +:+ " 延长服务时间 "
                +:+ Text.str_of_int days +:+ " 天" +:+ LF
                +:+ "新的到期时间：" +:+ new_date)),
     set_users_file
       (Some (dict_set target (<["expire_date" := new_date]> info) (users_of s)))
       (tick s)).
Proof.
  intros Hadm Hcmd Hparts Hint Hpos Htarget Hget Hstored Hparse Hmax. cbv zeta.
  destruct (DatetimeFacts.strptime_range _ _ Hparse) as [Hrange _].
  rewrite (process_message_extend _ _ Hcmd), fmap_run.
  rewrite (handle_extend_time_command_admin _ _ _ _ _ _ _
             Hadm Hparts Hint Hpos Htarget).
  rewrite (add_or_update_user_existing _ _ _ _ _ Hget). cbv zeta.
  destruct (Z.ltb_spec 0 days); [|lia].
  rewrite extend_expire_date_run, Hstored, Hparse.
  rewrite timedelta_days_ok by (unfold Calendar.MAXORDINAL in *; lia).
  rewrite add_days_ok by (rewrite DatetimeFacts.max_ordinal; lia).
  rewrite DatetimeFacts.max_ordinal, lookup_insert_eq. reflexivity.
Qed.

(** X11: [/续时] from an admin, in a message that is a plain text, with
    a positive number of days, for a mentioned user whose record has an
    [expire_date] that reads as a date: the answer names the later of
    that date and the day of the command, plus the number of days, and
    this is the [expire_date] the store holds afterwards.  (For a clock
    in the years from 1000 on.) *)
Theorem extend_command_answers_stored_date
    (message_text sender_id : string) (s : state)
    (arg target : string) (days : Z) (current_expire : datetime) :
  sender_id ∈ self_admins s ->
  plain message_text = true ->
  command_of message_text = Some "/续时" ->
  words_of message_text !! 1%nat = Some arg ->
  int_reads arg days -> 0 < days ->
  extract_at_user message_text = Some target ->
  expire_of target s = Some current_expire ->
  FIRST_PADDED <= ordinal (reading s) ->
  Z.max (ordinal current_expire) (ordinal (reading s)) + days
    <= Calendar.MAXORDINAL ->
  let new_expire :=
    mkdt (Z.max (ordinal current_expire) (ordinal (reading s)) + days) 0 in
  exists s',
    process_message message_text sender_id s
    = (inr (Some ("✅ 已为用户 @" +:+ target +:+ " 延长服务时间 "
                  +:+ Text.str_of_int days +:+ " 天" +:+ LF
                  +:+ "新的到期时间：" +:+ strftime new_expire)), s')
    /\ expire_of target s' = Some new_expire
    /\ only_store s s'.
Proof.
  intros Hadm _ Hcmd Hparts [Hint _] Hpos Htarget Hexp _ Hmax. cbv zeta.
  destruct (expire_of_inv _ _ _ Hexp) as (info & stored & Hget & Hstored & Hparse).
  destruct (DatetimeFacts.strptime_range _ _ Hparse) as [Hrange _].
  rewrite (extend_command_run _ _ _ _ _ _ _ _ _
             Hadm Hcmd Hparts Hint Hpos Htarget Hget Hstored Hparse Hmax).
  eexists. split; [reflexivity|]. split.
  - rewrite expire_of_set, lookup_insert_eq.
    apply DatetimeFacts.strptime_strftime. cbn. lia.
  - eexists _, 1%nat. now rewrite ticked_1.
Qed.

(** The admin of the sample gives thirty days to the second user, who
    expired ten days before. *)
Lemma extend_command_answers_stored_date_witness :
  (process_message "/续时 30 @10002" "90001" Sample.s0).1
  = inr (Some ("✅ 已为用户 @10002 延长服务时间 30 天" +:+ LF
               +:+ "新的到期时间：2024-02-09")).
Proof.
  destruct (extend_command_answers_stored_date
              "/续时 30 @10002" "90001" Sample.s0 "30" "10002" 30
              (mkdt (738895 - 10) 0))
    as (s' & -> & _);
    [apply list_elem_of_here | reflexivity | reflexivity | reflexivity
    | split; [reflexivity|cbn; lia] | lia | reflexivity | reflexivity
    | vm_compute; discriminate | vm_compute; discriminate |].
  reflexivity.
Defined.

(** X12: [/续时] from an admin, in a message that is a plain text, with
    a number of days that leads past the last date of the calendar
    whatever the starting day (3652059 days or more, within the range
    of [timedelta]) is answered with the message of the
    [OverflowError], and nothing is written. *)
Theorem extend_command_beyond_calendar
    (message_text sender_id : string) (s : state)
    (arg target : string) (days : Z) :
  sender_id ∈ self_admins s ->
  plain message_text = true ->
  command_of message_text = Some "/续时" ->
  words_of message_text !! 1%nat = Some arg ->
  int_reads arg days ->
  Calendar.MAXORDINAL <= days <= 999999999 ->
  extract_at_user message_text = Some target ->
  (forall info,
     dict_get target (users_of s) = Some info ->
     is_Some (info !! "expire_date")) ->
  (forall k, 1 <= ordinal (clock s k)) ->
  exists s',
    process_message message_text sender_id s
    = (inr (Some "❌ 续时失败: date value out of range"), s')
    /\ only_ticks s s'.
Proof.
  intros Hadm _ Hcmd Hparts [Hint _] Hdays Htarget Hkey Hclock.
  assert (Hpos : 0 < days) by (unfold Calendar.MAXORDINAL in Hdays; lia).
  rewrite (process_message_extend _ _ Hcmd), fmap_run.
  rewrite (handle_extend_time_command_admin _ _ _ _ _ _ _
             Hadm Hparts Hint Hpos Htarget).
  assert (Hplus : forall s0,
            clock s0 = clock s ->
            today_plus days s0
            = (inl (OverflowError "date value out of range"), tick s0)).
  { intros s0 Hs0. rewrite today_plus_run.
    rewrite timedelta_days_ok by lia.
    rewrite add_days_over; [reflexivity|].
    unfold reading. rewrite Hs0. specialize (Hclock (ticks s0)). lia. }
  destruct (dict_get target (users_of s)) as [info|] eqn:Hget.
  - destruct (Hkey _ eq_refl) as [stored Hstored].
    rewrite (add_or_update_user_existing _ _ _ _ _ Hget). cbv zeta.
    destruct (Z.ltb_spec 0 days); [|lia].
    rewrite extend_expire_date_run, Hstored.
    destruct (strptime stored) as [E|] eqn:Hparse.
    + destruct (DatetimeFacts.strptime_range _ _ Hparse) as [Hrange _].
      rewrite timedelta_days_ok by lia.
      rewrite add_days_over by (rewrite DatetimeFacts.max_ordinal; lia).
      exists (tick s). split; [reflexivity|apply only_ticks_tick].
    + rewrite Hplus by reflexivity.
      exists (tick s). split; [reflexivity|apply only_ticks_tick].
  - rewrite (add_or_update_user_new _ _ _ _ Hget).
    unfold new_user_record. munfold.
    destruct (Z.ltb_spec 0 days); [|lia].
    rewrite Hplus by reflexivity.
    exists (tick (tick s)). split; [reflexivity|].
    exists 2%nat. now rewrite !ticked_S, ticked_0.
Qed.

Lemma extend_command_beyond_calendar_witness :
  (process_message "/续时 4000000 @10001" "90001" Sample.s0).1
  = inr (Some "❌ 续时失败: date value out of range").
Proof.
  destruct (extend_command_beyond_calendar
              "/续时 4000000 @10001" "90001" Sample.s0 "4000000" "10001" 4000000)
    as (s' & -> & _);
    [apply list_elem_of_here | reflexivity | reflexivity | reflexivity
    | split; [reflexivity|cbn; lia] | unfold Calendar.MAXORDINAL; lia
    | reflexivity | | intros k; cbn; lia | reflexivity].
  intros info [= <-]. now exists "2024-01-10".
Defined.

(** X13: [/续时] from an admin, in a message that is a plain text, for
    a mentioned user whose record has no [expire_date] is answered with
    the [KeyError] of that key, and nothing is read or written. *)
Theorem extend_command_without_expire_date
    (message_text sender_id : string) (s : state)
    (arg target : string) (days : Z) (info : user_info) :
  sender_id ∈ self_admins s ->
  plain message_text = true ->
  command_of message_text = Some "/续时" ->
  words_of message_text !! 1%nat = Some arg ->
  int_reads arg days -> 0 < days ->
  extract_at_user message_text = Some target ->
  dict_get target (users_of s) = Some info ->
  info !! "expire_date" = None ->
  process_message message_text sender_id s
  = (inr (Some "❌ 续时失败: 'expire_date'"), s).
Proof.
  intros Hadm _ Hcmd Hparts [Hint _] Hpos Htarget Hget Hnone.
  rewrite (process_message_extend _ _ Hcmd), fmap_run.
  rewrite (handle_extend_time_command_admin _ _ _ _ _ _ _
             Hadm Hparts Hint Hpos Htarget).
  rewrite (add_or_update_user_existing _ _ _ _ _ Hget). cbv zeta.
  destruct (Z.ltb_spec 0 days); [|lia].
  now rewrite extend_expire_date_run, Hnone.
Qed.

(** A record that holds a user name only. *)
Lemma extend_command_without_expire_date_witness :
  let s :=
    set_users_file (Some [("10001", <["platform_username" := "alice"]> ∅)])
      Sample.s0 in
  process_message "/续时 30 @10001" "90001" s
  = (inr (Some "❌ 续时失败: 'expire_date'"), s).
Proof.
  cbv zeta.
  apply (extend_command_without_expire_date
           "/续时 30 @10001" "90001" _ "30" "10001" 30
           (<["platform_username" := "alice"]> ∅));
    [apply list_elem_of_here | reflexivity | reflexivity | reflexivity
    | split; [reflexivity|cbn; lia] | lia | reflexivity | reflexivity
    | reflexivity].
Defined.

(** X14: [/yhm] from an admin, in a message that is a plain text (and
    for a clock in the years from 1000 on).  Without a second word the
    answer is the format error, without a mentioned user the request to
    mention one, and nothing is read or written.  Otherwise the command
    always succeeds: the second word becomes the [platform_username] of
    the mentioned user, whose record otherwise stays as it is; a user
    that has no record gets one that starts and expires on the day of
    the command. *)
Theorem yhm_command_sets_user_name
    (message_text sender_id : string) (s : state) :
  sender_id ∈ self_admins s ->
  plain message_text = true ->
  (forall k, FIRST_PADDED <= ordinal (clock s k)) ->
  command_of message_text = Some "/yhm" ->
  match words_of message_text !! 1%nat with
  | None =>
      process_message message_text sender_id s
      = (inr (Some "❌ 指令格式错误，请使用：/yhm [外部平台用户名] @目标用户"), s)
  | Some username =>
      match extract_at_user message_text with
      | None =>
          process_message message_text sender_id s
          = (inr (Some "❌ 请@目标用户"), s)
      | Some target =>
          let info : user_info :=
            match dict_get target (users_of s) with
            | Some old => <["platform_username" := username]> old
            | None =>
                <["platform_username" := username]>
                  (<["start_date" := strftime (reading s)]>
                     (<["expire_date" := strftime (reading (tick s))]> ∅))
            end in
          exists s',
            process_message message_text sender_id s
            = (inr (Some ("✅ 已为用户 @" +:+ target
                          +:+ " 设置外部平台用户名：" +:+ username)), s')
            /\ users_of s' = dict_set target info (users_of s)
            /\ only_store s s'
      end
  end.
Proof.
  intros Hadm _ _ Hcmd.
  rewrite (process_message_yhm _ _ Hcmd), fmap_run.
  unfold handle_yhm_command. munfold. rewrite is_admin_run.
  rewrite bool_decide_eq_true_2 by assumption. cbn [negb].
  destruct (words_of message_text !! 1%nat) as [username|] eqn:Hparts.
  - destruct (second_word _ _ Hparts) as (first & rest & ->).
    destruct (extract_at_user message_text) as [target|]; [|reflexivity].
    cbv zeta.
    pose proof (add_or_update_user_only_store target (Some username) 0 s)
      as Hstore. revert Hstore.
    destruct (dict_get target (users_of s)) as [old|] eqn:Hget.
    + rewrite (add_or_update_user_existing _ _ _ _ _ Hget). cbn.
      intros Hstore. eexists. split; [reflexivity|]. split; [|exact Hstore].
      reflexivity.
    + rewrite (add_or_update_user_new _ _ _ _ Hget).
      unfold new_user_record. munfold. cbn.
      intros Hstore. eexists. split; [reflexivity|]. split; [|exact Hstore].
      reflexivity.
  - destruct (no_second_word _ Hparts) as [->|[first ->]]; reflexivity.
Qed.

(** The admin of the sample names a user that has no record yet. *)
Lemma yhm_command_sets_user_name_witness :
  exists s',
    process_message "/yhm zoe [CQ:at,qq=10009]" "90001" Sample.s0
    = (inr (Some "✅ 已为用户 @10009 设置外部平台用户名：zoe"), s')
    /\ users_of s'
       = Sample.store ++ [("10009", Sample.record "zoe" "2024-01-10" "2024-01-10")].
Proof.
  assert (Hclock : forall k,
            FIRST_PADDED <= ordinal (clock Sample.s0 k))
    by (intros k; vm_compute; discriminate).
  pose proof (yhm_command_sets_user_name
                "/yhm zoe [CQ:at,qq=10009]" "90001" Sample.s0
                (list_elem_of_here _ _) eq_refl Hclock eq_refl) as H.
  change (words_of "/yhm zoe [CQ:at,qq=10009]" !! 1%nat) with (Some "zoe") in H.
  change (extract_at_user "/yhm zoe [CQ:at,qq=10009]") with (Some "10009") in H.
  destruct H as (s' & Hrun & Husers & _).
  exists s'. split; [exact Hrun|]. rewrite Husers. reflexivity.
Defined.

End AdminCommands.

(* ===================================================================== *)
(** ** The two commands that show expiry dates *)
(* ===================================================================== *)

Section StringFacts.
Local Arguments String.append !_ _ / : simpl nomatch.

Lemma append_nil_r (a : string) : a +:+ "" = a.
Proof. induction a as [|c a IH]; cbn; congruence. Qed.

Lemma append_assoc (a b c : string) : (a +:+ b) +:+ c = a +:+ (b +:+ c).
Proof. induction a as [|x a IH]; cbn; congruence. Qed.

End StringFacts.

Section Status.
Import Datetime.

Lemma clock_within_ticks (today : Z) (s s' : state) :
  clock_within today s -> only_ticks s s' -> clock_within today s'.
Proof. intros Hclock [k ->]. exact Hclock. Qed.

Lemma clock_within_reading (today : Z) (s : state) :
  clock_within today s ->
  ordinal (reading s) = today /\ 0 < usec (reading s) < USEC_PER_DAY.
Proof. intros Hclock. apply Hclock. Qed.

(** X15: [/查看到期时间] for a sender whose record has an [expire_date]
    that reads as a date.  The answer shows the three fields of the
    record and a status line for the number of whole days from the
    reading of the clock to the midnight that begins the expiry day: the
    difference of the two days at midnight sharp, one less at any later
    time.  One reading of the clock is taken and nothing else changes. *)
Theorem check_expiry_counts_whole_days
    (message_text sender_id : string) (s : state)
    (info : user_info) (expire : datetime) :
  command_of message_text = Some "/查看到期时间" ->
  dict_get sender_id (users_of s) = Some info ->
  strptime (get_default info "expire_date" "未知") = Some expire ->
  0 <= usec (reading s) < USEC_PER_DAY ->
  process_message message_text sender_id s
  = (inr (Some (service_status info
                  (status_text (days_shown (ordinal expire) (reading s))))),
     tick s).
Proof.
  intros Hcmd Hget Hparse Hclock.
  rewrite (process_message_check _ _ Hcmd), fmap_run.
  rewrite handle_check_expire_command_run, Hget.
  destruct (bool_decide_reflect (info = ∅)) as [->|Hne];
    [vm_compute in Hparse; discriminate Hparse|].
  rewrite Hparse.
  destruct (DatetimeFacts.strptime_range _ _ Hparse) as [_ Hmid].
  now rewrite (sub_days_from_clock _ _ Hmid Hclock).
Qed.

(** At noon of 2024-01-10 the fourth sample user, who expires on
    2024-01-13, is told that two days are left. *)
Lemma check_expiry_counts_whole_days_witness :
  (process_message "/查看到期时间" "10004" Sample.s0).1
  = inr (Some ("📊 您的服务状态：" +:+ LF
               +:+ "👤 外部平台用户名：" +:+ LF
               +:+ "📅 开户时间：2023-12-14" +:+ LF
               +:+ "⏰ 到期时间：2024-01-13" +:+ LF
               +:+ "⏳ 距离到期还有：2 天")).
Proof.
  rewrite (check_expiry_counts_whole_days "/查看到期时间" "10004" Sample.s0
             (Sample.record "" "2023-12-14" "2024-01-13") (mkdt 738898 0));
    [reflexivity | reflexivity | reflexivity | reflexivity
    | unfold USEC_PER_DAY; cbn; lia].
Defined.

(** X16: [/查看到期时间] for a sender whose record has no [expire_date],
    or one that is a plain text and does not read as a date.  An empty
    record counts as no record; any other record is shown, with the
    defaults for the keys it lacks, and the status line says that the
    date is malformed.  The clock is not read and nothing changes. *)
Theorem check_expiry_with_unreadable_date
    (message_text sender_id : string) (s : state) (info : user_info) :
  command_of message_text = Some "/查看到期时间" ->
  dict_get sender_id (users_of s) = Some info ->
  plain (get_default info "expire_date" "未知") = true ->
  strptime (get_default info "expire_date" "未知") = None ->
  process_message message_text sender_id s
  = (inr (Some (if bool_decide (info = ∅) then NO_RECORD
                else service_status info "日期格式错误")), s).
Proof.
  intros Hcmd Hget _ Hparse.
  rewrite (process_message_check _ _ Hcmd), fmap_run.
  rewrite handle_check_expire_command_run, Hget, Hparse.
  now destruct (bool_decide (info = ∅)).
Qed.

(** A record that holds a user name only. *)
Lemma check_expiry_with_unreadable_date_witness :
  process_message "/查看到期时间" "10001"
    (set_users_file (Some [("10001", <["platform_username" := "alice"]> ∅)])
       Sample.s0)
  = (inr (Some ("📊 您的服务状态：" +:+ LF
                +:+ "👤 外部平台用户名：alice" +:+ LF
                +:+ "📅 开户时间：未知" +:+ LF
                +:+ "⏰ 到期时间：未知" +:+ LF
                +:+ "⏳ 日期格式错误")),
     set_users_file (Some [("10001", <["platform_username" := "alice"]> ∅)])
       Sample.s0).
Proof.
  rewrite (check_expiry_with_unreadable_date "/查看到期时间" "10001" _
             (<["platform_username" := "alice"]> ∅));
    reflexivity.
Defined.

(** The loop of [get_user_list] while the clock stays within one day. *)
Lemma user_list_loop_within
    (today : Z) (entries : list (string * user_info))
    (response : string) (s : state) :
  clock_within today s ->
  exists s',
    user_list_loop response entries s
    = (inr (response +:+ join (map (list_entry today) entries)), s')
    /\ only_ticks s s'.
Proof.
  revert response s.
  induction entries as [|entry entries IH]; intros response s Hclock;
    cbn [user_list_loop map join].
  - exists s. rewrite append_nil_r. split; [reflexivity|apply only_ticks_refl].
  - assert (Hentry : exists s1,
              user_list_entry entry s = (inr (list_entry today entry), s1)
              /\ only_ticks s s1).
    { rewrite user_list_entry_run. unfold list_entry. cbv zeta.
      destruct (strptime _) as [expire|] eqn:Hparse.
      - destruct (DatetimeFacts.strptime_range _ _ Hparse) as [_ Hmid].
        destruct (clock_within_reading _ _ Hclock) as [Hday Husec].
        rewrite (sub_days_from_clock _ _ Hmid) by lia.
        destruct (Z.eqb_spec (usec (reading s)) 0); [lia|].
        rewrite Hday. eexists. split; [reflexivity|apply only_ticks_tick].
      - eexists. split; [reflexivity|apply only_ticks_refl]. }
    destruct Hentry as (s1 & Hline & Hticks1).
    munfold. rewrite Hline.
    destruct (IH (response +:+ list_entry today entry) s1
                (clock_within_ticks _ _ _ Hclock Hticks1))
      as (s' & -> & Hticks).
    exists s'. rewrite append_assoc. split; [reflexivity|].
    exact (only_ticks_trans _ _ _ Hticks1 Hticks).
Qed.

(** X17: [/用户列表] from an admin, while the clock stays within one
    day (after midnight), for a store whose [expire_date]s are plain
    texts.  An empty or missing store gives the message
    that there is no record; otherwise the answer is the heading
    followed by one entry per record, in the order of the store.  Each
    entry shows the user id, the user name and the [expire_date] with
    their defaults, and a status: the number of days from today to the
    expiry day less one, or the note that the date does not read as a
    date, in which case the listing goes on.  Nothing changes but the
    number of readings of the clock. *)
Theorem user_list_shows_every_record
    (message_text sender_id : string) (s : state) (today : Z) :
  sender_id ∈ self_admins s ->
  command_of message_text = Some "/用户列表" ->
  clock_within today s ->
  Forall (fun entry => plain (get_default entry.2 "expire_date" "未知") = true)
    (users_of s) ->
  exists s',
    process_message message_text sender_id s
    = (inr (Some match users_of s with
                 | [] => "📋 当前没有用户记录"
                 | entries =>
                     "📋 用户列表：" +:+ LF
                     +:+ join (map (list_entry today) entries)
                 end), s')
    /\ only_ticks s s'.
Proof.
  intros Hadm Hcmd Hclock _.
  rewrite (process_message_list _ _ _ Hcmd).
  rewrite bool_decide_eq_true_2 by assumption.
  rewrite fmap_run. unfold get_user_list. munfold.
  destruct (users_of s) as [|entry entries].
  - exists s. split; [reflexivity|apply only_ticks_refl].
  - destruct (user_list_loop_within today (entry :: entries)
                ("📋 用户列表：" +:+ LF) s Hclock) as (s' & -> & Hticks).
    now exists s'.
Qed.

(** The list of the sample at noon of 2024-01-10. *)
Lemma user_list_shows_every_record_witness :
  (process_message "/用户列表" "90001" Sample.s0).1
  = inr (Some ("📋 用户列表：" +:+ LF
               +:+ join (map (list_entry 738895) Sample.store))).
Proof.
  destruct (user_list_shows_every_record "/用户列表" "90001" Sample.s0 738895)
    as (s' & -> & _);
    [apply list_elem_of_here | reflexivity
    | intros k; unfold USEC_PER_DAY; cbn; lia
    | repeat constructor | reflexivity].
Defined.

End Status.

(* ===================================================================== *)
(** ** More on the reminder loop *)
(* ===================================================================== *)

(** Composition rules for [keeps], for a relation that is reflexive and
    transitive. *)
Section Keeps.
Variable R : state -> state -> Prop.
Hypothesis R_refl : forall s, R s s.
Hypothesis R_trans : forall s1 s2 s3, R s1 s2 -> R s2 s3 -> R s1 s3.

Lemma keeps_ret {A : Type} (x : A) : keeps R (mret x).
Proof. intros s. apply R_refl. Qed.

Lemma keeps_raise {A : Type} (e : exn) : keeps R (raise e : M A).
Proof. intros s. apply R_refl. Qed.

Lemma keeps_lift {A : Type} (r : exn + A) : keeps R (lift r).
Proof. intros s. apply R_refl. Qed.

Lemma keeps_get_state : keeps R get_state.
Proof. intros s. apply R_refl. Qed.

Lemma keeps_bind {A B : Type} (m : M A) (f : A -> M B) :
  keeps R m -> (forall x, keeps R (f x)) -> keeps R (m ≫= f).
Proof.
  intros Hm Hf s. specialize (Hm s). munfold.
  destruct (m s) as [[e|x] s']; [exact Hm|].
  exact (R_trans _ _ _ Hm (Hf x s')).
Qed.

Lemma keeps_try_except {A : Type}
    (body : M A) (handles : exn -> bool) (handler : exn -> M A) :
  keeps R body -> (forall e, keeps R (handler e)) ->
  keeps R (try_except body handles handler).
Proof.
  intros Hbody Hhandler s. specialize (Hbody s). unfold try_except.
  destruct (body s) as [[e|x] s']; [|exact Hbody].
  destruct (handles e); [|exact Hbody].
  exact (R_trans _ _ _ Hbody (Hhandler e s')).
Qed.

Lemma keeps_for_each {A : Type} (xs : list A) (body : A -> M unit) :
  (forall x, keeps R (body x)) -> keeps R (for_each xs body).
Proof.
  intros Hbody. induction xs as [|x xs IH]; cbn [for_each].
  - apply keeps_ret.
  - apply keeps_bind; [apply Hbody|intros _; exact IH].
Qed.

End Keeps.

Section OnlySends.

Lemma only_sends_refl (s : state) : only_sends s s.
Proof. exists 0%nat, []. now rewrite ticked_0, emit_all_nil. Qed.

Lemma emit_all_ticked (es : list event) (k : nat) (s : state) :
  ticked k (emit_all es s) = emit_all es (ticked k s).
Proof. reflexivity. Qed.

Lemma only_sends_trans (s1 s2 s3 : state) :
  only_sends s1 s2 -> only_sends s2 s3 -> only_sends s1 s3.
Proof.
  intros (j & es1 & -> & H1) (k & es2 & -> & H2).
  exists (j + k)%nat, (es1 ++ es2).
  rewrite emit_all_ticked, ticked_ticked, emit_all_app. split; [reflexivity|].
  rewrite forallb_app. now rewrite H1, H2.
Qed.

Lemma only_ticks_only_sends (s s' : state) : only_ticks s s' -> only_sends s s'.
Proof. intros [k ->]. exists k, []. now rewrite emit_all_nil. Qed.

Lemma keeps_now : keeps only_sends now.
Proof. intros s. apply only_ticks_only_sends, only_ticks_tick. Qed.

Lemma keeps_send (e : event) :
  is_message e = true -> keeps only_sends (modify (emit e)).
Proof.
  intros He s. exists 0%nat, [e]. rewrite ticked_0. cbn. now rewrite He.
Qed.

Lemma keeps_today_plus (n : Z) : keeps only_sends (today_plus n).
Proof. intros s. apply only_ticks_only_sends, today_plus_only_ticks. Qed.

Lemma keeps_getitem (d : user_info) (k : string) : keeps only_sends (getitem d k).
Proof. intros s. unfold getitem. destruct (d !! k); apply only_sends_refl. Qed.

Lemma keeps_scan (target_date : string) :
  keeps only_sends (get_users_by_expire_date target_date).
Proof. intros s. apply only_sends_refl. Qed.

(** The checks of a round only read the clock and send messages, however
    they end. *)
Lemma check_and_send_reminders_only_sends :
  keeps only_sends check_and_send_reminders.
Proof.
  pose proof only_sends_refl as Hrefl. pose proof only_sends_trans as Htrans.
  assert (Hbind : forall (A B : Type) (m : M A) (f : A -> M B),
            keeps only_sends m -> (forall x, keeps only_sends (f x)) ->
            keeps only_sends (m ≫= f))
    by (intros; now apply keeps_bind).
  assert (Hret : forall (A : Type) (x : A), keeps only_sends (mret x))
    by (intros; now apply keeps_ret).
  assert (Hloop : forall (A : Type) (xs : list A) (body : A -> M unit),
            (forall x, keeps only_sends (body x)) ->
            keeps only_sends (for_each xs body))
    by (intros; now apply keeps_for_each).
  assert (H3 : forall entry, keeps only_sends (remind_3days entry)).
  { intros [user_id info]. apply Hbind; [apply keeps_getitem|].
    intros expire_date. now apply keeps_send. }
  assert (H0 : forall entry, keeps only_sends (remind_today entry)).
  { intros [user_id info]. apply Hbind; [apply keeps_getitem|].
    intros expire_date. now apply keeps_send. }
  assert (H1 : forall entry, keeps only_sends (notify_expired entry)).
  { intros [user_id info]. apply Hbind; [apply keeps_getitem|].
    intros expire_date. apply Hbind; [now apply keeps_get_state|].
    intros s0. apply Hloop. intros admin_id. now apply keeps_send. }
  assert (Hexpiring : forall n, keeps only_sends (get_expiring_users n)).
  { intros n. apply Hbind; [apply keeps_today_plus|].
    intros target_date. apply keeps_scan. }
  assert (Hexpired : forall n, keeps only_sends (get_expired_users n)).
  { intros n. apply Hbind; [apply keeps_now|]. intros t.
    apply Hbind; [now apply keeps_lift|]. intros d.
    apply Hbind; [now apply keeps_lift|]. intros e. apply keeps_scan. }
  unfold check_and_send_reminders.
  apply Hbind; [intros s; apply only_sends_refl|]. intros config.
  destruct (negb (reminder_enabled config)); [apply Hret|].
  apply Hbind; [apply Hexpiring|]. intros found3.
  apply Hbind; [now apply Hloop|]. intros _.
  apply Hbind; [apply Hexpiring|]. intros found0.
  apply Hbind; [now apply Hloop|]. intros _.
  apply Hbind; [apply Hexpired|]. intros found1.
  now apply Hloop.
Qed.

End OnlySends.

(** Composition rules for [ignores_config]. *)
Section IgnoresConfig.

Lemma ignores_ret {A : Type} (x : A) : ignores_config (mret x).
Proof. intros c s. reflexivity. Qed.

Lemma ignores_lift {A : Type} (r : exn + A) : ignores_config (lift r).
Proof. intros c s. reflexivity. Qed.

Lemma ignores_now : ignores_config now.
Proof. intros c s. reflexivity. Qed.

Lemma ignores_emit (e : event) : ignores_config (modify (emit e)).
Proof. intros c s. reflexivity. Qed.

Lemma ignores_load_users : ignores_config load_users.
Proof. intros c s. reflexivity. Qed.

Lemma ignores_getitem (d : user_info) (k : string) :
  ignores_config (getitem d k).
Proof. intros c s. unfold getitem. destruct (d !! k); reflexivity. Qed.

Lemma ignores_bind {A B : Type} (m : M A) (f : A -> M B) :
  ignores_config m -> (forall x, ignores_config (f x)) ->
  ignores_config (m ≫= f).
Proof.
  intros Hm Hf c s. munfold. rewrite (Hm c s).
  destruct (m s) as [[e|x] s']; [reflexivity|].
  cbn [fst snd]. apply Hf.
Qed.

Lemma ignores_try_except {A : Type}
    (body : M A) (handles : exn -> bool) (handler : exn -> M A) :
  ignores_config body -> (forall e, ignores_config (handler e)) ->
  ignores_config (try_except body handles handler).
Proof.
  intros Hbody Hhandler c s. unfold try_except. rewrite (Hbody c s).
  destruct (body s) as [[e|x] s']; [|reflexivity].
  cbn [fst snd]. destruct (handles e); [apply Hhandler|reflexivity].
Qed.

Lemma ignores_for_each {A : Type} (xs : list A) (body : A -> M unit) :
  (forall x, ignores_config (body x)) -> ignores_config (for_each xs body).
Proof.
  intros Hbody. induction xs as [|x xs IH]; cbn [for_each].
  - apply ignores_ret.
  - apply ignores_bind; [apply Hbody|intros _; exact IH].
Qed.

Lemma ignores_today_plus (n : Z) : ignores_config (today_plus n).
Proof.
  unfold today_plus.
  repeat (apply ignores_bind; [first [apply ignores_now|apply ignores_lift]|];
          intros ?).
  apply ignores_ret.
Qed.

Lemma ignores_scan (target_date : string) :
  ignores_config (get_users_by_expire_date target_date).
Proof. intros c s. reflexivity. Qed.

Lemma ignores_notify_expired (entry : string * user_info) :
  ignores_config (notify_expired entry).
Proof.
  destruct entry as [user_id info]. unfold notify_expired.
  apply ignores_bind; [apply ignores_getitem|]. intros expire_date.
  intros c s. munfold.
  apply (ignores_for_each (self_admins s)). intros admin_id. apply ignores_emit.
Qed.

(** The part of [check_and_send_reminders] that follows the test of
    [reminder_enabled]. *)
Lemma ignores_reminders :
  ignores_config
    (expiring_users_3days ← get_expiring_users 3;
     for_each expiring_users_3days remind_3days ;;
     expiring_users_today ← get_expiring_users 0;
     for_each expiring_users_today remind_today ;;
     expired_users ← get_expired_users 1;
     for_each expired_users notify_expired).
Proof.
  assert (H3 : forall entry, ignores_config (remind_3days entry)).
  { intros [user_id info]. apply ignores_bind; [apply ignores_getitem|].
    intros expire_date. apply ignores_emit. }
  assert (H0 : forall entry, ignores_config (remind_today entry)).
  { intros [user_id info]. apply ignores_bind; [apply ignores_getitem|].
    intros expire_date. apply ignores_emit. }
  assert (Hexpiring : forall n, ignores_config (get_expiring_users n)).
  { intros n. apply ignores_bind; [apply ignores_today_plus|].
    intros target_date. apply ignores_scan. }
  assert (Hexpired : forall n, ignores_config (get_expired_users n)).
  { intros n. apply ignores_bind; [apply ignores_now|]. intros t.
    apply ignores_bind; [apply ignores_lift|]. intros d.
    apply ignores_bind; [apply ignores_lift|]. intros e. apply ignores_scan. }
  apply ignores_bind; [apply Hexpiring|]. intros found3.
  apply ignores_bind; [now apply ignores_for_each|]. intros _.
  apply ignores_bind; [apply Hexpiring|]. intros found0.
  apply ignores_bind; [now apply ignores_for_each|]. intros _.
  apply ignores_bind; [apply Hexpired|]. intros found1.
  apply ignores_for_each, ignores_notify_expired.
Qed.

End IgnoresConfig.

Section RemindersMore.
Import Datetime.

(** X18: a round of the reminder loop never fails, whatever the store,
    the configuration and the clock: an exception of the checks (a date
    out of the calendar, for one) is dropped, and the round ends with
    the sleep of 24 hours.  Before that sleep the round only reads the
    clock and hands messages to the host: it writes neither file and
    changes no field of the plugin. *)
Theorem round_never_fails (s : state) :
  exists s1,
    reminder_iteration s = (inr tt, emit (Sleep (24 * 60 * 60)) s1)
    /\ only_sends s s1.
Proof.
  pose proof (check_and_send_reminders_only_sends s) as Hsends.
  unfold reminder_iteration, sleep. munfold.
  destruct (check_and_send_reminders s) as [[e|[]] s1];
    exists s1; (split; [reflexivity|exact Hsends]).
Qed.

(** X19: of [config.json] a round of the reminder loop uses
    [reminder_enabled] only.  With any other configuration that has the
    same [reminder_enabled] (the default being true) the round returns
    the same and leaves the same state, the new file apart: the keys
    [reminder_days_before], [expired_check_days], [group_id] and [admins]
    of the file have no effect on the round. *)
Theorem round_reads_one_setting (s : state) (c : option config) :
  reminder_enabled (config_of (set_config_file c s))
  = reminder_enabled (config_of s) ->
  reminder_iteration (set_config_file c s)
  = ((reminder_iteration s).1, set_config_file c (reminder_iteration s).2).
Proof.
  intros Hsame.
  assert (Hcheck : check_and_send_reminders (set_config_file c s)
                   = ((check_and_send_reminders s).1,
                      set_config_file c (check_and_send_reminders s).2)).
  { pose proof ignores_reminders as Hrest. revert Hrest.
    unfold check_and_send_reminders.
    set (rest := (expiring_users_3days ← get_expiring_users 3;
                  for_each expiring_users_3days remind_3days ;;
                  expiring_users_today ← get_expiring_users 0;
                  for_each expiring_users_today remind_today ;;
                  expired_users ← get_expired_users 1;
                  for_each expired_users notify_expired)).
    intros Hrest. munfold. rewrite Hsame.
    destruct (negb (reminder_enabled (config_of s))); [reflexivity|].
    apply Hrest. }
  unfold reminder_iteration, sleep. munfold. rewrite Hcheck.
  destruct (check_and_send_reminders s) as [[e|[]] s1]; reflexivity.
Qed.

(** The configuration of the sample with other days, another group and
    no admins. *)
Lemma round_reads_one_setting_witness :
  let other :=
    Some (mkconfig None (Some true) (Some [7; 1]) (Some 5) (Some "group")) in
  reminder_iteration (set_config_file other Sample.s0)
  = ((reminder_iteration Sample.s0).1,
     set_config_file other (reminder_iteration Sample.s0).2).
Proof.
  apply (round_reads_one_setting Sample.s0
           (Some (mkconfig None (Some true) (Some [7; 1]) (Some 5)
                    (Some "group")))).
  reflexivity.
Defined.

(** X20: when [stop_reminder_task] is called while the loop sleeps, the
    loop ends with that sleep: what happens during later sleeps is of
    no account, there is no later round. *)
Theorem stop_ends_the_loop
    (before after : list (state -> state)) (meanwhile : state -> state)
    (s : state) :
  let stop st := (stop_reminder_task (meanwhile st)).2 in
  start_reminder_task (before ++ stop :: after) s
  = start_reminder_task (before ++ [stop]) s.
Proof.
  cbv zeta.
  assert (Hloop : forall s0,
            reminder_loop
              (before ++ (fun st => (stop_reminder_task (meanwhile st)).2) :: after)
              s0
            = reminder_loop
                (before ++ [fun st => (stop_reminder_task (meanwhile st)).2]) s0).
  { induction before as [|other before IH]; intros s0;
      cbn [app reminder_loop]; munfold.
    - destruct (reminder_task_running s0); [|reflexivity].
      destruct (reminder_iteration s0) as [[e|[]] s1]; [reflexivity|].
      cbn. now destruct after.
    - destruct (reminder_task_running s0); [|reflexivity].
      destruct (reminder_iteration s0) as [[e|[]] s1]; [reflexivity|].
      apply IH. }
  unfold start_reminder_task. munfold.
  destruct (reminder_task_running s); [reflexivity|]. apply Hloop.
Qed.

End RemindersMore.

(* ===================================================================== *)
(** ** The settings page and what is saved from it *)
(* ===================================================================== *)

Section Select.
Import Datetime.

(** A test that reads the [expire_date] of a record, then the clock, and
    compares the two. *)
Variable test : user_info -> M bool.
Variable compare : datetime -> datetime -> bool.
Hypothesis test_run : forall u s,
  test u s
  = match Datetime.strptime (get_default u "expire_date" "1970-01-01") with
    | Some expire => (inr (compare (reading s) expire), tick s)
    | None => (inl ValueError, s)
    end.

Lemma select_if_returns (records : list user_info) (s : state) :
  Forall readable_date records ->
  exists kept,
    select_if test records s = (inr kept, ticked (length records) s).
Proof.
  revert s. induction records as [|u records IH]; intros s Hall;
    cbn [select_if length].
  - exists []. now rewrite ticked_0.
  - apply Forall_cons in Hall as [[expire Hu] Hall].
    munfold. rewrite test_run, Hu.
    destruct (IH (tick s) Hall) as [kept ->].
    rewrite ticked_S. eauto.
Qed.

Lemma select_if_raises (records : list user_info) (s : state) :
  ~ Forall readable_date records ->
  exists s', select_if test records s = (inl ValueError, s') /\ only_ticks s s'.
Proof.
  revert s. induction records as [|u records IH]; intros s Hbad;
    cbn [select_if].
  - contradict Hbad. constructor.
  - munfold. rewrite test_run.
    destruct (Datetime.strptime (get_default u "expire_date" "1970-01-01"))
      as [expire|] eqn:Hu.
    + destruct (IH (tick s)) as (s' & -> & Hticks).
      * contradict Hbad. constructor; [now exists expire|assumption].
      * exists s'. split; [reflexivity|].
        exact (only_ticks_trans _ _ _ (only_ticks_tick s) Hticks).
    + exists s. split; [reflexivity|apply only_ticks_refl].
Qed.

(** While the clock stays on one day the test is a test on the date. *)
Lemma select_if_on_day
    (today : Z) (keep : user_info -> bool) (records : list user_info)
    (s : state) :
  clock_on today s ->
  (forall u expire t,
     Datetime.strptime (get_default u "expire_date" "1970-01-01") = Some expire ->
     ordinal t = today -> 0 <= usec t -> compare t expire = keep u) ->
  Forall readable_date records ->
  select_if test records s
  = (inr (filter (fun u => keep u = true) records),
     ticked (length records) s).
Proof.
  intros Hclock Hkeep. revert s Hclock.
  induction records as [|u records IH]; intros s Hclock Hall;
    cbn [select_if length].
  - now rewrite ticked_0.
  - apply Forall_cons in Hall as [[expire Hu] Hall].
    munfold. rewrite test_run, Hu.
    rewrite (IH (tick s)) by assumption. rewrite ticked_S.
    destruct (Hclock (ticks s)) as [Hday Husec].
    rewrite (Hkeep u expire (reading s) Hu Hday) by (unfold reading; lia).
    destruct (keep u) eqn:Hk.
    + now rewrite filter_cons_True.
    + rewrite filter_cons_False; [reflexivity|]. now rewrite Hk.
Qed.

End Select.

Section SettingsPage.
Import Datetime.
Variable json_dumps : users -> string.
Variable json_loads : string -> string + users.

Lemma expires_after_now_run (u : user_info) (s : state) :
  expires_after_now u s
  = match Datetime.strptime (get_default u "expire_date" "1970-01-01") with
    | Some expire => (inr (lt (reading s) expire), tick s)
    | None => (inl ValueError, s)
    end.
Proof.
  unfold expires_after_now. munfold.
  destruct (Datetime.strptime _); reflexivity.
Qed.

Lemma expires_by_now_run (u : user_info) (s : state) :
  expires_by_now u s
  = match Datetime.strptime (get_default u "expire_date" "1970-01-01") with
    | Some expire => (inr (negb (lt (reading s) expire)), tick s)
    | None => (inl ValueError, s)
    end.
Proof.
  unfold expires_by_now. munfold.
  destruct (Datetime.strptime _); reflexivity.
Qed.

(** A reading of the day [today] is before the midnight that begins the
    day [expire] exactly when [today] is before that day. *)
Lemma lt_midnight (u : user_info) (expire t : datetime) (today : Z) :
  Datetime.strptime (get_default u "expire_date" "1970-01-01") = Some expire ->
  ordinal t = today -> 0 <= usec t ->
  lt t expire = expires_after today u.
Proof.
  intros Hu Hday Husec. unfold expires_after, lt. rewrite Hu, Hday.
  destruct (DatetimeFacts.strptime_range _ _ Hu) as [_ ->].
  destruct (Z.ltb_spec (usec t) 0); [lia|].
  now rewrite andb_false_r, orb_false_r.
Qed.

Lemma filter_split_length {A : Type} (keep : A -> bool) (xs : list A) :
  (length (filter (fun x => keep x = true) xs)
   + length (filter (fun x => negb (keep x) = true) xs))%nat
  = length xs.
Proof.
  induction xs as [|x xs IH]; [reflexivity|].
  destruct (keep x) eqn:Hk.
  - rewrite filter_cons_True by assumption.
    rewrite filter_cons_False by (rewrite Hk; discriminate).
    cbn. lia.
  - rewrite filter_cons_False by (rewrite Hk; discriminate).
    rewrite filter_cons_True by (now rewrite Hk).
    cbn. lia.
Qed.

(** X21: [get_settings_ui] returns when every record has an
    [expire_date] that reads as a date, a record without the key
    counting as one of 1970-01-01: it then gives the text of the store,
    the configuration as [load_config] finds it and the number of
    records, and takes two readings of the clock per record.  As soon
    as one record has a date that does not read, it raises [ValueError]
    instead (for a store whose [expire_date]s are plain texts: a date
    in other digits does read).  In both cases nothing changes but the
    number of readings of the clock. *)
Theorem settings_page_needs_readable_dates (s : state) :
  (Forall readable_date (map snd (users_of s)) ->
   exists ui,
     get_settings_ui json_dumps s
     = (inr ui, ticked (2 * length (users_of s)) s)
     /\ ui_users_json ui = json_dumps (users_of s)
     /\ ui_config ui = config_of s
     /\ total_users (ui_stats ui) = Z.of_nat (length (users_of s)))
  /\ (Forall (fun u => plain (get_default u "expire_date" "1970-01-01") = true)
        (map snd (users_of s)) ->
      ~ Forall readable_date (map snd (users_of s)) ->
      exists s',
        get_settings_ui json_dumps s = (inl ValueError, s')
        /\ only_ticks s s').
Proof.
  split.
  - intros Hall. unfold get_settings_ui. munfold.
    destruct (select_if_returns _ _ expires_after_now_run _ s Hall)
      as [active ->].
    destruct (select_if_returns _ (fun t e => negb (lt t e))
                expires_by_now_run _
                (ticked (length (map snd (users_of s))) s) Hall)
      as [expired ->].
    rewrite ticked_ticked, length_map.
    replace (length (users_of s) + length (users_of s))%nat
      with (2 * length (users_of s))%nat by lia.
    eexists. split; [reflexivity|]. repeat split.
  - intros _ Hbad. unfold get_settings_ui. munfold.
    destruct (select_if_raises _ _ expires_after_now_run _ s Hbad)
      as (s' & -> & Hticks).
    now exists s'.
Qed.

(** X22: the counts of [get_settings_ui] while the clock stays on one
    day [today] and every date reads: [active_users] counts the records
    that expire after [today], [expired_users] those that expire on
    [today] or before, a record without [expire_date] among them, and
    the two counts add up to [total_users]. *)
Theorem settings_page_counts (s : state) (today : Z) :
  clock_on today s ->
  Forall readable_date (map snd (users_of s)) ->
  exists ui s',
    get_settings_ui json_dumps s = (inr ui, s')
    /\ active_users (ui_stats ui)
       = Z.of_nat (length (filter (fun u => expires_after today u = true)
                             (map snd (users_of s))))
    /\ expired_users (ui_stats ui)
       = Z.of_nat (length (filter (fun u => negb (expires_after today u) = true)
                             (map snd (users_of s))))
    /\ active_users (ui_stats ui) + expired_users (ui_stats ui)
       = total_users (ui_stats ui).
Proof.
  intros Hclock Hall. unfold get_settings_ui. munfold.
  rewrite (select_if_on_day _ _ expires_after_now_run today
             (expires_after today) _ s Hclock)
    by (assumption || (intros; now apply lt_midnight)).
  rewrite (select_if_on_day _ (fun t e => negb (lt t e))
             expires_by_now_run today
             (fun u => negb (expires_after today u)) _ _)
    by (assumption || (intros; f_equal; now apply lt_midnight)).
  eexists _, _. split; [reflexivity|]. cbn [ui_stats active_users
    expired_users total_users].
  split; [reflexivity|]. split; [reflexivity|].
  rewrite <- Nat2Z.inj_add, filter_split_length. now rewrite length_map.
Qed.

(** X23: what [get_settings_ui] returns can be handed back to
    [save_settings], provided [json.loads] reads the text of the store
    as that store.  The save succeeds; [users.json] and [config.json]
    then hold what [load_users] and [load_config] found before, also
    when a file was missing, and the plugin takes its admins and its
    group from that configuration. *)
Theorem settings_page_round_trip (s s1 : state) (ui : settings_ui) :
  get_settings_ui json_dumps s = (inr ui, s1) ->
  json_loads (json_dumps (users_of s)) = inr (users_of s) ->
  exists s2,
    save_settings json_loads
      (mksettings (Some (ui_users_json ui)) (Some (ui_config ui))) s1
    = (inr (mkresult true "设置保存成功"), s2)
    /\ users_file s2 = Some (users_of s)
    /\ config_file s2 = Some (config_of s)
    /\ self_config s2 = config_of s
    /\ self_admins s2 = default [] (cfg_admins (config_of s))
    /\ self_group_id s2 = default "" (cfg_group_id (config_of s)).
Proof.
  intros Hui Hloads.
  assert (Hfields : ui_users_json ui = json_dumps (users_of s)
                    /\ ui_config ui = config_of s).
  { revert Hui. unfold get_settings_ui. munfold.
    destruct (select_if expires_after_now _ s) as [[e|active] sa];
      [discriminate|].
    destruct (select_if expires_by_now _ sa) as [[e|expired] sb];
      [discriminate|].
    intros [= <- <-]. split; reflexivity. }
  destruct Hfields as [-> ->].
  unfold save_settings, try_except2, loads. munfold. cbn [users_json
    settings_config]. rewrite Hloads.
  eexists. split; [reflexivity|].
  cbn. destruct (cfg_admins (config_of s)), (cfg_group_id (config_of s));
    do 4 (split; [reflexivity|]); reflexivity.
Qed.

(** The admins of the plugin after [save_settings]: those of the
    configuration that was saved, none when it has no [admins]; the
    admins of before when no configuration was given or the text of
    the store was no JSON.  [is_admin] answers by that list from then
    on. *)
Lemma admins_follow_saved_config (settings_data : settings) (s : state) :
  let s' := (save_settings json_loads settings_data s).2 in
  self_admins s'
  = match settings_config settings_data,
          match users_json settings_data with
          | Some blob => json_loads blob
          | None => inr []
          end with
    | Some c, inr _ => default [] (cfg_admins c)
    | _, _ => self_admins s
    end
  /\ forall user_id,
       is_admin user_id s' = (inr (bool_decide (user_id ∈ self_admins s')), s').
Proof.
  cbv zeta. split; [|intros user_id; apply is_admin_run].
  unfold save_settings, try_except2, loads. munfold.
  destruct (users_json settings_data) as [blob|];
    [destruct (json_loads blob) as [msg|users_data]|];
    destruct (settings_config settings_data) as [c|]; try reflexivity;
    cbn; now destruct (cfg_admins c).
Qed.

End SettingsPage.

Section StartUp.

(** X24: [ensure_files] creates the files that are missing, with an
    empty store and the default configuration, and leaves the files
    that are there; a second run changes nothing.  What [load_users]
    returns and what the plugin reads of the configuration (the admins,
    the group and [reminder_enabled], each with its default) is the
    same after it as before: the default configuration agrees with the
    fallback of [load_config] on these keys. *)
Theorem ensure_files_keeps_what_is_read
    (users_there config_there : bool) (s : state) :
  (users_there = false -> users_file s = None) ->
  (config_there = false -> config_file s = None) ->
  exists s',
    ensure_files users_there config_there s = (inr tt, s')
    /\ users_file s'
       = (if users_there then users_file s else Some [])
    /\ config_file s'
       = (if config_there then config_file s else Some default_config)
    /\ users_of s' = users_of s
    /\ reminder_enabled (config_of s') = reminder_enabled (config_of s)
    /\ default [] (cfg_admins (config_of s'))
       = default [] (cfg_admins (config_of s))
    /\ default "" (cfg_group_id (config_of s'))
       = default "" (cfg_group_id (config_of s))
    /\ ensure_files true true s' = (inr tt, s').
Proof.
  intros Husers Hconfig. unfold ensure_files. munfold.
  destruct users_there, config_there; cbn;
    (eexists; split; [reflexivity|]);
    unfold users_of, config_of; cbn;
    rewrite ?(Husers eq_refl), ?(Hconfig eq_refl);
    repeat (split; [reflexivity|]); reflexivity.
Qed.

(** The first start: no file yet. *)
Lemma ensure_files_keeps_what_is_read_witness :
  let s := set_config_file None (set_users_file None Sample.s0) in
  exists s',
    ensure_files false false s = (inr tt, s')
    /\ users_file s' = Some []
    /\ config_file s' = Some default_config.
Proof.
  cbv zeta.
  destruct (ensure_files_keeps_what_is_read false false
              (set_config_file None (set_users_file None Sample.s0)))
    as (s' & Hrun & Husers & Hconfig & _);
    [reflexivity | reflexivity |].
  exists s'. split; [exact Hrun|]. split; [exact Husers|exact Hconfig].
Defined.

End StartUp.

(** At noon of 2024-01-10 two of the five sample users are active. *)
Lemma settings_page_counts_witness :
  exists ui s',
    get_settings_ui Writer.json_dumps Sample.s0 = (inr ui, s')
    /\ active_users (ui_stats ui) = 2
    /\ expired_users (ui_stats ui) = 3.
Proof.
  destruct (settings_page_counts Writer.json_dumps Sample.s0 738895)
    as (ui & s' & Hrun & Hactive & Hexpired & _).
  - intros k. unfold Datetime.USEC_PER_DAY. cbn. lia.
  - repeat constructor; unfold readable_date; vm_compute; eauto.
  - exists ui, s'. split; [exact Hrun|]. split.
    + rewrite Hactive. reflexivity.
    + rewrite Hexpired. reflexivity.
Defined.

(** The page of the sample, written and read back. *)
Lemma settings_page_round_trip_witness :
  exists s2,
    save_settings Reader.json_loads
      (mksettings (Some (Writer.json_dumps Sample.store)) (Some Sample.settings))
      (ticked 10 Sample.s0)
    = (inr (mkresult true "设置保存成功"), s2)
    /\ users_file s2 = Some Sample.store
    /\ self_admins s2 = ["90001"].
Proof.
  destruct (settings_page_round_trip Writer.json_dumps Reader.json_loads
              Sample.s0 (ticked 10 Sample.s0)
              (mksettings_ui (Writer.json_dumps Sample.store) Sample.settings
                 (mkstats 5 2 3)))
    as (s2 & Hrun & Husers & _ & _ & Hadmins & _).
  - vm_compute. reflexivity.
  - apply (bool_decide_unpack _). vm_compute. exact I.
  - exists s2. split; [exact Hrun|]. split; [exact Husers|exact Hadmins].
Defined.

(* ===================================================================== *)
(** ** The mention that is found, and commands one after the other *)
(* ===================================================================== *)

Section Mentions.

Lemma re_search_some
    (pattern : string -> option string) (text g : string) :
  re_search pattern text = Some g ->
  exists pre suf, text = pre +:+ suf /\ pattern suf = Some g.
Proof.
  induction text as [|c text IH]; rewrite re_search_unfold.
  - destruct (pattern "") eqn:Hp; [|discriminate].
    intros [= ->]. now exists "", "".
  - destruct (pattern (String c text)) eqn:Hp.
    + intros [= ->]. now exists "", (String c text).
    + intros H. destruct (IH H) as (pre & suf & -> & Hsuf).
      now exists (String c pre), suf.
Qed.

(** X25: what [extract_at_user] returns for a message that is a plain
    text is a non-empty run of decimal digits that stands in the
    message, in an at-code [\[CQ:at,qq=...\]], or after an [@] and up to
    the next character that is no digit when the message has no
    at-code. *)
Theorem extract_at_user_is_sound (message_text id : string) :
  plain message_text = true ->
  extract_at_user message_text = Some id ->
  digits id
  /\ ((exists pos, cq_at_occurs message_text pos id)
      \/ ((forall pos id', ~ cq_at_occurs message_text pos id')
          /\ exists pos, bare_at_occurs message_text pos id)).
Proof.
  intros _. unfold extract_at_user.
  destruct (re_search match_cq_at message_text) as [g|] eqn:Hcq.
  - intros [= ->].
    destruct (re_search_some _ _ _ Hcq) as (pre & suf & -> & Hm).
    apply match_cq_at_spec in Hm as [Hid [post ->]].
    split; [assumption|]. left.
    exists (String.length pre), pre, post. auto.
  - destruct (re_search match_at message_text) as [g|] eqn:Hat;
      [|discriminate].
    intros [= ->].
    destruct (re_search_some _ _ _ Hat) as (pre & suf & -> & Hm).
    apply match_at_spec in Hm as [Hid (post & -> & Hpost)].
    split; [assumption|]. right. split.
    + now apply re_search_cq_none.
    + exists (String.length pre), pre, post. auto.
Qed.

Lemma extract_at_user_is_sound_witness :
  digits "10003"
  /\ ((exists pos, cq_at_occurs "/续时 30 @10003x" pos "10003")
      \/ ((forall pos id', ~ cq_at_occurs "/续时 30 @10003x" pos id')
          /\ exists pos, bare_at_occurs "/续时 30 @10003x" pos "10003")).
Proof.
  apply (extract_at_user_is_sound "/续时 30 @10003x" "10003");
    reflexivity.
Defined.

End Mentions.

Section Words.

Lemma handle_yhm_command_parts
    (parts parts' : list string) (text text' sender_id : string) (s : state) :
  parts !! 1%nat = parts' !! 1%nat ->
  extract_at_user text = extract_at_user text' ->
  handle_yhm_command parts text sender_id s
  = handle_yhm_command parts' text' sender_id s.
Proof.
  intros Hparts Hat. unfold handle_yhm_command. munfold. rewrite is_admin_run.
  destruct (bool_decide (sender_id ∈ self_admins s)); cbn [negb];
    [|reflexivity].
  destruct (parts !! 1%nat) as [username|] eqn:H1; symmetry in Hparts.
  - destruct (second_word _ _ H1) as (first & rest & ->).
    destruct (second_word _ _ Hparts) as (first' & rest' & ->).
    now rewrite Hat.
  - destruct (no_second_word _ H1) as [->|[first ->]];
      destruct (no_second_word _ Hparts) as [->|[first' ->]]; reflexivity.
Qed.

Lemma handle_extend_time_command_parts
    (parts parts' : list string) (text text' sender_id : string) (s : state) :
  parts !! 1%nat = parts' !! 1%nat ->
  extract_at_user text = extract_at_user text' ->
  handle_extend_time_command parts text sender_id s
  = handle_extend_time_command parts' text' sender_id s.
Proof.
  intros Hparts Hat. unfold handle_extend_time_command. munfold.
  rewrite is_admin_run.
  destruct (bool_decide (sender_id ∈ self_admins s)); cbn [negb];
    [|reflexivity].
  destruct (parts !! 1%nat) as [arg|] eqn:H1; symmetry in Hparts.
  - destruct (second_word _ _ H1) as (first & rest & ->).
    destruct (second_word _ _ Hparts) as (first' & rest' & ->).
    now rewrite Hat.
  - destruct (no_second_word _ H1) as [->|[first ->]];
      destruct (no_second_word _ Hparts) as [->|[first' ->]]; reflexivity.
Qed.

(** X30: of a message that is a plain text only three things count: its
    first word in lower case, its second word, and the user it
    mentions.  Two such messages that agree on these get the same
    answer and have the same effect; the case of the command, the space
    between the words and any further word are of no account. *)
Theorem message_counts_by_three_parts
    (message_text message_text' sender_id : string) (s : state) :
  plain message_text = true ->
  plain message_text' = true ->
  command_of message_text = command_of message_text' ->
  words_of message_text !! 1%nat = words_of message_text' !! 1%nat ->
  extract_at_user message_text = extract_at_user message_text' ->
  process_message message_text sender_id s
  = process_message message_text' sender_id s.
Proof.
  intros _ _ Hcmd Hparts Hat.
  destruct (command_cases message_text) as [H|[H|[H|[H|[H|H]]]]];
    pose proof H as H'; rewrite Hcmd in H'.
  - rewrite (process_message_yhm _ _ H), (process_message_yhm _ _ H'), !fmap_run.
    now rewrite (handle_yhm_command_parts _ _ _ _ _ _ Hparts Hat).
  - rewrite (process_message_extend _ _ H), (process_message_extend _ _ H'),
      !fmap_run.
    now rewrite (handle_extend_time_command_parts _ _ _ _ _ _ Hparts Hat).
  - now rewrite (process_message_check _ _ H), (process_message_check _ _ H').
  - now rewrite (process_message_list _ _ _ H), (process_message_list _ _ _ H').
  - now rewrite (process_message_help _ _ H), (process_message_help _ _ H').
  - now rewrite (process_message_other _ _ _ H), (process_message_other _ _ _ H').
Qed.

(** The command in capitals, with more space and a greeting at the
    end. *)
Lemma message_counts_by_three_parts_witness :
  process_message "  /YHM   bob [CQ:at,qq=10002]  thanks" "90001" Sample.s0
  = process_message "/yhm bob [CQ:at,qq=10002]" "90001" Sample.s0.
Proof.
  apply (message_counts_by_three_parts
           "  /YHM   bob [CQ:at,qq=10002]  thanks" "/yhm bob [CQ:at,qq=10002]"
           "90001" Sample.s0);
    vm_compute; reflexivity.
Defined.

End Words.

Section Composition.
Import Datetime.

(** X26: an extension followed by a look at the expiry, on one day
    [today] (after midnight).  After [/续时] from an admin for a user
    whose [expire_date] reads as a date, [/查看到期时间] from that user
    shows the new date, and as number of days left the days from
    [today] to the later of the old date and [today], plus the days of
    the extension, less one: for a record that had expired, an
    extension by [days] days shows [days - 1] days left.  (The message
    of the extension is a plain text, and [today] is not before
    1000-01-01.) *)
Theorem extension_then_check
    (extend_text check_text admin_id : string) (s : state)
    (arg target : string) (days today : Z)
    (info : user_info) (stored : string) (current_expire : datetime) :
  admin_id ∈ self_admins s ->
  plain extend_text = true ->
  command_of extend_text = Some "/续时" ->
  words_of extend_text !! 1%nat = Some arg ->
  int_reads arg days -> 0 < days ->
  extract_at_user extend_text = Some target ->
  command_of check_text = Some "/查看到期时间" ->
  dict_get target (users_of s) = Some info ->
  info !! "expire_date" = Some stored ->
  strptime stored = Some current_expire ->
  clock_within today s ->
  FIRST_PADDED <= today ->
  Z.max (ordinal current_expire) today + days <= Calendar.MAXORDINAL ->
  let new_expire := mkdt (Z.max (ordinal current_expire) today + days) 0 in
  let s1 := (process_message extend_text admin_id s).2 in
  (process_message check_text target s1).1
  = inr (Some (service_status (<["expire_date" := strftime new_expire]> info)
                 (status_text
                    (Z.max (ordinal current_expire) today + days - today - 1)))).
Proof.
  intros Hadm _ Hcmd Hparts [Hint _] Hpos Htarget Hcheck Hget Hstored Hparse
    Hclock _ Hmax. cbv zeta.
  destruct (Hclock (ticks s)) as [Hday _].
  destruct (DatetimeFacts.strptime_range _ _ Hparse) as [Hrange _].
  rewrite (extend_command_run _ _ _ _ _ _ _ _ _
             Hadm Hcmd Hparts Hint Hpos Htarget Hget Hstored Hparse)
    by (unfold reading; rewrite Hday; assumption).
  unfold reading at 1 2. rewrite Hday. cbn [snd].
  set (new_expire := mkdt (Z.max (ordinal current_expire) today + days) 0).
  set (s1 := set_users_file _ (tick s)).
  assert (Hnew : strptime (strftime new_expire) = Some new_expire)
    by (apply (DatetimeFacts.strptime_strftime new_expire); cbn; lia).
  assert (Hclock1 : 0 < usec (reading s1) < USEC_PER_DAY
                    /\ ordinal (reading s1) = today).
  { destruct (Hclock (ticks s1)) as [? ?]. now split. }
  destruct Hclock1 as [Husec Hday1].
  rewrite (process_message_check _ _ Hcheck), fmap_run.
  rewrite handle_check_expire_command_run.
  unfold s1 at 1. rewrite users_of_set, dict_get_set_eq.
  rewrite bool_decide_eq_false_2 by apply insert_non_empty.
  unfold get_default at 1. rewrite lookup_insert_eq, Hnew.
  rewrite (sub_days_from_clock new_expire (reading s1) eq_refl) by lia.
  destruct (Z.eqb_spec (usec (reading s1)) 0); [lia|].
  rewrite Hday1. reflexivity.
Qed.

(** The second sample user, who expired ten days before, gets thirty
    days at noon of 2024-01-10 and is told that twenty-nine are left. *)
Lemma extension_then_check_witness :
  (process_message "/查看到期时间" "10002"
     (process_message "/续时 30 @10002" "90001" Sample.s0).2).1
  = inr (Some ("📊 您的服务状态：" +:+ LF
               +:+ "👤 外部平台用户名：bob" +:+ LF
               +:+ "📅 开户时间：2023-11-01" +:+ LF
               +:+ "⏰ 到期时间：2024-02-09" +:+ LF
               +:+ "⏳ 距离到期还有：29 天")).
Proof.
  rewrite (extension_then_check "/续时 30 @10002" "/查看到期时间" "90001"
             Sample.s0 "30" "10002" 30 738895
             (Sample.record "bob" "2023-11-01" "2023-12-31") "2023-12-31"
             (mkdt (738895 - 10) 0));
    [reflexivity | apply list_elem_of_here | reflexivity | reflexivity
    | reflexivity
    | split; [reflexivity|cbn; lia] | lia | reflexivity | reflexivity
    | reflexivity | reflexivity | reflexivity
    | intros k; unfold USEC_PER_DAY; cbn; lia
    | vm_compute; discriminate
    | vm_compute; discriminate].
Defined.

Lemma strftime_inj (a b : Z) :
  1 <= a <= Calendar.MAXORDINAL -> 1 <= b <= Calendar.MAXORDINAL ->
  strftime (mkdt a 0) = strftime (mkdt b 0) -> a = b.
Proof.
  intros Ha Hb Heq.
  pose proof (DatetimeFacts.strptime_strftime (mkdt a 0) Ha) as Hpa.
  pose proof (DatetimeFacts.strptime_strftime (mkdt b 0) Hb) as Hpb.
  rewrite Heq, Hpb in Hpa. now injection Hpa.
Qed.

(** X27: the three scans of a round of reminders, while the clock stays
    on one day [today]: they look for the dates of [today + 3], [today]
    and [today - 1], and no record is found by two of them, so that no
    user gets two kinds of reminder in one round. *)
Theorem scans_of_a_round_are_disjoint (s : state) (today : Z) :
  clock_on today s ->
  2 <= today -> today + 3 <= Calendar.MAXORDINAL ->
  exists found3 found0 found1,
    get_expiring_users 3 s = (inr found3, tick s)
    /\ get_expiring_users 0 (tick s) = (inr found0, tick (tick s))
    /\ get_expired_users 1 (tick (tick s)) = (inr found1, tick (tick (tick s)))
    /\ forall entry,
         ~ (entry ∈ found3 /\ entry ∈ found0)
         /\ ~ (entry ∈ found3 /\ entry ∈ found1)
         /\ ~ (entry ∈ found0 /\ entry ∈ found1).
Proof.
  intros Hclock Hlo Hhi.
  assert (Hwf : forall s0, clock s0 = clock s ->
                  wf (reading s0) /\ ordinal (reading s0) = today).
  { intros s0 Hs0. unfold wf, reading. rewrite Hs0.
    destruct (Hclock (ticks s0)) as [-> ?]. split; [|reflexivity].
    split; [lia|assumption]. }
  destruct (Hwf s eq_refl) as [Hwf3 Hday3].
  destruct (Hwf (tick s) eq_refl) as [Hwf0 Hday0].
  destruct (Hwf (tick (tick s)) eq_refl) as [Hwf1 Hday1].
  rewrite (get_expiring_users_run 3 s), (get_expiring_users_run 0 (tick s)),
    (get_expired_users_run 1 (tick (tick s))) by (assumption || lia).
  rewrite !get_users_by_expire_date_run, !users_of_tick, Hday3, Hday0, Hday1.
  eexists _, _, _. do 3 (split; [reflexivity|]).
  intros entry. rewrite !list_elem_of_filter. unfold expires_on.
  split; [|split]; intros [[H1 _] [H2 _]]; rewrite H1 in H2;
    injection H2 as H2; apply strftime_inj in H2; lia.
Qed.

(** Noon of 2024-01-10: the fourth, the first and the fifth user of the
    sample. *)
Lemma scans_of_a_round_are_disjoint_witness :
  exists found3 found0 found1,
    get_expiring_users 3 Sample.s0 = (inr found3, tick Sample.s0)
    /\ get_expiring_users 0 (tick Sample.s0)
       = (inr found0, tick (tick Sample.s0))
    /\ get_expired_users 1 (tick (tick Sample.s0))
       = (inr found1, tick (tick (tick Sample.s0)))
    /\ forall entry,
         ~ (entry ∈ found3 /\ entry ∈ found0)
         /\ ~ (entry ∈ found3 /\ entry ∈ found1)
         /\ ~ (entry ∈ found0 /\ entry ∈ found1).
Proof.
  apply (scans_of_a_round_are_disjoint Sample.s0 738895).
  - intros k. unfold USEC_PER_DAY. cbn. lia.
  - lia.
  - unfold Calendar.MAXORDINAL. lia.
Defined.

End Composition.
